(** * Galvo.py: position tracking of Thorlabs galvo drivers

    A shallow embedding of [GalvoDriver] (one mirror axis) and
    [GalvoDrivers] (a group of axes sharing one LabJack) from
    [src/Galvo.py], with the properties of the specification stated
    over it.

    Python objects are mutated in place; here every method takes the
    object (and the state of the hardware) and returns the updated
    object, the updated hardware and either a value or the exception
    that left the method.  Mutations made before an exception is raised
    are kept, as in Python. *)

From stdpp Require Import gmap strings list fin_maps.
From Stdlib Require Import ZArith Lia.

(** ** Exceptions and results *)

(** The exceptions that can leave a method of Galvo.py.  The named ones
    are raised by the statements of Galvo.py itself ([raise], a missing
    dict key, an unbound local, an index, a repeated keyword argument)
    and by the user's interrupt; [Foreign] stands for whatever a
    collaborator (Move.py, Position.py, the LabJack wrapper) raises on
    its own account, of whatever class. *)
Inductive exn : Type :=
| ValueError (msg : string)
| KeyError (msg : string)
| KeyboardInterrupt (msg : string)
| UnboundLocalError (name : string)
| IndexError
| TypeError (msg : string)
| Foreign (tag : string).

Inductive result (A : Type) : Type :=
| Ok (a : A)
| Raise (e : exn).
Arguments Ok {A} a.
Arguments Raise {A} e.

(** What a call into a collaborator can do: return, be interrupted by the
    user (SIGINT surfaces as a bare KeyboardInterrupt), or fail. *)
Inductive outcome (A : Type) : Type :=
| Returns (a : A)
| Interrupted
| Fails (tag : string).
Arguments Returns {A} a.
Arguments Interrupted {A}.
Arguments Fails {A} tag.

Definition of_outcome {A} (o : outcome A) : result A :=
  match o with
  | Returns a => Ok a
  | Interrupted => Raise (KeyboardInterrupt EmptyString)
  | Fails tag => Raise (Foreign tag)
  end.

(** ** Numbers

    Positions, voltages, speeds and durations are Python numbers.  The
    methods only add, subtract and compare them with zero, so the
    embedding is generic in the number type. *)
Class PyNum (num : Type) : Type := {
  nzero : num;
  nadd : num -> num -> num;
  nsub : num -> num -> num;
  nis_zero : num -> bool   (* [x == 0] *)
}.

(** The calibration constants of Position.py are not part of Galvo.py:
    the two conversions are parameters. *)
Class Calibration (num : Type) : Type := {
  pos_to_voltage : string -> num -> num;
  voltage_to_pos : string -> num -> num
}.

(** [axis not in ["x", "z"]] *)
Definition supported_axis (axis : string) : bool :=
  bool_decide (axis = "x") || bool_decide (axis = "z").

Definition axis_error : exn :=
  ValueError "axis should be either 'x' (parallel to surface of rod) or 'z' (radially away from rod)".

Definition stopped_by_user : exn := KeyboardInterrupt "Moving stopped by user!".

(** The two KeyErrors of the validation in [GalvoDrivers.__init__]. *)
Definition missing_dac_name (ax : string) : exn :=
  KeyError ("Input dac_name axes is missing '" +:+ ax +:+ "'-axis").

Definition missing_pos_init (ax : string) : exn :=
  KeyError ("Input pos_init axes is missing '" +:+ ax +:+ "'-axis").

(** [f(speed=0, ...)] with a second [speed] among the unpacked keyword
    arguments. *)
Definition duplicate_speed : exn :=
  TypeError "go_to() got multiple values for keyword argument 'speed'".

(** [self.go_to(...)] with a key [self] among the unpacked keyword
    arguments: it clashes with the bound first parameter. *)
Definition duplicate_self : exn :=
  TypeError "go_to() got multiple values for argument 'self'".

(** [self.go_to(speed=0, ...)] with a dict unpacked into the keyword
    arguments: the call is refused when the dict names [speed], given
    explicitly, or [self], bound by the method call. *)
Definition unpack_clash {A} (kwargs : gmap string A) : option exn :=
  if decide (is_Some (kwargs !! "speed")) then Some duplicate_speed
  else if decide (is_Some (kwargs !! "self")) then Some duplicate_self
  else None.

(** ** The values of Position.py and Move.py *)

Record Point (num : Type) : Type := mkPoint {
  Point_axis : string;
  Point_pos : num;
  Point_voltage : num
}.
Arguments mkPoint {num} _ _ _.
Arguments Point_axis {num} _.
Arguments Point_pos {num} _.
Arguments Point_voltage {num} _.

(** What Galvo.py reads of a [Move]: its duration [t] and its codes
    [bits]. *)
Record Move (num : Type) : Type := mkMove {
  Move_t : num;
  Move_bits : list Z
}.
Arguments mkMove {num} _ _.
Arguments Move_t {num} _.
Arguments Move_bits {num} _.

Record MoveMultiDim (num : Type) : Type := mkMoveMultiDim {
  MoveMultiDim_t : num;
  MoveMultiDim_bits : list (string * list Z)   (* a dict, in insertion order *)
}.
Arguments mkMoveMultiDim {num} _ _.
Arguments MoveMultiDim_t {num} _.
Arguments MoveMultiDim_bits {num} _.

(** The planners of Move.py are not among the sources: the constructors
    [Move(axis, pos, new_pos, speed)] and
    [MoveMultiDim(axis, original_pos, new_abs_pos, speed)] are
    parameters. *)
Class Planner (num : Type) : Type := {
  Move_init : string -> num -> num -> num -> outcome (Move num);
  MoveMultiDim_init :
    list string -> gmap string num -> gmap string num -> num -> outcome (MoveMultiDim num)
}.

Section Galvo.
Context {num : Type} `{PyNum num} `{Calibration num} `{Planner num}.
Context {HW : Type}.   (* the state of the device *)

Local Abbreviation Point := (Point num).
Local Abbreviation Move := (Move num).
Local Abbreviation MoveMultiDim := (MoveMultiDim num).

(** Modelled from the spec: [Point(axis, pos)] of Position.py, which is
    not among the sources.  A Point built from a position keeps it and
    derives its output value through the calibration of the axis; an
    axis outside the supported set is rejected. *)
Definition Point_of_pos (axis : string) (pos : num) : result Point :=
  if supported_axis axis
  then Ok (mkPoint axis pos (pos_to_voltage axis pos))
  else Raise (Foreign "InvalidAxis").

(** Modelled from the spec: [Point(axis, voltage=v)] of Position.py.  A
    Point built from an output value keeps it and derives the position
    through the inverse calibration. *)
Definition Point_of_voltage (axis : string) (v : num) : result Point :=
  if supported_axis axis
  then Ok (mkPoint axis (voltage_to_pos axis v) v)
  else Raise (Foreign "InvalidAxis").

(** Modelled from the spec: [Point.__sub__] of Position.py; the
    difference of two Points is the Point of the difference of their
    positions (output values are not subtracted). *)
Definition Point_sub (p q : Point) : result Point :=
  Point_of_pos (Point_axis p) (nsub (Point_pos p) (Point_pos q)).

(** ** The LabJack *)

(** The value written by [updater.update]: one code, or a tuple with
    one code per register. *)
Inductive update_arg : Type :=
| OneCode (b : Z)
| Codes (bs : list Z).

(** The data loaded by [streamer.load_data]: the codes of one axis, or
    a tuple with the codes of every axis. *)
Inductive stream_arg : Type :=
| OneAxis (bits : list Z)
| Axes (bits : list (list Z)).

(** The object passed as [open_labjack]; a readback maps register names
    to voltages. *)
Record LabJack : Type := mkLabJack {
  updater_update : update_arg -> HW -> HW * outcome (gmap string num);
  updater_read : HW -> HW * outcome (gmap string num);
  streamer_stream_setup : HW -> HW * outcome unit;
  streamer_load_data : stream_arg -> HW -> HW * outcome unit;
  streamer_start_stream : num -> HW -> HW * outcome num
}.

(** ** Local variables of [go_to]

    [actual_t] and [actual_V] are assigned inside the [try] block; the
    handler and the [finally] clause find them bound or not. *)
Record locals : Type := mkLocals {
  actual_t : option num;
  actual_V : option (gmap string num)
}.

Definition no_locals : locals := mkLocals None None.

(** The [try] block runs in a state made of the hardware and the
    locals; an exception stops it and keeps the state. *)
Definition Try (A : Type) : Type := HW * locals -> (HW * locals) * result A.

Definition try_ret {A} (a : A) : Try A := fun s => (s, Ok a).

Definition try_bind {A B} (m : Try A) (k : A -> Try B) : Try B :=
  fun s => match m s with
           | (s', Ok a) => k a s'
           | (s', Raise e) => (s', Raise e)
           end.

Definition try_raise {A} (e : exn) : Try A := fun s => (s, Raise e).

Definition call {A} (f : HW -> HW * outcome A) : Try A :=
  fun '(w, l) => let '(w', o) := f w in ((w', l), of_outcome o).

Definition set_actual_t (t : num) : Try unit :=
  fun '(w, l) => ((w, mkLocals (Some t) (actual_V l)), Ok tt).

Definition set_actual_V (v : gmap string num) : Try unit :=
  fun '(w, l) => ((w, mkLocals (actual_t l) (Some v)), Ok tt).

(** [bits[-1]] *)
Definition last_code (bits : list Z) : Try Z :=
  match last bits with
  | Some b => try_ret b
  | None => try_raise IndexError
  end.

(** [actual_V[dac_name]] on a readback *)
Definition register (v : gmap string num) (dac_name : string) : result num :=
  match v !! dac_name with
  | Some x => Ok x
  | None => Raise (KeyError dac_name)
  end.

Notation "'do' x <- m ; k" := (try_bind m (fun x => k))
  (at level 10, x name, m at level 100, k at level 200).
Notation "m ;; k" := (try_bind m (fun _ => k))
  (at level 100, k at level 200, right associativity).

(** ** GalvoDriver *)

Record GalvoDriver : Type := mkGalvoDriver {
  GalvoDriver_axis : string;
  GalvoDriver_dac_name : string;
  GalvoDriver_open_labjack : option LabJack;   (* [False] is [None] *)
  GalvoDriver___point : Point;                 (* [self.__point] *)
  GalvoDriver__point_history : list Point;     (* oldest first *)
  GalvoDriver__origin : Point;
  (* Instances take any attribute: [voltage] is no property of the
     class, it exists once somebody assigns it. *)
  GalvoDriver_voltage : option num
}.

(** property [_point] *)
Definition GalvoDriver__point (d : GalvoDriver) : Point := GalvoDriver___point d.

(** [_point.setter]: the Point held so far goes to the history, then the
    new one is installed. *)
Definition GalvoDriver_set__point (val : Point) (d : GalvoDriver) : GalvoDriver :=
  mkGalvoDriver (GalvoDriver_axis d) (GalvoDriver_dac_name d) (GalvoDriver_open_labjack d)
    val
    (GalvoDriver__point_history d ++ [GalvoDriver__point d])
    (GalvoDriver__origin d) (GalvoDriver_voltage d).

(** property [_pos] and its setter *)
Definition GalvoDriver__pos (d : GalvoDriver) : num := Point_pos (GalvoDriver__point d).

Definition GalvoDriver_set__pos (val : num) (d : GalvoDriver) : result GalvoDriver :=
  match Point_of_pos (GalvoDriver_axis d) val with
  | Ok p => Ok (GalvoDriver_set__point p d)
  | Raise e => Raise e
  end.

(** property [_voltage] and its setter *)
Definition GalvoDriver__voltage (d : GalvoDriver) : num := Point_voltage (GalvoDriver__point d).

Definition GalvoDriver_set__voltage (val : num) (d : GalvoDriver) : result GalvoDriver :=
  match Point_of_voltage (GalvoDriver_axis d) val with
  | Ok p => Ok (GalvoDriver_set__point p d)
  | Raise e => Raise e
  end.

(** [obj.voltage = val] from outside the class: a plain attribute. *)
Definition GalvoDriver_set_voltage (val : num) (d : GalvoDriver) : GalvoDriver :=
  mkGalvoDriver (GalvoDriver_axis d) (GalvoDriver_dac_name d) (GalvoDriver_open_labjack d)
    (GalvoDriver___point d) (GalvoDriver__point_history d) (GalvoDriver__origin d)
    (Some val).

Definition GalvoDriver_pos (d : GalvoDriver) : num := GalvoDriver__pos d.

Definition GalvoDriver_origin (d : GalvoDriver) : num := Point_pos (GalvoDriver__origin d).

Definition GalvoDriver__rel_point (d : GalvoDriver) : result Point :=
  Point_sub (GalvoDriver__point d) (GalvoDriver__origin d).

Definition GalvoDriver_rel_pos (d : GalvoDriver) : result num :=
  match GalvoDriver__rel_point d with
  | Ok p => Ok (Point_pos p)
  | Raise e => Raise e
  end.

Definition GalvoDriver_pos_history (d : GalvoDriver) : list num :=
  map Point_pos (GalvoDriver__point_history d).

Definition with_origin (o : Point) (d : GalvoDriver) : GalvoDriver :=
  mkGalvoDriver (GalvoDriver_axis d) (GalvoDriver_dac_name d) (GalvoDriver_open_labjack d)
    (GalvoDriver___point d) (GalvoDriver__point_history d) o (GalvoDriver_voltage d).

(** [set_origin(orig=None)] *)
Definition GalvoDriver_set_origin (orig : option num) (d : GalvoDriver) : result GalvoDriver :=
  match orig with
  | None => Ok (with_origin (GalvoDriver__point d) d)
  | Some o =>
      match Point_of_pos (GalvoDriver_axis d) o with
      | Ok p => Ok (with_origin p d)
      | Raise e => Raise e
      end
  end.

Definition GalvoDriver_reset_origin (d : GalvoDriver) : result GalvoDriver :=
  GalvoDriver_set_origin (Some nzero) d.

(** The body of the [try] of [GalvoDriver.go_to]. *)
Definition GalvoDriver_go_to_try (lj : LabJack) (move : Move) (speed : num) : Try unit :=
  if nis_zero speed || nis_zero (Move_t move) then
    set_actual_t nzero ;;
    do b <- last_code (Move_bits move) ;
    do v <- call (updater_update lj (OneCode b)) ;
    set_actual_V v
  else
    call (streamer_stream_setup lj) ;;
    call (streamer_load_data lj (OneAxis (Move_bits move))) ;;
    do t <- call (streamer_start_stream lj (Move_t move)) ;
    set_actual_t t ;;
    do v <- call (updater_read lj) ;
    set_actual_V v.

(** [try: actual_V / except NameError: actual_V = updater.read()] *)
Definition recover_actual_V (lj : LabJack) : Try unit :=
  fun '(w, l) =>
    match actual_V l with
    | Some _ => ((w, l), Ok tt)
    | None => (do v <- call (updater_read lj) ; set_actual_V v) (w, l)
    end.

(** [try: actual_t / except NameError: actual_t = move.t] *)
Definition recover_actual_t (planned_t : num) : Try unit :=
  fun '(w, l) =>
    match actual_t l with
    | Some _ => ((w, l), Ok tt)
    | None => set_actual_t planned_t (w, l)
    end.

Definition recover_locals (lj : LabJack) (planned_t : num) : Try unit :=
  recover_actual_V lj ;; recover_actual_t planned_t.

(** A local variable that must be bound to be read. *)
Definition bound {A} (name : string) (x : option A) : result A :=
  match x with
  | Some a => Ok a
  | None => Raise (UnboundLocalError name)
  end.

(** The [except KeyboardInterrupt] clause of [GalvoDriver.go_to]: the
    exception that leaves it, with the driver, hardware and locals it
    leaves behind. *)
Definition GalvoDriver_go_to_except (lj : LabJack) (move : Move)
    (d : GalvoDriver) (w : HW) (l : locals) : GalvoDriver * HW * locals * exn :=
  match recover_locals lj (Move_t move) (w, l) with
  | ((w', l'), Raise e) => (d, w', l', e)
  | ((w', l'), Ok _) =>
      match bound "actual_V" (actual_V l') with
      | Raise e => (d, w', l', e)
      | Ok v =>
          match register v (GalvoDriver_dac_name d) with
          | Raise e => (d, w', l', e)
          | Ok x =>
              match GalvoDriver_set__voltage x d with
              | Raise e => (d, w', l', e)
              | Ok d' => (d', w', l', stopped_by_user)
              end
          end
      end
  end.

(** The [finally] clause of [GalvoDriver.go_to]. *)
Definition GalvoDriver_go_to_finally (d : GalvoDriver) (l : locals) : result Point :=
  match bound "actual_V" (actual_V l) with
  | Raise e => Raise e
  | Ok v =>
      match register v (GalvoDriver_dac_name d) with
      | Raise e => Raise e
      | Ok x => Point_of_voltage (GalvoDriver_axis d) x
      end
  end.

(** [go_to(new_pos, speed)] *)
Definition GalvoDriver_go_to (new_pos speed : num) (d : GalvoDriver) (w : HW)
  : (GalvoDriver * HW) * result (num * num) :=
  let new_pos := nadd new_pos (GalvoDriver_origin d) in
  match of_outcome (Move_init (GalvoDriver_axis d) (GalvoDriver_pos d) new_pos speed) with
  | Raise e => ((d, w), Raise e)
  | Ok move =>
      match GalvoDriver_open_labjack d with
      | Some lj =>
          let '((w1, l1), r) := GalvoDriver_go_to_try lj move speed (w, no_locals) in
          (* except / else: the state they leave and the exception in flight *)
          let '(d2, w2, l2, pending) :=
            match r with
            | Raise (KeyboardInterrupt _) =>
                let '(d', w', l', e) := GalvoDriver_go_to_except lj move d w1 l1 in
                (d', w', l', Some e)
            | Raise e => (d, w1, l1, Some e)
            | Ok _ =>
                match GalvoDriver_set__pos new_pos d with
                | Ok d' => (d', w1, l1, None)
                | Raise e => (d, w1, l1, Some e)
                end
            end in
          (* finally *)
          match GalvoDriver_go_to_finally d2 l2 with
          | Raise e => ((d2, w2), Raise e)
          | Ok actual_point =>
              match pending with
              | Some e => ((d2, w2), Raise e)
              | None =>
                  match bound "actual_t" (actual_t l2) with
                  | Raise e => ((d2, w2), Raise e)
                  | Ok t => ((d2, w2), Ok (Point_pos actual_point, t))
                  end
              end
          end
      | None =>
          match GalvoDriver_set__pos new_pos d with
          | Raise e => ((d, w), Raise e)
          | Ok d' =>
              match Point_of_pos (GalvoDriver_axis d') (GalvoDriver_pos d') with
              | Raise e => ((d', w), Raise e)
              | Ok actual_point => ((d', w), Ok (Point_pos actual_point, nzero))
              end
          end
      end
  end.

(** [_revert_pos()]: the last Point of the history becomes the current
    one again; the Point it replaces is logged by the setter and once
    more by the method. *)
Definition GalvoDriver__revert_pos (d : GalvoDriver) : result GalvoDriver :=
  let temp_point := GalvoDriver__point d in
  match last (GalvoDriver__point_history d) with
  | None => Raise IndexError
  | Some p =>
      let d' := GalvoDriver_set__point p d in
      Ok (mkGalvoDriver (GalvoDriver_axis d') (GalvoDriver_dac_name d')
            (GalvoDriver_open_labjack d') (GalvoDriver___point d')
            (GalvoDriver__point_history d' ++ [temp_point])
            (GalvoDriver__origin d') (GalvoDriver_voltage d'))
  end.

(** [reset_pos()] *)
Definition GalvoDriver_reset_pos (d : GalvoDriver) (w : HW) : (GalvoDriver * HW) * result unit :=
  match GalvoDriver_go_to nzero nzero d w with
  | (s, Ok _) => (s, Ok tt)
  | (s, Raise e) => (s, Raise e)
  end.

(** [GalvoDriver(axis, dac_name, pos_init, open_labjack)].  Nothing is
    assigned before the axis check; an exception leaves no object. *)
Definition GalvoDriver_init (axis dac_name : string) (pos_init : num)
    (open_labjack : option LabJack) (w : HW) : HW * result GalvoDriver :=
  if negb (supported_axis axis) then (w, Raise axis_error)
  else
    match Point_of_pos axis pos_init with
    | Raise e => (w, Raise e)
    | Ok p =>
        (* [_origin] is first assigned by [set_origin] below *)
        let d0 := mkGalvoDriver axis dac_name open_labjack p [p] p None in
        match GalvoDriver_set_origin (Some pos_init) d0 with
        | Raise e => (w, Raise e)
        | Ok d1 =>
            match GalvoDriver_go_to pos_init nzero d1 w with
            | ((d2, w'), Ok _) => (w', Ok d2)
            | ((_, w'), Raise e) => (w', Raise e)
            end
        end
    end.

(** ** GalvoDrivers *)

Record GalvoDrivers : Type := mkGalvoDrivers {
  GalvoDrivers_axis : list string;
  GalvoDrivers_dac_name : gmap string string;
  GalvoDrivers_open_labjack : option LabJack;
  GalvoDrivers__galvos : gmap string GalvoDriver
}.

Definition with_galvos (gs : gmap string GalvoDriver) (g : GalvoDrivers) : GalvoDrivers :=
  mkGalvoDrivers (GalvoDrivers_axis g) (GalvoDrivers_dac_name g)
    (GalvoDrivers_open_labjack g) gs.

(** [d[key]] on a dict *)
Definition getitem {A} (d : gmap string A) (key : string) : result A :=
  match d !! key with
  | Some a => Ok a
  | None => Raise (KeyError key)
  end.

(** The loop of the dict-valued properties:
    [for ax in self.axis: out[ax] = f(self._galvos[ax])]. *)
Fixpoint for_each_axis {A} (f : GalvoDriver -> result A) (axis : list string)
    (gs : gmap string GalvoDriver) (out : gmap string A) : result (gmap string A) :=
  match axis with
  | [] => Ok out
  | ax :: rest =>
      match getitem gs ax with
      | Raise e => Raise e
      | Ok d =>
          match f d with
          | Raise e => Raise e
          | Ok a => for_each_axis f rest gs (<[ax := a]> out)
          end
      end
  end.

Definition GalvoDrivers_pos (g : GalvoDrivers) : result (gmap string num) :=
  for_each_axis (fun d => Ok (GalvoDriver_pos d)) (GalvoDrivers_axis g)
    (GalvoDrivers__galvos g) ∅.

Definition GalvoDrivers_rel_pos (g : GalvoDrivers) : result (gmap string num) :=
  for_each_axis GalvoDriver_rel_pos (GalvoDrivers_axis g) (GalvoDrivers__galvos g) ∅.

Definition GalvoDrivers_pos_history (g : GalvoDrivers) : result (gmap string (list num)) :=
  for_each_axis (fun d => Ok (GalvoDriver_pos_history d)) (GalvoDrivers_axis g)
    (GalvoDrivers__galvos g) ∅.

Definition GalvoDrivers_origin (g : GalvoDrivers) : result (gmap string num) :=
  for_each_axis (fun d => Ok (GalvoDriver_origin d)) (GalvoDrivers_axis g)
    (GalvoDrivers__galvos g) ∅.

(** The loop of [GalvoDrivers.set_origin].  With keyword arguments, a
    KeyError of the loop body is caught and only printed. *)
Fixpoint GalvoDrivers_set_origin_loop (orig : gmap string num) (axis : list string)
    (gs : gmap string GalvoDriver) : result (gmap string GalvoDriver) :=
  match axis with
  | [] => Ok gs
  | ax :: rest =>
      if decide (orig = ∅) then
        match getitem gs ax with
        | Raise e => Raise e
        | Ok d =>
            match GalvoDriver_set_origin None d with
            | Raise e => Raise e
            | Ok d' => GalvoDrivers_set_origin_loop orig rest (<[ax := d']> gs)
            end
        end
      else
        let body :=
          match getitem gs ax with
          | Raise e => Raise e
          | Ok d =>
              match getitem orig ax with
              | Raise e => Raise e
              | Ok o =>
                  match GalvoDriver_set_origin (Some o) d with
                  | Raise e => Raise e
                  | Ok d' => Ok (<[ax := d']> gs)
                  end
              end
          end in
        match body with
        | Ok gs' => GalvoDrivers_set_origin_loop orig rest gs'
        | Raise (KeyError _) => GalvoDrivers_set_origin_loop orig rest gs
        | Raise e => Raise e
        end
  end.

(** [set_origin]: [orig] is the dict of keyword arguments, as the body
    receives it. *)
Definition GalvoDrivers_set_origin (orig : gmap string num) (g : GalvoDrivers)
  : result GalvoDrivers :=
  match GalvoDrivers_set_origin_loop orig (GalvoDrivers_axis g) (GalvoDrivers__galvos g) with
  | Ok gs => Ok (with_galvos gs g)
  | Raise e => Raise e
  end.

Fixpoint GalvoDrivers_reset_origin_loop (axis : list string)
    (gs : gmap string GalvoDriver) : result (gmap string GalvoDriver) :=
  match axis with
  | [] => Ok gs
  | ax :: rest =>
      match getitem gs ax with
      | Raise e => Raise e
      | Ok d =>
          match GalvoDriver_set_origin (Some nzero) d with
          | Raise e => Raise e
          | Ok d' => GalvoDrivers_reset_origin_loop rest (<[ax := d']> gs)
          end
      end
  end.

(** [reset_origin()] *)
Definition GalvoDrivers_reset_origin (g : GalvoDrivers) : result GalvoDrivers :=
  match GalvoDrivers_reset_origin_loop (GalvoDrivers_axis g) (GalvoDrivers__galvos g) with
  | Ok gs => Ok (with_galvos gs g)
  | Raise e => Raise e
  end.

(** The first loop of [GalvoDrivers.go_to]: every stored driver moves its
    own Point and reports the absolute position.  The drivers already
    visited stay moved when a later one raises. *)
Fixpoint GalvoDrivers_go_to_children (speed : num) (new_pos : gmap string num)
    (axis : list string) (gs : gmap string GalvoDriver) (w : HW)
    (new_abs_pos : gmap string num)
  : (gmap string GalvoDriver * HW) * result (gmap string num) :=
  match axis with
  | [] => ((gs, w), Ok new_abs_pos)
  | ax :: rest =>
      match getitem gs ax with
      | Raise e => ((gs, w), Raise e)
      | Ok d =>
          match getitem new_pos ax with
          | Raise e => ((gs, w), Raise e)
          | Ok p =>
              match GalvoDriver_go_to p speed d w with
              | ((d', w'), Ok (a, _)) =>
                  GalvoDrivers_go_to_children speed new_pos rest (<[ax := d']> gs) w'
                    (<[ax := a]> new_abs_pos)
              | ((d', w'), Raise e) => ((<[ax := d']> gs, w'), Raise e)
              end
          end
      end
  end.

(** [tuple([mb[-1] for mb in tuple(move.bits.values())])] *)
Fixpoint last_codes (bits : list (list Z)) : Try (list Z) :=
  match bits with
  | [] => try_ret []
  | mb :: rest =>
      do b <- last_code mb ;
      do bs <- last_codes rest ;
      try_ret (b :: bs)
  end.

(** The body of the [try] of [GalvoDrivers.go_to]. *)
Definition GalvoDrivers_go_to_try (lj : LabJack) (move : MoveMultiDim) (speed : num)
  : Try unit :=
  if nis_zero speed || nis_zero (MoveMultiDim_t move) then
    do move_bits <- last_codes (map snd (MoveMultiDim_bits move)) ;
    set_actual_t nzero ;;
    do v <- call (updater_update lj (Codes move_bits)) ;
    set_actual_V v
  else
    call (streamer_stream_setup lj) ;;
    call (streamer_load_data lj (Axes (map snd (MoveMultiDim_bits move)))) ;;
    do t <- call (streamer_start_stream lj (MoveMultiDim_t move)) ;
    set_actual_t t ;;
    do v <- call (updater_read lj) ;
    set_actual_V v.

(** The loop of the handler:
    [self._galvos[ax].voltage = actual_V[self._galvos[ax].dac_name]]. *)
Fixpoint GalvoDrivers_go_to_stop (v : gmap string num) (axis : list string)
    (gs : gmap string GalvoDriver) : gmap string GalvoDriver * result unit :=
  match axis with
  | [] => (gs, Ok tt)
  | ax :: rest =>
      match getitem gs ax with
      | Raise e => (gs, Raise e)
      | Ok d =>
          match register v (GalvoDriver_dac_name d) with
          | Raise e => (gs, Raise e)
          | Ok x => GalvoDrivers_go_to_stop v rest (<[ax := GalvoDriver_set_voltage x d]> gs)
          end
      end
  end.

(** The [except KeyboardInterrupt] clause of [GalvoDrivers.go_to]. *)
Definition GalvoDrivers_go_to_except (lj : LabJack) (move : MoveMultiDim)
    (axis : list string) (gs : gmap string GalvoDriver) (w : HW) (l : locals)
  : gmap string GalvoDriver * HW * locals * exn :=
  match recover_locals lj (MoveMultiDim_t move) (w, l) with
  | ((w', l'), Raise e) => (gs, w', l', e)
  | ((w', l'), Ok _) =>
      match bound "actual_V" (actual_V l') with
      | Raise e => (gs, w', l', e)
      | Ok v =>
          match GalvoDrivers_go_to_stop v axis gs with
          | (gs', Raise e) => (gs', w', l', e)
          | (gs', Ok _) => (gs', w', l', stopped_by_user)
          end
      end
  end.

(** The loop of the [finally] clause of [GalvoDrivers.go_to]. *)
Fixpoint GalvoDrivers_go_to_finally (l : locals) (axis : list string)
    (gs : gmap string GalvoDriver) (actual_pos : gmap string num)
  : result (gmap string num) :=
  match axis with
  | [] => Ok actual_pos
  | ax :: rest =>
      match bound "actual_V" (actual_V l) with
      | Raise e => Raise e
      | Ok v =>
          match getitem gs ax with
          | Raise e => Raise e
          | Ok d =>
              match register v (GalvoDriver_dac_name d) with
              | Raise e => Raise e
              | Ok x =>
                  match Point_of_voltage ax x with
                  | Raise e => Raise e
                  | Ok p => GalvoDrivers_go_to_finally l rest gs (<[ax := Point_pos p]> actual_pos)
                  end
              end
          end
      end
  end.

(** The loop of the branch without a DAQ:
    [actual_pos[ax] = Point(ax, new_pos[ax]).pos]. *)
Fixpoint GalvoDrivers_go_to_offline (new_pos : gmap string num) (axis : list string)
    (actual_pos : gmap string num) : result (gmap string num) :=
  match axis with
  | [] => Ok actual_pos
  | ax :: rest =>
      match getitem new_pos ax with
      | Raise e => Raise e
      | Ok p =>
          match Point_of_pos ax p with
          | Raise e => Raise e
          | Ok pt => GalvoDrivers_go_to_offline new_pos rest (<[ax := Point_pos pt]> actual_pos)
          end
      end
  end.

(** [go_to]: [speed] and the dict [new_pos] of the other keyword
    arguments, as the body receives them. *)
Definition GalvoDrivers_go_to (speed : num) (new_pos : gmap string num)
    (g : GalvoDrivers) (w : HW)
  : (GalvoDrivers * HW) * result (gmap string num * num) :=
  let axis := GalvoDrivers_axis g in
  match GalvoDrivers_pos g with
  | Raise e => ((g, w), Raise e)
  | Ok original_pos =>
      match GalvoDrivers_go_to_children speed new_pos axis (GalvoDrivers__galvos g) w ∅ with
      | ((gs, w0), Raise e) => ((with_galvos gs g, w0), Raise e)
      | ((gs, w0), Ok new_abs_pos) =>
          match of_outcome (MoveMultiDim_init axis original_pos new_abs_pos speed) with
          | Raise e => ((with_galvos gs g, w0), Raise e)
          | Ok move =>
              match GalvoDrivers_open_labjack g with
              | Some lj =>
                  let '((w1, l1), r) := GalvoDrivers_go_to_try lj move speed (w0, no_locals) in
                  let '(gs2, w2, l2, pending) :=
                    match r with
                    | Raise (KeyboardInterrupt _) =>
                        let '(gs', w', l', e) :=
                          GalvoDrivers_go_to_except lj move axis gs w1 l1 in
                        (gs', w', l', Some e)
                    | Raise e => (gs, w1, l1, Some e)
                    | Ok _ => (gs, w1, l1, None)
                    end in
                  match GalvoDrivers_go_to_finally l2 axis gs2 ∅ with
                  | Raise e => ((with_galvos gs2 g, w2), Raise e)
                  | Ok actual_pos =>
                      match pending with
                      | Some e => ((with_galvos gs2 g, w2), Raise e)
                      | None =>
                          match bound "actual_t" (actual_t l2) with
                          | Raise e => ((with_galvos gs2 g, w2), Raise e)
                          | Ok t => ((with_galvos gs2 g, w2), Ok (actual_pos, t))
                          end
                      end
                  end
              | None =>
                  match GalvoDrivers_go_to_offline new_pos axis ∅ with
                  | Raise e => ((with_galvos gs g, w0), Raise e)
                  | Ok actual_pos => ((with_galvos gs g, w0), Ok (actual_pos, nzero))
                  end
              end
          end
      end
  end.

(** The dict [rst_pos] of [reset_pos]: [rst_pos[ax] = 0] for every
    axis. *)
Definition rst_pos (axis : list string) : gmap string num :=
  foldl (fun m ax => <[ax := nzero]> m) ∅ axis.

(** [reset_pos()]: [go_to] with [speed=0] and [rst_pos] unpacked into
    keyword arguments. *)
Definition GalvoDrivers_reset_pos (g : GalvoDrivers) (w : HW)
  : (GalvoDrivers * HW) * result unit :=
  match unpack_clash (rst_pos (GalvoDrivers_axis g)) with
  | Some e => ((g, w), Raise e)
  | None =>
      match GalvoDrivers_go_to nzero (rst_pos (GalvoDrivers_axis g)) g w with
      | (s, Ok _) => (s, Ok tt)
      | (s, Raise e) => (s, Raise e)
      end
  end.

(** The validation loop of [GalvoDrivers.__init__]. *)
Fixpoint GalvoDrivers_init_check (axis : list string) (dac_name : gmap string string)
    (pos_init : gmap string num) : result unit :=
  match axis with
  | [] => Ok tt
  | ax :: rest =>
      match dac_name !! ax with
      | None => Raise (KeyError ("Input dac_name axes is missing '" +:+ ax +:+ "'-axis"))
      | Some _ =>
          match pos_init !! ax with
          | None => Raise (KeyError ("Input pos_init axes is missing '" +:+ ax +:+ "'-axis"))
          | Some _ => GalvoDrivers_init_check rest dac_name pos_init
          end
      end
  end.

(** The loop of [GalvoDrivers.__init__] that creates the stored drivers,
    each with [open_labjack=False]. *)
Fixpoint GalvoDrivers_init_galvos (axis : list string) (dac_name : gmap string string)
    (pos_init : gmap string num) (gs : gmap string GalvoDriver) (w : HW)
  : HW * result (gmap string GalvoDriver) :=
  match axis with
  | [] => (w, Ok gs)
  | ax :: rest =>
      match getitem dac_name ax with
      | Raise e => (w, Raise e)
      | Ok dn =>
          match getitem pos_init ax with
          | Raise e => (w, Raise e)
          | Ok p =>
              match GalvoDriver_init ax dn p None w with
              | (w', Raise e) => (w', Raise e)
              | (w', Ok d) =>
                  GalvoDrivers_init_galvos rest dac_name pos_init (<[ax := d]> gs) w'
              end
          end
      end
  end.

(** [GalvoDrivers(axis, dac_name, pos_init, open_labjack)] *)
Definition GalvoDrivers_init (axis : list string) (dac_name : gmap string string)
    (pos_init : gmap string num) (open_labjack : option LabJack) (w : HW)
  : HW * result GalvoDrivers :=
  match GalvoDrivers_init_check axis dac_name pos_init with
  | Raise e => (w, Raise e)
  | Ok _ =>
      match GalvoDrivers_init_galvos axis dac_name pos_init ∅ w with
      | (w', Raise e) => (w', Raise e)
      | (w', Ok gs) =>
          let g := mkGalvoDrivers axis dac_name open_labjack gs in
          (* [self.go_to] with [pos_init] unpacked and [speed=0] *)
          match unpack_clash pos_init with
          | Some e => (w', Raise e)
          | None =>
              match GalvoDrivers_go_to nzero pos_init g w' with
              | ((g', w''), Ok _) => (w'', Ok g')
              | ((_, w''), Raise e) => (w'', Raise e)
              end
          end
      end
  end.

(** ** States a program can reach *)

(** The drivers a caller can hold: built by the constructor, then changed
    by the public methods, by [_revert_pos] and by an assignment of the
    attribute [voltage] from outside. *)
Inductive GalvoDriver_reachable : GalvoDriver -> Prop :=
| reach_init axis dac_name pos_init lj w w' d :
    GalvoDriver_init axis dac_name pos_init lj w = (w', Ok d) ->
    GalvoDriver_reachable d
| reach_set_origin orig d d' :
    GalvoDriver_reachable d ->
    GalvoDriver_set_origin orig d = Ok d' ->
    GalvoDriver_reachable d'
| reach_go_to new_pos speed d w d' w' r :
    GalvoDriver_reachable d ->
    GalvoDriver_go_to new_pos speed d w = ((d', w'), r) ->
    GalvoDriver_reachable d'
| reach_revert_pos d d' :
    GalvoDriver_reachable d ->
    GalvoDriver__revert_pos d = Ok d' ->
    GalvoDriver_reachable d'
| reach_set_voltage x d :
    GalvoDriver_reachable d ->
    GalvoDriver_reachable (GalvoDriver_set_voltage x d).

(** Every declared axis has a stored driver, filed under its own axis,
    which is a supported one. *)
Definition GalvoDrivers_wf (g : GalvoDrivers) : Prop :=
  forall ax, ax ∈ GalvoDrivers_axis g ->
    exists d, GalvoDrivers__galvos g !! ax = Some d /\
              GalvoDriver_axis d = ax /\ supported_axis ax = true.

(** What a method of the group never changes of a stored driver. *)
Definition same_setup (d d' : GalvoDriver) : Prop :=
  GalvoDriver_axis d' = GalvoDriver_axis d /\
  GalvoDriver_dac_name d' = GalvoDriver_dac_name d /\
  GalvoDriver_open_labjack d' = GalvoDriver_open_labjack d /\
  GalvoDriver__origin d' = GalvoDriver__origin d.

(** The same keys, each with a driver of the same setup. *)
Definition children_kept (gs gs' : gmap string GalvoDriver) : Prop :=
  forall k, option_Forall2 same_setup (gs !! k) (gs' !! k).

(** An exception other than a ValueError. *)
Definition not_ValueError (e : exn) : Prop :=
  match e with
  | ValueError _ => False
  | _ => True
  end.

(** A block that never raises a ValueError. *)
Definition Try_no_ValueError {A} (m : Try A) : Prop :=
  forall s s' e, m s = (s', Raise e) -> not_ValueError e.

End Galvo.

Arguments GalvoDriver : clear implicits.
Arguments GalvoDrivers : clear implicits.
Arguments LabJack : clear implicits.
Arguments locals : clear implicits.

(** ** A concrete setting for examples

    Python's integers as numbers, an affine calibration, a planner for
    the cases that matter below, and a LabJack whose stream is stopped
    by the user. *)

#[export] Instance Z_PyNum : PyNum Z := {|
  nzero := 0%Z;
  nadd := Z.add;
  nsub := Z.sub;
  nis_zero := Z.eqb 0%Z
|}.

(** 10 codes per micron around mid-scale, on both axes. *)
#[export] Instance demo_calibration : Calibration Z := {|
  pos_to_voltage := fun _ p => (10 * p + 32768)%Z;
  voltage_to_pos := fun _ v => ((v - 32768) / 10)%Z
|}.

(** An immediate write for a zero speed or a zero distance, otherwise the
    two end points streamed over [distance / speed] seconds. *)
Definition demo_Move (axis : string) (pos new_pos speed : Z) : outcome (Move Z) :=
  if (speed =? 0)%Z || (pos =? new_pos)%Z
  then Returns (mkMove 0%Z [pos_to_voltage axis new_pos])
  else Returns (mkMove (Z.abs (new_pos - pos) / speed)%Z
                  [pos_to_voltage axis pos; pos_to_voltage axis new_pos]).

Definition demo_MoveMultiDim (axis : list string) (original_pos new_abs_pos : gmap string Z)
    (speed : Z) : outcome (MoveMultiDim Z) :=
  let one ax :=
    let p := default 0%Z (original_pos !! ax) in
    let q := default 0%Z (new_abs_pos !! ax) in
    match demo_Move ax p q speed with
    | Returns m => (ax, Move_t m, Move_bits m)
    | _ => (ax, 0%Z, [])
    end in
  let moves := map one axis in
  Returns (mkMoveMultiDim
             (foldr Z.max 0%Z (map (fun m => snd (fst m)) moves))
             (map (fun m => (fst (fst m), snd m)) moves)).

(** A device that remembers nothing but the readback it will report: an
    immediate write and a read return it, a stream is interrupted as soon
    as it starts. *)
Definition interrupted_labjack : LabJack Z (gmap string Z) := {|
  updater_update := fun _ w => (w, Returns w);
  updater_read := fun w => (w, Returns w);
  streamer_stream_setup := fun w => (w, Returns tt);
  streamer_load_data := fun _ w => (w, Returns tt);
  streamer_start_stream := fun _ w => (w, Interrupted)
|}.

(** A device on which every operation completes. *)
Definition obedient_labjack : LabJack Z (gmap string Z) := {|
  updater_update := fun _ w => (w, Returns w);
  updater_read := fun w => (w, Returns w);
  streamer_stream_setup := fun w => (w, Returns tt);
  streamer_load_data := fun _ w => (w, Returns tt);
  streamer_start_stream := fun t w => (w, Returns t)
|}.


#[export] Instance demo_planner : Planner Z := {|
  Move_init := demo_Move;
  MoveMultiDim_init := demo_MoveMultiDim
|}.


(** A planner that refuses what it cannot plan: an axis other than "x"
    and "z", and a negative speed. *)
Definition cautious_planner : Planner Z := {|
  Move_init := fun axis pos new_pos speed =>
    if supported_axis axis && (0 <=? speed)%Z
    then demo_Move axis pos new_pos speed
    else Fails "ValueError";
  MoveMultiDim_init := fun axis original_pos new_abs_pos speed =>
    if forallb supported_axis axis && (0 <=? speed)%Z
    then demo_MoveMultiDim axis original_pos new_abs_pos speed
    else Fails "ValueError"
|}.

(** A driver of the x mirror built at 0 and sent to 100 um, with the
    interrupting device attached. *)
Definition demo_driver : GalvoDriver Z (gmap string Z) := {|
  GalvoDriver_axis := "x";
  GalvoDriver_dac_name := "DAC0";
  GalvoDriver_open_labjack := Some interrupted_labjack;
  GalvoDriver___point := mkPoint "x" 100%Z 33768%Z;
  GalvoDriver__point_history :=
    [mkPoint "x" 0%Z 32768%Z; mkPoint "x" 0%Z 32768%Z; mkPoint "x" 0%Z 32768%Z];
  GalvoDriver__origin := mkPoint "x" 0%Z 32768%Z;
  GalvoDriver_voltage := None
|}.

(** The same driver on the device that completes every operation. *)
Definition demo_online_driver : GalvoDriver Z (gmap string Z) := {|
  GalvoDriver_axis := "x";
  GalvoDriver_dac_name := "DAC0";
  GalvoDriver_open_labjack := Some obedient_labjack;
  GalvoDriver___point := mkPoint "x" 100%Z 33768%Z;
  GalvoDriver__point_history :=
    [mkPoint "x" 0%Z 32768%Z; mkPoint "x" 0%Z 32768%Z; mkPoint "x" 0%Z 32768%Z];
  GalvoDriver__origin := mkPoint "x" 0%Z 32768%Z;
  GalvoDriver_voltage := None
|}.

(** The same driver without a device. *)
Definition demo_offline_driver : GalvoDriver Z unit := {|
  GalvoDriver_axis := "x";
  GalvoDriver_dac_name := "DAC0";
  GalvoDriver_open_labjack := None;
  GalvoDriver___point := mkPoint "x" 100%Z 33768%Z;
  GalvoDriver__point_history :=
    [mkPoint "x" 0%Z 32768%Z; mkPoint "x" 0%Z 32768%Z; mkPoint "x" 0%Z 32768%Z];
  GalvoDriver__origin := mkPoint "x" 0%Z 32768%Z;
  GalvoDriver_voltage := None
|}.

(** The readback of the examples: DAC0 at the code of 40 um, DAC1 at the
    code of 0 um. *)
Definition demo_readback : gmap string Z := {[ "DAC0" := 33168%Z; "DAC1" := 32768%Z ]}.

(** A stored driver with origin 0 that has held the Point of 0 um
    [moves] times before the one it holds now. *)
Definition demo_child (axis dac_name : string) (pos : Z) (moves : nat) (voltage : option Z)
  : GalvoDriver Z (gmap string Z) := {|
  GalvoDriver_axis := axis;
  GalvoDriver_dac_name := dac_name;
  GalvoDriver_open_labjack := None;
  GalvoDriver___point := mkPoint axis pos (10 * pos + 32768)%Z;
  GalvoDriver__point_history := replicate moves (mkPoint axis 0%Z 32768%Z);
  GalvoDriver__origin := mkPoint axis 0%Z 32768%Z;
  GalvoDriver_voltage := voltage
|}.

(** The group of the x and z mirrors built at (0, 0) on the interrupting
    device. *)
Definition demo_group : GalvoDrivers Z (gmap string Z) := {|
  GalvoDrivers_axis := ["x"; "z"];
  GalvoDrivers_dac_name := {[ "x" := "DAC0"; "z" := "DAC1" ]};
  GalvoDrivers_open_labjack := Some interrupted_labjack;
  GalvoDrivers__galvos :=
    {[ "x" := demo_child "x" "DAC0" 0%Z 3 None; "z" := demo_child "z" "DAC1" 0%Z 3 None ]}
|}.

(** A device whose stream is interrupted and which can no longer be read
    afterwards. *)
Definition unreadable_labjack : LabJack Z (gmap string Z) := {|
  updater_update := fun _ w => (w, Fails "LJMError");
  updater_read := fun w => (w, Fails "LJMError");
  streamer_stream_setup := fun w => (w, Returns tt);
  streamer_load_data := fun _ w => (w, Returns tt);
  streamer_start_stream := fun _ w => (w, Interrupted)
|}.

(** [demo_driver] on another device. *)
Definition demo_driver_on (lj : LabJack Z (gmap string Z)) : GalvoDriver Z (gmap string Z) := {|
  GalvoDriver_axis := "x";
  GalvoDriver_dac_name := "DAC0";
  GalvoDriver_open_labjack := Some lj;
  GalvoDriver___point := mkPoint "x" 100%Z 33768%Z;
  GalvoDriver__point_history :=
    [mkPoint "x" 0%Z 32768%Z; mkPoint "x" 0%Z 32768%Z; mkPoint "x" 0%Z 32768%Z];
  GalvoDriver__origin := mkPoint "x" 0%Z 32768%Z;
  GalvoDriver_voltage := None
|}.

(** The same group without a device, and on the device that completes
    every operation. *)
Definition demo_offline_group : GalvoDrivers Z (gmap string Z) := {|
  GalvoDrivers_axis := ["x"; "z"];
  GalvoDrivers_dac_name := {[ "x" := "DAC0"; "z" := "DAC1" ]};
  GalvoDrivers_open_labjack := None;
  GalvoDrivers__galvos := GalvoDrivers__galvos demo_group
|}.

Definition demo_online_group : GalvoDrivers Z (gmap string Z) := {|
  GalvoDrivers_axis := ["x"; "z"];
  GalvoDrivers_dac_name := {[ "x" := "DAC0"; "z" := "DAC1" ]};
  GalvoDrivers_open_labjack := Some obedient_labjack;
  GalvoDrivers__galvos := GalvoDrivers__galvos demo_group
|}.

(** The arguments [x=100, z=300] and the stored drivers once they have
    moved there. *)
Definition demo_targets : gmap string Z := {[ "x" := 100%Z; "z" := 300%Z ]}.

Definition demo_moved : gmap string (GalvoDriver Z (gmap string Z)) :=
  {[ "x" := demo_child "x" "DAC0" 100%Z 4 None; "z" := demo_child "z" "DAC1" 300%Z 4 None ]}.

(** * Properties *)

Section GalvoDriver_properties.
Context {num : Type} `{PyNum num} `{Calibration num} `{Planner num}.
Context {HW : Type}.

Implicit Types (d : GalvoDriver num HW) (w : HW) (p : Point num).

Local Abbreviation TryM := (@Try num HW).

Lemma supported_axis_spec (axis : string) :
  supported_axis axis = true <-> axis = "x" \/ axis = "z".
Proof.
  unfold supported_axis. rewrite orb_true_iff, !bool_decide_eq_true. tauto.
Qed.

Lemma Point_of_pos_supported axis (x : num) :
  supported_axis axis = true ->
  Point_of_pos axis x = Ok (mkPoint axis x (pos_to_voltage axis x)).
Proof. unfold Point_of_pos. by intros ->. Qed.

Lemma Point_of_voltage_supported axis (v : num) :
  supported_axis axis = true ->
  Point_of_voltage axis v = Ok (mkPoint axis (voltage_to_pos axis v) v).
Proof. unfold Point_of_voltage. by intros ->. Qed.

Lemma Point_of_pos_Ok axis (x : num) p :
  Point_of_pos axis x = Ok p ->
  supported_axis axis = true /\ p = mkPoint axis x (pos_to_voltage axis x).
Proof. unfold Point_of_pos. case_match; naive_solver. Qed.

Lemma Point_of_voltage_Ok axis (v : num) p :
  Point_of_voltage axis v = Ok p ->
  supported_axis axis = true /\ p = mkPoint axis (voltage_to_pos axis v) v.
Proof. unfold Point_of_voltage. case_match; naive_solver. Qed.

(** What the setters do to a driver. *)
Lemma GalvoDriver_set__pos_Ok x d d' :
  GalvoDriver_set__pos x d = Ok d' ->
  supported_axis (GalvoDriver_axis d) = true /\
  d' = GalvoDriver_set__point
         (mkPoint (GalvoDriver_axis d) x (pos_to_voltage (GalvoDriver_axis d) x)) d.
Proof.
  unfold GalvoDriver_set__pos. case_match eqn:E; [|done].
  apply Point_of_pos_Ok in E as [? ->]. naive_solver.
Qed.

Lemma GalvoDriver_set__voltage_Ok v d d' :
  GalvoDriver_set__voltage v d = Ok d' ->
  supported_axis (GalvoDriver_axis d) = true /\
  d' = GalvoDriver_set__point
         (mkPoint (GalvoDriver_axis d) (voltage_to_pos (GalvoDriver_axis d) v) v) d.
Proof.
  unfold GalvoDriver_set__voltage. case_match eqn:E; [|done].
  apply Point_of_voltage_Ok in E as [? ->]. naive_solver.
Qed.

(** The handler either leaves the driver alone or installs one Point. *)
Lemma GalvoDriver_go_to_except_state lj move d w l d' w' l' e :
  GalvoDriver_go_to_except lj move d w l = (d', w', l', e) ->
  d' = d \/ exists p, d' = GalvoDriver_set__point p d.
Proof.
  unfold GalvoDriver_go_to_except. intros Hx.
  repeat case_match; simplify_eq; auto.
  match goal with E : GalvoDriver_set__voltage _ _ = Ok _ |- _ =>
    apply GalvoDriver_set__voltage_Ok in E as [_ ->] end.
  eauto.
Qed.

(** A call of [go_to] that returns has installed the Point of the
    absolute target. *)
Lemma GalvoDriver_go_to_Ok new_pos speed d w d' w' r :
  GalvoDriver_go_to new_pos speed d w = ((d', w'), Ok r) ->
  GalvoDriver_set__pos (nadd new_pos (GalvoDriver_origin d)) d = Ok d'.
Proof.
  unfold GalvoDriver_go_to. intros Hx.
  repeat case_match; simplify_eq; done.
Qed.

(** Whatever its outcome, [go_to] leaves the driver alone or installs one
    Point. *)
Lemma GalvoDriver_go_to_state new_pos speed d w d' w' r :
  GalvoDriver_go_to new_pos speed d w = ((d', w'), r) ->
  d' = d \/ exists p, d' = GalvoDriver_set__point p d.
Proof.
  unfold GalvoDriver_go_to. intros Hx.
  repeat case_match; simplify_eq; auto;
    try (match goal with E : GalvoDriver_set__pos _ _ = Ok _ |- _ =>
           apply GalvoDriver_set__pos_Ok in E as [_ ->] end; eauto);
    try (match goal with E : GalvoDriver_go_to_except _ _ _ _ _ = _ |- _ =>
           apply GalvoDriver_go_to_except_state in E end; auto).
Qed.

(** Without a LabJack the device is not touched. *)
Lemma GalvoDriver_go_to_offline new_pos speed d w d' w' r :
  GalvoDriver_open_labjack d = None ->
  GalvoDriver_go_to new_pos speed d w = ((d', w'), r) ->
  w' = w.
Proof.
  unfold GalvoDriver_go_to. intros -> Hx.
  repeat case_match; simplify_eq; done.
Qed.

(** The value of [go_to] when no LabJack is attached and the planner
    accepts the move. *)
Lemma GalvoDriver_go_to_None new_pos speed d w move :
  GalvoDriver_open_labjack d = None ->
  supported_axis (GalvoDriver_axis d) = true ->
  Move_init (GalvoDriver_axis d) (GalvoDriver_pos d)
    (nadd new_pos (GalvoDriver_origin d)) speed = Returns move ->
  let target := nadd new_pos (GalvoDriver_origin d) in
  GalvoDriver_go_to new_pos speed d w =
    ((GalvoDriver_set__point
        (mkPoint (GalvoDriver_axis d) target (pos_to_voltage (GalvoDriver_axis d) target)) d,
      w),
     Ok (target, nzero)).
Proof.
  intros Hlj Hax Hmove target. subst target.
  unfold GalvoDriver_go_to. cbv zeta. rewrite Hmove, Hlj. cbn.
  unfold GalvoDriver_set__pos. rewrite (Point_of_pos_supported _ _ Hax). cbn.
  by rewrite (Point_of_pos_supported _ _ Hax).
Qed.

(** The fields [go_to] never writes. *)
Lemma GalvoDriver_go_to_frame new_pos speed d w d' w' r :
  GalvoDriver_go_to new_pos speed d w = ((d', w'), r) ->
  GalvoDriver_axis d' = GalvoDriver_axis d /\
  GalvoDriver_dac_name d' = GalvoDriver_dac_name d /\
  GalvoDriver_open_labjack d' = GalvoDriver_open_labjack d /\
  GalvoDriver__origin d' = GalvoDriver__origin d /\
  GalvoDriver_voltage d' = GalvoDriver_voltage d.
Proof.
  intros Hx. apply GalvoDriver_go_to_state in Hx as [-> | [p ->]]; done.
Qed.

Lemma GalvoDriver_set_origin_frame orig d d' :
  GalvoDriver_set_origin orig d = Ok d' ->
  GalvoDriver_axis d' = GalvoDriver_axis d /\
  GalvoDriver_dac_name d' = GalvoDriver_dac_name d /\
  GalvoDriver_open_labjack d' = GalvoDriver_open_labjack d /\
  GalvoDriver___point d' = GalvoDriver___point d /\
  GalvoDriver__point_history d' = GalvoDriver__point_history d /\
  GalvoDriver_voltage d' = GalvoDriver_voltage d.
Proof.
  unfold GalvoDriver_set_origin. intros Hx.
  repeat case_match; simplify_eq; done.
Qed.

(** A constructed driver went through the axis check and has moved to
    [pos_init] counted from the origin [pos_init]. *)
Lemma GalvoDriver_init_Ok axis dac_name pos_init lj w w' d :
  GalvoDriver_init axis dac_name pos_init lj w = (w', Ok d) ->
  let p0 := mkPoint axis pos_init (pos_to_voltage axis pos_init) in
  let target := nadd pos_init pos_init in
  supported_axis axis = true /\
  d = mkGalvoDriver axis dac_name lj
        (mkPoint axis target (pos_to_voltage axis target)) [p0; p0] p0 None.
Proof.
  intros Hx. cbv zeta. unfold GalvoDriver_init in Hx.
  destruct (supported_axis axis) eqn:Hax; [|done]. cbn in Hx.
  rewrite (Point_of_pos_supported _ _ Hax) in Hx.
  repeat case_match; simplify_eq.
  match goal with E : GalvoDriver_go_to _ _ _ _ = _ |- _ =>
    apply GalvoDriver_go_to_Ok, GalvoDriver_set__pos_Ok in E as [_ ->] end.
  done.
Qed.

Lemma GalvoDriver_reachable_supported d :
  GalvoDriver_reachable d -> supported_axis (GalvoDriver_axis d) = true.
Proof.
  induction 1 as [axis dn p0 lj w w' d Hi| orig d d' _ IH Hs
                 | np sp d w d' w' r _ IH Hg | d d' _ IH Hr | x d _ IH]; [| | | |done].
  - by apply GalvoDriver_init_Ok in Hi as [? ->].
  - apply GalvoDriver_set_origin_frame in Hs as [-> _]. done.
  - apply GalvoDriver_go_to_frame in Hg as [-> _]. done.
  - unfold GalvoDriver__revert_pos in Hr. case_match; simplify_eq. done.
Qed.

(** The Points of a reachable driver are Points of its axis. *)
Lemma GalvoDriver_reachable_point_axis d :
  GalvoDriver_reachable d ->
  Point_axis (GalvoDriver__point d) = GalvoDriver_axis d /\
  Point_axis (GalvoDriver__origin d) = GalvoDriver_axis d /\
  Forall (fun p => Point_axis p = GalvoDriver_axis d) (GalvoDriver__point_history d).
Proof.
  induction 1 as [axis dn p0 lj w w' d Hi| orig d d' _ IH Hs
                 | np sp d w d' w' r _ IH Hg | d d' _ IH Hr | x d _ IH]; [| | | |done].
  - apply GalvoDriver_init_Ok in Hi as [? ->]. cbn. repeat constructor.
  - destruct IH as (IH1 & IH2 & IH3). unfold GalvoDriver_set_origin in Hs.
    repeat case_match; simplify_eq; cbn; [|done].
    match goal with E : Point_of_pos _ _ = Ok _ |- _ =>
      apply Point_of_pos_Ok in E as [_ ->] end. done.
  - destruct IH as (IH1 & IH2 & IH3). unfold GalvoDriver_go_to in Hg.
    repeat case_match; simplify_eq; try done;
      try (match goal with E : GalvoDriver_set__pos _ _ = Ok _ |- _ =>
             apply GalvoDriver_set__pos_Ok in E as [_ ->] end; cbn;
           split_and!; [done..|apply Forall_app; split; [done|by constructor]]).
    all: match goal with E : GalvoDriver_go_to_except _ _ _ _ _ = _ |- _ =>
           unfold GalvoDriver_go_to_except in E end;
         repeat case_match; simplify_eq; try done;
         match goal with E : GalvoDriver_set__voltage _ _ = Ok _ |- _ =>
           apply GalvoDriver_set__voltage_Ok in E as [_ ->] end; cbn;
         split_and!; [done..|apply Forall_app; split; [done|by constructor]].
  - destruct IH as (IH1 & IH2 & IH3). unfold GalvoDriver__revert_pos in Hr.
    case_match eqn:E; simplify_eq. cbn.
    apply last_Some in E as [l' E]. rewrite E in IH3 |- *.
    apply Forall_app in IH3 as [IH3 IH4]. inversion IH4; subst.
    split_and!; [done..|].
    rewrite !Forall_app, !Forall_singleton. done.
Qed.

(** *** No ValueError after the axis check *)

Lemma of_outcome_no_ValueError {A} (o : outcome A) e :
  of_outcome o = Raise e -> not_ValueError e.
Proof. destruct o; intros; simplify_eq/=; done. Qed.

Lemma Point_of_pos_no_ValueError axis (x : num) e :
  Point_of_pos axis x = Raise e -> not_ValueError e.
Proof. unfold Point_of_pos. case_match; intros; simplify_eq; done. Qed.

Lemma Point_of_voltage_no_ValueError axis (v : num) e :
  Point_of_voltage axis v = Raise e -> not_ValueError e.
Proof. unfold Point_of_voltage. case_match; intros; simplify_eq; done. Qed.

Lemma bound_no_ValueError {A} name (x : option A) e :
  bound name x = Raise e -> not_ValueError e.
Proof. destruct x; intros; simplify_eq/=; done. Qed.

Lemma register_no_ValueError (v : gmap string num) dn e :
  register v dn = Raise e -> not_ValueError e.
Proof. unfold register. case_match; intros; simplify_eq; done. Qed.

Lemma getitem_no_ValueError {A} (m : gmap string A) k e :
  getitem m k = Raise e -> not_ValueError e.
Proof. unfold getitem. case_match; intros; simplify_eq; done. Qed.

Lemma try_bind_no_ValueError {A B} (m : TryM A) (k : A -> TryM B) :
  Try_no_ValueError m -> (forall a, Try_no_ValueError (k a)) ->
  Try_no_ValueError (try_bind m k).
Proof.
  intros Hm Hk s s' e. unfold try_bind.
  destruct (m s) as [s1 [a|e1]] eqn:E; intros Hx.
  - by eapply Hk.
  - simplify_eq. by eapply Hm.
Qed.

Lemma call_no_ValueError {A} (f : HW -> HW * outcome A) :
  Try_no_ValueError (num := num) (call f).
Proof.
  intros [w l] s' e. unfold call. destruct (f w) as [w1 o].
  intros; simplify_eq. by eapply of_outcome_no_ValueError.
Qed.

Lemma set_actual_t_no_ValueError (t : num) :
  Try_no_ValueError (HW := HW) (set_actual_t t).
Proof. intros [w l] s' e. unfold set_actual_t. intros; simplify_eq. Qed.

Lemma set_actual_V_no_ValueError (v : gmap string num) :
  Try_no_ValueError (HW := HW) (set_actual_V v).
Proof. intros [w l] s' e. unfold set_actual_V. intros; simplify_eq. Qed.

Lemma last_code_no_ValueError bits :
  Try_no_ValueError (num := num) (HW := HW) (last_code bits).
Proof.
  intros s s' e. unfold last_code, try_ret, try_raise.
  case_match; intros; simplify_eq; done.
Qed.

Lemma last_codes_no_ValueError bits :
  Try_no_ValueError (num := num) (HW := HW) (last_codes bits).
Proof.
  induction bits as [|mb rest IH]; cbn.
  - intros s s' e. unfold try_ret. intros; simplify_eq.
  - apply try_bind_no_ValueError; [apply last_code_no_ValueError|].
    intros b. apply try_bind_no_ValueError; [done|].
    intros bs s s' e. unfold try_ret. intros; simplify_eq.
Qed.

Lemma recover_locals_no_ValueError (lj : LabJack num HW) t :
  Try_no_ValueError (recover_locals lj t).
Proof.
  unfold recover_locals. apply try_bind_no_ValueError.
  - intros [w l] s' e. unfold recover_actual_V. destruct (actual_V l).
    + intros; simplify_eq.
    + apply try_bind_no_ValueError;
        [apply call_no_ValueError | intros; apply set_actual_V_no_ValueError].
  - intros _ [w l] s' e. unfold recover_actual_t. destruct (actual_t l).
    + intros; simplify_eq.
    + apply set_actual_t_no_ValueError.
Qed.

Lemma GalvoDriver_go_to_try_no_ValueError (lj : LabJack num HW) move speed :
  Try_no_ValueError (GalvoDriver_go_to_try lj move speed).
Proof.
  unfold GalvoDriver_go_to_try.
  destruct (nis_zero speed || nis_zero (Move_t move));
    repeat first
      [ apply try_bind_no_ValueError
      | apply call_no_ValueError | apply set_actual_t_no_ValueError
      | apply set_actual_V_no_ValueError | apply last_code_no_ValueError
      | match goal with |- forall _, _ => intro end ].
Qed.

Lemma GalvoDriver_set__pos_no_ValueError x d e :
  GalvoDriver_set__pos x d = Raise e -> not_ValueError e.
Proof.
  unfold GalvoDriver_set__pos. case_match eqn:E; intros; simplify_eq.
  by eapply Point_of_pos_no_ValueError.
Qed.

Lemma GalvoDriver_set__voltage_no_ValueError x d e :
  GalvoDriver_set__voltage x d = Raise e -> not_ValueError e.
Proof.
  unfold GalvoDriver_set__voltage. case_match eqn:E; intros; simplify_eq.
  by eapply Point_of_voltage_no_ValueError.
Qed.

Lemma GalvoDriver_go_to_except_no_ValueError lj move d w l d' w' l' e :
  GalvoDriver_go_to_except lj move d w l = (d', w', l', e) -> not_ValueError e.
Proof.
  unfold GalvoDriver_go_to_except. intros Hx.
  repeat case_match; simplify_eq;
    eauto using recover_locals_no_ValueError, bound_no_ValueError,
      register_no_ValueError, GalvoDriver_set__voltage_no_ValueError.
  - done.
  - by eapply recover_locals_no_ValueError.
Qed.

Lemma GalvoDriver_go_to_finally_no_ValueError d (l : locals num) e :
  GalvoDriver_go_to_finally d l = Raise e -> not_ValueError e.
Proof.
  unfold GalvoDriver_go_to_finally. intros Hx.
  repeat case_match; simplify_eq;
    eauto using bound_no_ValueError, register_no_ValueError,
      Point_of_voltage_no_ValueError.
Qed.

Lemma GalvoDriver_go_to_no_ValueError new_pos speed d w s e :
  GalvoDriver_go_to new_pos speed d w = (s, Raise e) -> not_ValueError e.
Proof.
  unfold GalvoDriver_go_to. intros Hx.
  repeat case_match; simplify_eq;
    try done;
    eauto using of_outcome_no_ValueError, GalvoDriver_set__pos_no_ValueError,
      Point_of_pos_no_ValueError, GalvoDriver_go_to_finally_no_ValueError,
      GalvoDriver_go_to_except_no_ValueError, bound_no_ValueError;
    try (match goal with
         | E : GalvoDriver_go_to_try _ _ _ _ = (_, Raise ?e) |- _ =>
             apply GalvoDriver_go_to_try_no_ValueError in E; done
         end).
Qed.

(** *** The claims about one driver *)

(** When the [try] block is left by an exception, no readback has been
    bound yet: [actual_V] is assigned last in both branches. *)
Lemma GalvoDriver_go_to_try_Raise (lj : LabJack num HW) move speed w w1 l1 e :
  GalvoDriver_go_to_try lj move speed (w, no_locals) = ((w1, l1), Raise e) ->
  actual_V l1 = None.
Proof.
  unfold GalvoDriver_go_to_try, try_bind, call, set_actual_t, set_actual_V,
    last_code, try_ret, try_raise, no_locals.
  intros Hx. repeat case_match; simplify_eq/=; done.
Qed.

(** C2: when the [try] block of [go_to] (the stream in particular) is
    left by a KeyboardInterrupt and the device can then be read, the
    driver installs the Point of the voltage read at its DAC register,
    whatever the destination was, logs the Point it held, and only then
    raises KeyboardInterrupt to the caller. *)
Theorem GalvoDriver_go_to_interrupted new_pos speed d w lj move w1 l1 msg w2 v x :
  GalvoDriver_open_labjack d = Some lj ->
  supported_axis (GalvoDriver_axis d) = true ->
  Move_init (GalvoDriver_axis d) (GalvoDriver_pos d)
    (nadd new_pos (GalvoDriver_origin d)) speed = Returns move ->
  GalvoDriver_go_to_try lj move speed (w, no_locals)
    = ((w1, l1), Raise (KeyboardInterrupt msg)) ->
  updater_read lj w1 = (w2, Returns v) ->
  v !! GalvoDriver_dac_name d = Some x ->
  exists d',
    GalvoDriver_go_to new_pos speed d w = ((d', w2), Raise stopped_by_user) /\
    GalvoDriver__point d' =
      mkPoint (GalvoDriver_axis d) (voltage_to_pos (GalvoDriver_axis d) x) x /\
    GalvoDriver_pos d' = voltage_to_pos (GalvoDriver_axis d) x /\
    GalvoDriver__point_history d' = GalvoDriver__point_history d ++ [GalvoDriver__point d].
Proof.
  intros Hlj Hax Hmove Htry Hread Hreg.
  pose proof (GalvoDriver_go_to_try_Raise _ _ _ _ _ _ _ Htry) as HV.
  eexists. split.
  - unfold GalvoDriver_go_to. cbv zeta. rewrite Hmove, Hlj. cbn. rewrite Htry.
    unfold GalvoDriver_go_to_except, recover_locals, recover_actual_V,
      recover_actual_t, try_bind, call, set_actual_V, set_actual_t.
    rewrite HV, Hread. cbn.
    unfold GalvoDriver_go_to_finally.
    destruct (actual_t l1); cbn; unfold register; rewrite Hreg;
      unfold GalvoDriver_set__voltage;
      rewrite (Point_of_voltage_supported _ _ Hax); cbn;
      unfold register; rewrite Hreg; cbn;
      rewrite (Point_of_voltage_supported _ _ Hax); reflexivity.
  - done.
Qed.

(** A driver constructed without a LabJack stands at [pos_init] counted
    from the origin [pos_init], that is at [pos_init + pos_init], with
    the Point of [pos_init] twice in its history. *)
Lemma GalvoDriver_init_pos axis dac_name pos_init w w' d :
  GalvoDriver_init axis dac_name pos_init None w = (w', Ok d) ->
  GalvoDriver_pos d = nadd pos_init pos_init /\
  GalvoDriver_origin d = pos_init /\
  GalvoDriver_pos_history d = [pos_init; pos_init].
Proof. intros Hi. by apply GalvoDriver_init_Ok in Hi as [_ ->]. Qed.

(** C4: a call of [go_to] that returns has appended the Point held
    before the call to the history and has changed nothing else of it:
    the history is one longer, its last entry is the previous current
    Point and every older entry is where it was. *)
Theorem GalvoDriver_go_to_history new_pos speed d w d' w' r :
  GalvoDriver_go_to new_pos speed d w = ((d', w'), Ok r) ->
  GalvoDriver__point_history d' = GalvoDriver__point_history d ++ [GalvoDriver__point d] /\
  length (GalvoDriver__point_history d') = S (length (GalvoDriver__point_history d)) /\
  last (GalvoDriver__point_history d') = Some (GalvoDriver__point d) /\
  (forall i p, GalvoDriver__point_history d !! i = Some p ->
               GalvoDriver__point_history d' !! i = Some p).
Proof.
  intros Hg. apply GalvoDriver_go_to_Ok, GalvoDriver_set__pos_Ok in Hg as [_ ->].
  cbn. split; [done|]. split; [|split].
  - rewrite length_app. cbn. lia.
  - apply last_snoc.
  - intros i p Hi. by apply lookup_app_l_Some.
Qed.

(** C6: on a reachable driver, [set_origin()] makes the current Point the
    origin, and [rel_pos] then is the current position minus itself:
    zero. *)
Theorem GalvoDriver_set_origin_rel_pos d :
  GalvoDriver_reachable d ->
  nsub (GalvoDriver_pos d) (GalvoDriver_pos d) = nzero ->
  exists d',
    GalvoDriver_set_origin None d = Ok d' /\
    GalvoDriver__origin d' = GalvoDriver__point d /\
    GalvoDriver__point d' = GalvoDriver__point d /\
    GalvoDriver_rel_pos d' = Ok nzero.
Proof.
  intros Hr0 Hsub. pose proof (GalvoDriver_reachable_supported d Hr0) as Hr.
  eexists. split; [reflexivity|]. split; [done|]. split; [done|].
  unfold GalvoDriver_rel_pos, GalvoDriver__rel_point, Point_sub. cbn.
  destruct (GalvoDriver_reachable_point_axis d Hr0) as [Hpa _].
  unfold GalvoDriver__point in Hpa. rewrite Hpa, (Point_of_pos_supported _ _ Hr). cbn.
  f_equal. exact Hsub.
Qed.

(** C8: the constructor refuses every axis other than "x" and "z" with
    the ValueError of its first statement, before it has touched the
    device or built anything; for "x" and for "z" it never raises a
    ValueError. *)
Theorem GalvoDriver_init_axis axis dac_name pos_init lj w :
  (axis <> "x" -> axis <> "z" ->
   GalvoDriver_init axis dac_name pos_init lj w = (w, Raise axis_error)) /\
  (axis = "x" \/ axis = "z" ->
   forall msg, snd (GalvoDriver_init axis dac_name pos_init lj w) <> Raise (ValueError msg)).
Proof.
  split.
  - intros Hx Hz. unfold GalvoDriver_init.
    destruct (supported_axis axis) eqn:Hax; [|done].
    apply supported_axis_spec in Hax as [?|?]; done.
  - intros Hax msg. apply supported_axis_spec in Hax.
    unfold GalvoDriver_init. rewrite Hax. cbn.
    rewrite (Point_of_pos_supported _ _ Hax). cbn.
    destruct (GalvoDriver_go_to _ _ _ _) as [[d2 w'] [r|e]] eqn:Hg; cbn; [done|].
    apply GalvoDriver_go_to_no_ValueError in Hg. intros [= ->]. done.
Qed.

End GalvoDriver_properties.

Section GalvoDrivers_properties.
Context {num : Type} `{PyNum num} `{Calibration num} `{Planner num}.
Context {HW : Type}.

Implicit Types (d : GalvoDriver num HW) (g : GalvoDrivers num HW) (w : HW).
Implicit Types (gs : gmap string (GalvoDriver num HW)) (axis : list string).

(** *** Stored drivers through the loops of the group *)

Lemma same_setup_refl d : same_setup d d.
Proof. done. Qed.

Lemma same_setup_trans d1 d2 d3 : same_setup d1 d2 -> same_setup d2 d3 -> same_setup d1 d3.
Proof. unfold same_setup. intros (?&?&?&?) (?&?&?&?). split_and!; congruence. Qed.

Lemma children_kept_refl gs : children_kept gs gs.
Proof. intros k. destruct (gs !! k); constructor. done. Qed.

Lemma children_kept_trans gs1 gs2 gs3 :
  children_kept gs1 gs2 -> children_kept gs2 gs3 -> children_kept gs1 gs3.
Proof.
  intros H12 H23 k. specialize (H12 k). specialize (H23 k).
  destruct H12 as [d1 d2 ?|]; inversion H23; subst; constructor.
  by eapply same_setup_trans.
Qed.

Lemma children_kept_insert gs k d d' :
  gs !! k = Some d -> same_setup d d' -> children_kept gs (<[k := d']> gs).
Proof.
  intros Hd Hs k'. destruct (decide (k = k')) as [<-|Hne].
  - rewrite lookup_insert_eq, Hd. by constructor.
  - rewrite lookup_insert_ne by done. apply children_kept_refl.
Qed.

Lemma children_kept_lookup gs gs' k d :
  children_kept gs gs' -> gs !! k = Some d ->
  exists d', gs' !! k = Some d' /\ same_setup d d'.
Proof. intros Hk Hd. specialize (Hk k). rewrite Hd in Hk. inversion Hk; eauto. Qed.

Lemma children_kept_lookup_r gs gs' k d' :
  children_kept gs gs' -> gs' !! k = Some d' ->
  exists d, gs !! k = Some d /\ same_setup d d'.
Proof. intros Hk Hd. specialize (Hk k). rewrite Hd in Hk. inversion Hk; eauto. Qed.

Lemma getitem_Ok {A} (m : gmap string A) k a : getitem m k = Ok a -> m !! k = Some a.
Proof. unfold getitem. case_match; naive_solver. Qed.

Lemma GalvoDriver_go_to_same_setup new_pos speed d w d' w' r :
  GalvoDriver_go_to new_pos speed d w = ((d', w'), r) -> same_setup d d'.
Proof. intros Hg. apply GalvoDriver_go_to_frame in Hg. unfold same_setup. tauto. Qed.

Lemma GalvoDrivers_go_to_children_kept speed (new_pos : gmap string num) axis gs w nap gs' w' r :
  GalvoDrivers_go_to_children speed new_pos axis gs w nap = ((gs', w'), r) ->
  children_kept gs gs'.
Proof.
  revert gs w nap. induction axis as [|ax rest IH]; intros gs w nap Hx; cbn in Hx.
  - simplify_eq. apply children_kept_refl.
  - destruct (getitem gs ax) as [d|e] eqn:Hd; [|simplify_eq; apply children_kept_refl].
    apply getitem_Ok in Hd.
    destruct (getitem new_pos ax) as [p|e]; [|simplify_eq; apply children_kept_refl].
    destruct (GalvoDriver_go_to p speed d w) as [[d1 w1] [[a t]|e]] eqn:Hg;
      apply GalvoDriver_go_to_same_setup in Hg.
    + apply IH in Hx. eapply children_kept_trans; [|done].
      by eapply children_kept_insert.
    + simplify_eq. by eapply children_kept_insert.
Qed.

Lemma GalvoDrivers_go_to_stop_kept (v : gmap string num) axis gs gs' r :
  GalvoDrivers_go_to_stop v axis gs = (gs', r) -> children_kept gs gs'.
Proof.
  revert gs. induction axis as [|ax rest IH]; intros gs Hx; cbn in Hx.
  - simplify_eq. apply children_kept_refl.
  - destruct (getitem gs ax) as [d|e] eqn:Hd; [|simplify_eq; apply children_kept_refl].
    apply getitem_Ok in Hd.
    destruct (register v (GalvoDriver_dac_name d)) as [x|e];
      [|simplify_eq; apply children_kept_refl].
    apply IH in Hx. eapply children_kept_trans; [|done].
    by eapply children_kept_insert.
Qed.

(** The handler of the group assigns the attribute [voltage] of the
    stored drivers and nothing else: their Points and histories are
    those the first loop of [go_to] left. *)
Lemma GalvoDrivers_go_to_stop_points (v : gmap string num) axis gs gs' r :
  GalvoDrivers_go_to_stop v axis gs = (gs', r) ->
  forall k, GalvoDriver__point <$> gs' !! k = GalvoDriver__point <$> gs !! k /\
            GalvoDriver__point_history <$> gs' !! k = GalvoDriver__point_history <$> gs !! k.
Proof.
  revert gs. induction axis as [|ax rest IH]; intros gs Hx k; cbn in Hx.
  - by simplify_eq.
  - destruct (getitem gs ax) as [d|e] eqn:Hd; [|by simplify_eq].
    apply getitem_Ok in Hd.
    destruct (register v (GalvoDriver_dac_name d)) as [x|e]; [|by simplify_eq].
    destruct (IH _ Hx k) as [-> ->].
    destruct (decide (ax = k)) as [<-|Hne].
    + by rewrite lookup_insert_eq, Hd.
    + by rewrite lookup_insert_ne.
Qed.

Lemma GalvoDrivers_go_to_except_kept (lj : LabJack num HW) move axis gs w l gs' w' l' e :
  GalvoDrivers_go_to_except lj move axis gs w l = (gs', w', l', e) ->
  children_kept gs gs'.
Proof.
  unfold GalvoDrivers_go_to_except. intros Hx.
  repeat case_match; simplify_eq; try apply children_kept_refl;
    by eapply GalvoDrivers_go_to_stop_kept.
Qed.

Lemma GalvoDrivers_go_to_kept speed (new_pos : gmap string num) g w g' w' r :
  GalvoDrivers_go_to speed new_pos g w = ((g', w'), r) ->
  GalvoDrivers_axis g' = GalvoDrivers_axis g /\
  GalvoDrivers_open_labjack g' = GalvoDrivers_open_labjack g /\
  children_kept (GalvoDrivers__galvos g) (GalvoDrivers__galvos g').
Proof.
  unfold GalvoDrivers_go_to. intros Hx.
  repeat case_match; simplify_eq; cbn;
    (split; [done|]); (split; [done|]);
    try apply children_kept_refl;
    repeat match goal with
      | E : GalvoDrivers_go_to_children _ _ _ _ _ _ = _ |- _ =>
          apply GalvoDrivers_go_to_children_kept in E
      | E : GalvoDrivers_go_to_except _ _ _ _ _ _ = _ |- _ =>
          apply GalvoDrivers_go_to_except_kept in E
      end;
    try done; by eapply children_kept_trans.
Qed.

(** *** Construction of the group *)

Lemma GalvoDriver_init_offline_hw ax dn (p : num) w w' (r : result (GalvoDriver num HW)) :
  GalvoDriver_init ax dn p None w = (w', r) -> w' = w.
Proof.
  unfold GalvoDriver_init, GalvoDriver_set_origin. intros Hx.
  repeat case_match; simplify_eq; try done;
    match goal with E : GalvoDriver_go_to _ _ _ _ = _ |- _ =>
      apply GalvoDriver_go_to_offline in E; [done|] end;
    match goal with E : Point_of_pos _ _ = Ok _ |- _ =>
      apply Point_of_pos_Ok in E as [_ ->] end; done.
Qed.

(** The value of the constructor without a LabJack, when the planner
    accepts the initial move. *)
Lemma GalvoDriver_init_offline ax dn (p : num) w move :
  supported_axis ax = true ->
  Move_init ax p (nadd p p) nzero = Returns move ->
  GalvoDriver_init (HW := HW) ax dn p None w =
    (w, Ok (mkGalvoDriver ax dn None
              (mkPoint ax (nadd p p) (pos_to_voltage ax (nadd p p)))
              [mkPoint ax p (pos_to_voltage ax p); mkPoint ax p (pos_to_voltage ax p)]
              (mkPoint ax p (pos_to_voltage ax p)) None)).
Proof.
  intros Hax Hmove. unfold GalvoDriver_init, GalvoDriver_set_origin.
  rewrite Hax. cbn -[GalvoDriver_go_to].
  rewrite (Point_of_pos_supported _ _ Hax). cbn -[GalvoDriver_go_to].
  erewrite GalvoDriver_go_to_None; [reflexivity|done|done|exact Hmove].
Qed.

(** The drivers stored by the constructor's loop: one under every
    declared axis, each for that axis and without a LabJack; the device
    is not touched. *)
Lemma GalvoDrivers_init_galvos_Ok axis (dac : gmap string string) (pos : gmap string num)
    gs0 w w' gs :
  GalvoDrivers_init_galvos axis dac pos gs0 w = (w', Ok gs) ->
  w' = w /\
  (forall k, is_Some (gs0 !! k) -> is_Some (gs !! k)) /\
  (forall ax, ax ∈ axis -> is_Some (gs !! ax)) /\
  (forall k d, gs !! k = Some d ->
     gs0 !! k = Some d \/
     (k ∈ axis /\ GalvoDriver_axis d = k /\ supported_axis k = true /\
      GalvoDriver_open_labjack d = None /\ Some (GalvoDriver_dac_name d) = dac !! k)).
Proof.
  revert gs0 w. induction axis as [|ax rest IH]; intros gs0 w Hx; cbn in Hx.
  - simplify_eq. split_and!; [done|done|set_solver|auto].
  - destruct (getitem dac ax) as [dn|e] eqn:Hdn; [|done]. apply getitem_Ok in Hdn.
    destruct (getitem pos ax) as [p|e]; [|done].
    destruct (GalvoDriver_init ax dn p None w) as [w1 [d|e]] eqn:Hi; [|done].
    pose proof (GalvoDriver_init_offline_hw _ _ _ _ _ _ Hi) as ->.
    apply GalvoDriver_init_Ok in Hi as [Hax ->].
    apply IH in Hx as (-> & Hkeep & Hpres & Hsrc). split_and!; [done| | |].
    + intros k Hk. apply Hkeep. destruct (decide (ax = k)) as [<-|Hne].
      * by rewrite lookup_insert_eq.
      * by rewrite lookup_insert_ne.
    + intros ax' [->|Hin]%elem_of_cons; [|by apply Hpres].
      apply Hkeep. by rewrite lookup_insert_eq.
    + intros k d Hd. destruct (Hsrc k d Hd) as [Hd0|(Hin & ?)].
      * destruct (decide (ax = k)) as [<-|Hne].
        -- rewrite lookup_insert_eq in Hd0. simplify_eq. right.
           split; [apply elem_of_cons; by left|]. cbn. by rewrite Hdn.
        -- rewrite lookup_insert_ne in Hd0 by done. by left.
      * right. split; [apply elem_of_cons; by right|done].
Qed.

Lemma GalvoDrivers_init_Ok axis (dac : gmap string string) (pos : gmap string num)
    (lj : option (LabJack num HW)) w w' g :
  GalvoDrivers_init axis dac pos lj w = (w', Ok g) ->
  GalvoDrivers_axis g = axis /\
  GalvoDrivers_open_labjack g = lj /\
  (forall ax, ax ∈ axis -> is_Some (GalvoDrivers__galvos g !! ax)) /\
  (forall k d, GalvoDrivers__galvos g !! k = Some d ->
     k ∈ axis /\ GalvoDriver_axis d = k /\ supported_axis k = true /\
     GalvoDriver_open_labjack d = None /\ Some (GalvoDriver_dac_name d) = dac !! k).
Proof.
  unfold GalvoDrivers_init. intros Hx.
  destruct (GalvoDrivers_init_check axis dac pos); [|done].
  destruct (GalvoDrivers_init_galvos axis dac pos ∅ w) as [w1 [gs|e]] eqn:Hgs; [|done].
  apply GalvoDrivers_init_galvos_Ok in Hgs as (-> & _ & Hpres & Hsrc).
  destruct (unpack_clash pos); [done|].
  destruct (GalvoDrivers_go_to _ _ _ _) as [[g1 w2] [r|e]] eqn:Hg; [|done].
  simplify_eq. apply GalvoDrivers_go_to_kept in Hg as (Hax & Hlj & Hkept). cbn in *.
  split_and!; [done|done| |].
  - intros ax Hin. destruct (Hpres ax Hin) as [d Hd].
    destruct (children_kept_lookup _ _ _ _ Hkept Hd) as (d' & -> & _). done.
  - intros k d' Hd'.
    destruct (children_kept_lookup_r _ _ _ _ Hkept Hd') as (d & Hd & Hs).
    destruct (Hsrc k d Hd) as [Hd0|Hd0]; [by rewrite lookup_empty in Hd0|].
    destruct Hs as (-> & -> & -> & _). done.
Qed.

(** C9: in a constructed group every declared axis has a stored driver,
    and every stored driver was built without a LabJack
    ([open_labjack=False]): whatever the group was given, a [go_to] of a
    stored driver leaves the device as it was. *)
Theorem GalvoDrivers_init_children_offline axis (dac : gmap string string)
    (pos : gmap string num) (lj : option (LabJack num HW)) w w' g :
  GalvoDrivers_init axis dac pos lj w = (w', Ok g) ->
  (forall ax, ax ∈ axis -> is_Some (GalvoDrivers__galvos g !! ax)) /\
  (forall ax d, GalvoDrivers__galvos g !! ax = Some d ->
     GalvoDriver_open_labjack d = None /\
     forall new_pos speed w0 d' w1 r,
       GalvoDriver_go_to new_pos speed d w0 = ((d', w1), r) -> w1 = w0).
Proof.
  intros Hi. apply GalvoDrivers_init_Ok in Hi as (_ & _ & Hpres & Hsrc).
  split; [done|]. intros ax d Hd.
  destruct (Hsrc ax d Hd) as (_ & _ & _ & Hlj & _). split; [done|].
  intros new_pos speed w0 d' w1 r Hg. by eapply GalvoDriver_go_to_offline.
Qed.

Lemma GalvoDrivers_init_wf axis (dac : gmap string string) (pos : gmap string num)
    (lj : option (LabJack num HW)) w w' g :
  GalvoDrivers_init axis dac pos lj w = (w', Ok g) -> GalvoDrivers_wf g.
Proof.
  intros Hi. apply GalvoDrivers_init_Ok in Hi as (Hax & _ & Hpres & Hsrc).
  intros ax Hin. rewrite Hax in Hin. destruct (Hpres ax Hin) as [d Hd].
  exists d. destruct (Hsrc ax d Hd) as (_ & ? & ? & _). done.
Qed.

(** *** The validation of the two mappings *)

Lemma GalvoDrivers_init_check_Ok axis (dac : gmap string string) (pos : gmap string num) :
  (forall ax, ax ∈ axis -> is_Some (dac !! ax) /\ is_Some (pos !! ax)) ->
  GalvoDrivers_init_check axis dac pos = Ok tt.
Proof.
  induction axis as [|ax rest IH]; intros Hall; [done|]. cbn.
  destruct (Hall ax) as [[dn ->] [p ->]]; [apply elem_of_cons; by left|].
  apply IH. intros ax' Hin. apply Hall, elem_of_cons. by right.
Qed.

Lemma GalvoDrivers_init_check_Raise axis (dac : gmap string string) (pos : gmap string num) :
  (exists ax, ax ∈ axis /\ (dac !! ax = None \/ pos !! ax = None)) ->
  exists ax, ax ∈ axis /\
    ((dac !! ax = None /\
      GalvoDrivers_init_check axis dac pos = Raise (missing_dac_name ax)) \/
     (pos !! ax = None /\
      GalvoDrivers_init_check axis dac pos = Raise (missing_pos_init ax))).
Proof.
  induction axis as [|ax rest IH]; intros (ax0 & Hin & Hmiss).
  - by apply elem_of_nil in Hin.
  - cbn. destruct (dac !! ax) as [dn|] eqn:Hdn.
    + destruct (pos !! ax) as [p|] eqn:Hp.
      * destruct IH as (ax1 & Hin1 & Hax1).
        { exists ax0. split; [|done].
          apply elem_of_cons in Hin as [->|Hin]; [|done].
          destruct Hmiss; congruence. }
        exists ax1. split; [apply elem_of_cons; by right|done].
      * exists ax. split; [apply elem_of_cons; by left|]. right. done.
    + exists ax. split; [apply elem_of_cons; by left|]. left. done.
Qed.

(** *** A group without a LabJack is constructed *)

Lemma for_each_axis_ok {A} (f : GalvoDriver num HW -> result A) axis gs out :
  (forall ax, ax ∈ axis -> exists d a, gs !! ax = Some d /\ f d = Ok a) ->
  exists out', for_each_axis f axis gs out = Ok out'.
Proof.
  revert out. induction axis as [|ax rest IH]; intros out Hall; cbn; [eauto|].
  destruct (Hall ax) as (d & a & Hd & Ha); [apply elem_of_cons; by left|].
  unfold getitem. rewrite Hd, Ha. apply IH.
  intros ax' Hin. apply Hall, elem_of_cons. by right.
Qed.

Lemma GalvoDrivers_go_to_offline_ok (new_pos : gmap string num) axis out :
  (forall ax, ax ∈ axis -> is_Some (new_pos !! ax) /\ supported_axis ax = true) ->
  exists out', GalvoDrivers_go_to_offline new_pos axis out = Ok out'.
Proof.
  revert out. induction axis as [|ax rest IH]; intros out Hall; cbn; [eauto|].
  destruct (Hall ax) as ([p Hp] & Hax); [apply elem_of_cons; by left|].
  unfold getitem. rewrite Hp, (Point_of_pos_supported _ _ Hax). apply IH.
  intros ax' Hin. apply Hall, elem_of_cons. by right.
Qed.

(** The stored drivers stay in place through the methods of the group. *)
Lemma children_kept_wf g g' :
  GalvoDrivers_axis g' = GalvoDrivers_axis g ->
  children_kept (GalvoDrivers__galvos g) (GalvoDrivers__galvos g') ->
  GalvoDrivers_wf g -> GalvoDrivers_wf g'.
Proof.
  intros Hax Hkept Hwf ax Hin. rewrite Hax in Hin.
  destruct (Hwf ax Hin) as (d & Hd & Hda & Hsup).
  destruct (children_kept_lookup _ _ _ _ Hkept Hd) as (d' & Hd' & Hs).
  exists d'. destruct Hs as (-> & _). done.
Qed.

Lemma GalvoDrivers_go_to_wf speed (new_pos : gmap string num) g w g' w' r :
  GalvoDrivers_go_to speed new_pos g w = ((g', w'), r) ->
  GalvoDrivers_wf g -> GalvoDrivers_wf g'.
Proof.
  intros Hg. apply GalvoDrivers_go_to_kept in Hg as (Hax & _ & Hkept).
  by apply children_kept_wf.
Qed.

(** *** set_origin *)

(** The driver that [set_origin] leaves under the key [k]: its origin is
    the Point of [orig[k]] when there is one. *)
Lemma GalvoDriver_set_origin_Some o d :
  supported_axis (GalvoDriver_axis d) = true ->
  GalvoDriver_set_origin (Some o) d =
    Ok (with_origin (mkPoint (GalvoDriver_axis d) o (pos_to_voltage (GalvoDriver_axis d) o)) d).
Proof.
  intros Hax. unfold GalvoDriver_set_origin. by rewrite (Point_of_pos_supported _ _ Hax).
Qed.

Lemma GalvoDrivers_set_origin_loop_spec (orig : gmap string num) axis gs :
  orig <> ∅ ->
  (forall ax, ax ∈ axis ->
     exists d, gs !! ax = Some d /\ supported_axis (GalvoDriver_axis d) = true) ->
  exists gs',
    GalvoDrivers_set_origin_loop orig axis gs = Ok gs' /\
    forall k,
      gs' !! k =
        if decide (k ∈ axis) then
          (fun d => match orig !! k with
                    | Some o =>
                        with_origin (mkPoint (GalvoDriver_axis d) o
                                       (pos_to_voltage (GalvoDriver_axis d) o)) d
                    | None => d
                    end) <$> gs !! k
        else gs !! k.
Proof.
  intros Hne. revert gs. induction axis as [|ax rest IH]; intros gs Hwf.
  - exists gs. split; [done|]. intros k. case_decide; [set_solver|done].
  - cbn [GalvoDrivers_set_origin_loop]. rewrite decide_False by done.
    destruct (Hwf ax) as (d & Hd & Hax); [set_solver|].
    unfold getitem at 1. rewrite Hd. unfold getitem.
    destruct (orig !! ax) as [o|] eqn:Ho.
    + rewrite (GalvoDriver_set_origin_Some _ _ Hax).
      destruct (IH (<[ax := with_origin (mkPoint (GalvoDriver_axis d) o
                                          (pos_to_voltage (GalvoDriver_axis d) o)) d]> gs))
        as (gs' & Hloop & Hgs').
      { intros ax' Hin. destruct (decide (ax = ax')) as [<-|Hneq].
        - rewrite lookup_insert_eq. eauto.
        - rewrite lookup_insert_ne by done. apply Hwf. set_solver. }
      exists gs'. split; [done|]. intros k. rewrite Hgs'.
      destruct (decide (ax = k)) as [<-|Hneq].
      * rewrite lookup_insert_eq, Hd, Ho.
        destruct (decide (ax ∈ ax :: rest)); [|set_solver].
        case_decide; cbn; done.
      * rewrite lookup_insert_ne by done.
        apply decide_ext. rewrite elem_of_cons. intuition congruence.
    + destruct (IH gs) as (gs' & Hloop & Hgs'); [intros; apply Hwf; set_solver|].
      exists gs'. split; [done|]. intros k. rewrite Hgs'.
      destruct (decide (ax = k)) as [<-|Hneq].
      * rewrite Hd, Ho.
        destruct (decide (ax ∈ ax :: rest)); [|set_solver].
        case_decide; done.
      * apply decide_ext. rewrite elem_of_cons. intuition congruence.
Qed.

(** C10: on a group whose declared axes all have their stored driver,
    [set_origin] with some keyword arguments returns without an
    exception; a declared axis with an argument gets the Point of that
    argument as origin, every other stored driver keeps its origin, and
    no driver's current Point or history changes. *)
Theorem GalvoDrivers_set_origin_partial (orig : gmap string num) g :
  GalvoDrivers_wf g ->
  orig <> ∅ ->
  exists g',
    GalvoDrivers_set_origin orig g = Ok g' /\
    GalvoDrivers_axis g' = GalvoDrivers_axis g /\
    forall ax d, GalvoDrivers__galvos g !! ax = Some d ->
      exists d',
        GalvoDrivers__galvos g' !! ax = Some d' /\
        GalvoDriver__point d' = GalvoDriver__point d /\
        GalvoDriver__point_history d' = GalvoDriver__point_history d /\
        (forall o, ax ∈ GalvoDrivers_axis g -> orig !! ax = Some o ->
           GalvoDriver_origin d' = o /\
           GalvoDriver__origin d' =
             mkPoint (GalvoDriver_axis d) o (pos_to_voltage (GalvoDriver_axis d) o)) /\
        (orig !! ax = None \/ ax ∉ GalvoDrivers_axis g ->
           GalvoDriver__origin d' = GalvoDriver__origin d).
Proof.
  intros Hwf Hne.
  destruct (GalvoDrivers_set_origin_loop_spec orig (GalvoDrivers_axis g)
              (GalvoDrivers__galvos g) Hne) as (gs' & Hloop & Hgs').
  { intros ax Hin. destruct (Hwf ax Hin) as (d & Hd & Hax & Hsup).
    exists d. by rewrite Hax. }
  exists (with_galvos gs' g). unfold GalvoDrivers_set_origin. rewrite Hloop.
  split; [done|]. split; [done|].
  intros ax d Hd. cbn. rewrite Hgs', Hd.
  case_decide as Hin; cbn.
  - destruct (orig !! ax) as [o|] eqn:Ho.
    + eexists. split; [done|]. split_and!; try done.
      * intros o' _ [= <-]. done.
      * intros [?|?]; done.
    + eexists. split; [done|]. split_and!; done.
  - eexists. split; [done|]. split_and!; done.
Qed.

End GalvoDrivers_properties.

Section GalvoDriver_example.
Context `{Calibration Z} `{Planner Z} {HW : Type}.
Local Open Scope Z_scope.

(** C5: the session of the specification.  A driver of "x" built at 0
    without a LabJack goes to 100 on [go_to(100, 0)]; after
    [set_origin(100)] its relative position is 0; [go_to(50, 0)] then
    takes it to 150, relative position 50.  Each [go_to] returns the
    absolute target and the duration 0, and leaves the device alone.
    The planner is asked for the three moves of the session, from 0 to
    0, from 0 to 100 and from 100 to 150 on "x" at speed 0, and has to
    return them. *)
Theorem GalvoDriver_session (dac_name : string) (w : HW) :
  (exists move, Move_init "x" 0 0 0 = Returns move) ->
  (exists move, Move_init "x" 0 100 0 = Returns move) ->
  (exists move, Move_init "x" 100 150 0 = Returns move) ->
  exists d0 d1 d2 d3 : GalvoDriver Z HW,
    GalvoDriver_init "x" dac_name 0 None w = (w, Ok d0) /\
    GalvoDriver_go_to 100 0 d0 w = ((d1, w), Ok (100, 0)) /\
    GalvoDriver_pos d1 = 100 /\
    GalvoDriver_set_origin (Some 100) d1 = Ok d2 /\
    GalvoDriver_rel_pos d2 = Ok 0 /\
    GalvoDriver_go_to 50 0 d2 w = ((d3, w), Ok (150, 0)) /\
    GalvoDriver_pos d3 = 150 /\
    GalvoDriver_rel_pos d3 = Ok 50.
Proof.
  intros [m0 Hm0] [m1 Hm1] [m2 Hm2].
  assert (Hgo : forall np (d : GalvoDriver Z HW) move,
             GalvoDriver_open_labjack d = None ->
             GalvoDriver_axis d = "x" ->
             Move_init "x" (GalvoDriver_pos d) (np + GalvoDriver_origin d) 0 = Returns move ->
             GalvoDriver_go_to np 0 d w =
               ((GalvoDriver_set__point
                   (mkPoint "x" (np + GalvoDriver_origin d)
                      (pos_to_voltage "x" (np + GalvoDriver_origin d))) d, w),
                Ok (np + GalvoDriver_origin d, 0))).
  { intros np d move Hlj Hax Hmove. rewrite <- Hax in Hmove.
    rewrite (GalvoDriver_go_to_None np 0 d w move Hlj); [by rewrite Hax| by rewrite Hax|done]. }
  eexists _, _, _, _. split_and!.
  - unfold GalvoDriver_init, GalvoDriver_set_origin.
    change (supported_axis "x") with true. cbn -[GalvoDriver_go_to Point_of_pos].
    rewrite !Point_of_pos_supported by reflexivity. cbn -[GalvoDriver_go_to].
    erewrite Hgo; [reflexivity|done|done|exact Hm0].
  - erewrite Hgo; [reflexivity|done|done|exact Hm1].
  - reflexivity.
  - reflexivity.
  - reflexivity.
  - erewrite Hgo; [reflexivity|done|done|exact Hm2].
  - reflexivity.
  - reflexivity.
Qed.

End GalvoDriver_example.

(** C3: constructed for "x" at [pos_init = 100] without a LabJack, the
    driver reports the position 200, not 100: the constructor sets the
    origin to [pos_init] and then goes to [pos_init] relative to it. *)
Theorem GalvoDriver_init_doubles_pos_init :
  exists d : GalvoDriver Z unit,
    GalvoDriver_init "x" "DAC0" 100%Z None tt = (tt, Ok d) /\
    GalvoDriver_pos d = 200%Z /\
    GalvoDriver_pos d <> 100%Z /\
    GalvoDriver_origin d = 100%Z /\
    GalvoDriver_pos_history d = [100%Z; 100%Z].
Proof.
  destruct (GalvoDriver_init "x" "DAC0" 100%Z None tt) as [w' [d|e]] eqn:Hi;
    [|by vm_compute in Hi].
  destruct (GalvoDriver_init_pos _ _ _ _ _ _ Hi) as (Hp & Ho & Hh).
  exists d. rewrite Hp, Ho, Hh. destruct w'. split_and!; done.
Qed.

Lemma GalvoDriver_go_to_interrupted_witness :
  exists d',
    GalvoDriver_go_to 50%Z 10%Z demo_driver {[ "DAC0" := 33168%Z ]}
      = ((d', {[ "DAC0" := 33168%Z ]}), Raise stopped_by_user) /\
    GalvoDriver__point d' = mkPoint "x" (voltage_to_pos "x" 33168%Z) 33168%Z /\
    GalvoDriver_pos d' = voltage_to_pos "x" 33168%Z /\
    GalvoDriver__point_history d'
      = GalvoDriver__point_history demo_driver ++ [GalvoDriver__point demo_driver].
Proof.
  eapply (GalvoDriver_go_to_interrupted 50%Z 10%Z demo_driver {[ "DAC0" := 33168%Z ]}
            interrupted_labjack).
  - reflexivity.
  - reflexivity.
  - reflexivity.
  - reflexivity.
  - reflexivity.
  - reflexivity.
Defined.

Lemma GalvoDriver_go_to_history_witness :
  (* without a LabJack *)
  (let d' := GalvoDriver_set__point (mkPoint "x" 150%Z 34268%Z) demo_offline_driver in
   GalvoDriver__point_history d'
     = GalvoDriver__point_history demo_offline_driver
         ++ [GalvoDriver__point demo_offline_driver] /\
   length (GalvoDriver__point_history d')
     = S (length (GalvoDriver__point_history demo_offline_driver)) /\
   last (GalvoDriver__point_history d') = Some (GalvoDriver__point demo_offline_driver) /\
   (forall i p, GalvoDriver__point_history demo_offline_driver !! i = Some p ->
                GalvoDriver__point_history d' !! i = Some p)) /\
  (* a stream of 5 s that completes *)
  (let d' := GalvoDriver_set__point (mkPoint "x" 150%Z 34268%Z) demo_online_driver in
   GalvoDriver__point_history d'
     = GalvoDriver__point_history demo_online_driver
         ++ [GalvoDriver__point demo_online_driver] /\
   length (GalvoDriver__point_history d')
     = S (length (GalvoDriver__point_history demo_online_driver)) /\
   last (GalvoDriver__point_history d') = Some (GalvoDriver__point demo_online_driver) /\
   (forall i p, GalvoDriver__point_history demo_online_driver !! i = Some p ->
                GalvoDriver__point_history d' !! i = Some p)).
Proof.
  split.
  - apply (GalvoDriver_go_to_history 150%Z 0%Z demo_offline_driver tt _ tt (150%Z, 0%Z)).
    reflexivity.
  - apply (GalvoDriver_go_to_history 150%Z 10%Z demo_online_driver demo_readback _
             demo_readback (40%Z, 5%Z)).
    vm_compute. reflexivity.
Defined.

Lemma GalvoDriver_set_origin_rel_pos_witness :
  exists d',
    GalvoDriver_set_origin None demo_offline_driver = Ok d' /\
    GalvoDriver__origin d' = GalvoDriver__point demo_offline_driver /\
    GalvoDriver__point d' = GalvoDriver__point demo_offline_driver /\
    GalvoDriver_rel_pos d' = Ok 0%Z.
Proof.
  refine (GalvoDriver_set_origin_rel_pos demo_offline_driver _ _).
  - apply (reach_go_to 100%Z 0%Z
             (mkGalvoDriver "x" "DAC0" None (mkPoint "x" 0%Z 32768%Z)
                [mkPoint "x" 0%Z 32768%Z; mkPoint "x" 0%Z 32768%Z]
                (mkPoint "x" 0%Z 32768%Z) None)
             tt demo_offline_driver tt (Ok (100%Z, 0%Z))).
    + apply (reach_init "x" "DAC0" 0%Z None tt tt). vm_compute. reflexivity.
    + vm_compute. reflexivity.
  - reflexivity.
Defined.

Lemma GalvoDriver_init_axis_witness :
  GalvoDriver_init "y" "DAC0" 0%Z (None : option (LabJack Z unit)) tt = (tt, Raise axis_error) /\
  snd (GalvoDriver_init "z" "DAC1" 0%Z (None : option (LabJack Z unit)) tt)
    <> Raise (ValueError "no such axis").
Proof.
  split.
  - apply (GalvoDriver_init_axis "y" "DAC0" 0%Z None tt); discriminate.
  - apply (GalvoDriver_init_axis "z" "DAC1" 0%Z None tt). right. reflexivity.
Defined.

Lemma GalvoDriver_session_witness :
  exists d0 d1 d2 d3 : GalvoDriver Z unit,
    GalvoDriver_init "x" "DAC0" 0%Z None tt = (tt, Ok d0) /\
    GalvoDriver_go_to 100%Z 0%Z d0 tt = ((d1, tt), Ok (100%Z, 0%Z)) /\
    GalvoDriver_pos d1 = 100%Z /\
    GalvoDriver_set_origin (Some 100%Z) d1 = Ok d2 /\
    GalvoDriver_rel_pos d2 = Ok 0%Z /\
    GalvoDriver_go_to 50%Z 0%Z d2 tt = ((d3, tt), Ok (150%Z, 0%Z)) /\
    GalvoDriver_pos d3 = 150%Z /\
    GalvoDriver_rel_pos d3 = Ok 50%Z.
Proof.
  apply (GalvoDriver_session "DAC0" tt); eexists; reflexivity.
Defined.

Lemma demo_group_init :
  GalvoDrivers_init ["x"; "z"] {[ "x" := "DAC0"; "z" := "DAC1" ]}
    {[ "x" := 0%Z; "z" := 0%Z ]} (Some interrupted_labjack) demo_readback
  = (demo_readback, Ok demo_group).
Proof. vm_compute. reflexivity. Qed.

(** C1: [go_to(speed=10, x=100, z=300)] on the group at (0, 0), the
    stream interrupted while the device reads 40 um on DAC0 and 0 um on
    DAC1.  KeyboardInterrupt reaches the caller, but the stored drivers
    stay at the commanded 100 and 300: the handler assigns an attribute
    [voltage] that no property of GalvoDriver reads, where the handler of
    a single driver assigns [_voltage]. *)
Theorem GalvoDrivers_go_to_interrupted_keeps_destination :
  let g' := with_galvos
              {[ "x" := demo_child "x" "DAC0" 100%Z 4 (Some 33168%Z);
                 "z" := demo_child "z" "DAC1" 300%Z 4 (Some 32768%Z) ]}
              demo_group in
  GalvoDrivers_go_to 10%Z {[ "x" := 100%Z; "z" := 300%Z ]} demo_group demo_readback
    = ((g', demo_readback), Raise stopped_by_user) /\
  GalvoDrivers_pos g' = Ok {[ "x" := 100%Z; "z" := 300%Z ]} /\
  (voltage_to_pos "x" 33168%Z = 40%Z /\ voltage_to_pos "z" 32768%Z = 0%Z) /\
  GalvoDrivers_pos g' <>
    Ok {[ "x" := voltage_to_pos "x" 33168%Z; "z" := voltage_to_pos "z" 32768%Z ]}.
Proof.
  cbv zeta. split_and!.
  - vm_compute. reflexivity.
  - vm_compute. reflexivity.
  - reflexivity.
  - reflexivity.
  - vm_compute. discriminate.
Qed.

(** C7, as first stated: both mappings have an entry for the only
    declared axis, "y", and the constructor fails all the same, with the
    ValueError of the axis check of the stored driver. *)
Lemma GalvoDrivers_init_complete_mappings_fail :
  (forall ax, ax ∈ ["y"] ->
     is_Some (({[ "y" := "DAC0" ]} : gmap string string) !! ax) /\
     is_Some (({[ "y" := 0%Z ]} : gmap string Z) !! ax)) /\
  GalvoDrivers_init (HW := unit) ["y"] {[ "y" := "DAC0" ]} {[ "y" := 0%Z ]} None tt
    = (tt, Raise axis_error).
Proof.
  split.
  - intros ax ->%list_elem_of_singleton. split; vm_compute; eauto.
  - vm_compute. reflexivity.
Qed.

Lemma GalvoDrivers_init_children_offline_witness :
  (forall ax, ax ∈ ["x"; "z"] -> is_Some (GalvoDrivers__galvos demo_group !! ax)) /\
  (forall ax d, GalvoDrivers__galvos demo_group !! ax = Some d ->
     GalvoDriver_open_labjack d = None /\
     forall new_pos speed w0 d' w1 r,
       GalvoDriver_go_to new_pos speed d w0 = ((d', w1), r) -> w1 = w0).
Proof.
  apply (GalvoDrivers_init_children_offline ["x"; "z"] {[ "x" := "DAC0"; "z" := "DAC1" ]}
           {[ "x" := 0%Z; "z" := 0%Z ]} (Some interrupted_labjack) demo_readback
           demo_readback demo_group).
  vm_compute. reflexivity.
Defined.

Lemma GalvoDrivers_set_origin_partial_witness :
  exists g',
    GalvoDrivers_set_origin {[ "x" := 70%Z ]} demo_group = Ok g' /\
    GalvoDrivers_axis g' = GalvoDrivers_axis demo_group /\
    forall ax d, GalvoDrivers__galvos demo_group !! ax = Some d ->
      exists d',
        GalvoDrivers__galvos g' !! ax = Some d' /\
        GalvoDriver__point d' = GalvoDriver__point d /\
        GalvoDriver__point_history d' = GalvoDriver__point_history d /\
        (forall o, ax ∈ GalvoDrivers_axis demo_group ->
           ({[ "x" := 70%Z ]} : gmap string Z) !! ax = Some o ->
           GalvoDriver_origin d' = o /\
           GalvoDriver__origin d' =
             mkPoint (GalvoDriver_axis d) o (pos_to_voltage (GalvoDriver_axis d) o)) /\
        (({[ "x" := 70%Z ]} : gmap string Z) !! ax = None \/
         ax ∉ GalvoDrivers_axis demo_group ->
           GalvoDriver__origin d' = GalvoDriver__origin d).
Proof.
  apply (GalvoDrivers_set_origin_partial {[ "x" := 70%Z ]} demo_group).
  - intros ax Hin. apply elem_of_cons in Hin as [->|Hin];
      [|apply list_elem_of_singleton in Hin as ->];
      eexists; split_and!; vm_compute; reflexivity.
  - intros Heq. apply (f_equal (fun m => m !! "x")) in Heq. vm_compute in Heq. discriminate.
Defined.

(** * Further properties of one driver *)

Section GalvoDriver_more.
Context {num : Type} `{PyNum num} `{Calibration num} `{Planner num}.
Context {HW : Type}.

Implicit Types (d : GalvoDriver num HW) (w : HW) (p : Point num).

(** When the [try] block completes, both locals are bound. *)
Lemma GalvoDriver_go_to_try_Ok (lj : LabJack num HW) move speed w w1 l1 u :
  GalvoDriver_go_to_try lj move speed (w, no_locals) = ((w1, l1), Ok u) ->
  exists t v, l1 = mkLocals (Some t) (Some v).
Proof.
  unfold GalvoDriver_go_to_try, try_bind, call, set_actual_t, set_actual_V,
    last_code, try_ret, try_raise, no_locals.
  intros Hx. repeat case_match; simplify_eq/=; eauto.
Qed.

(** The value of [go_to] once its [try] block has completed with a
    readback that holds the register of the driver. *)
Lemma GalvoDriver_go_to_completed new_pos speed d w lj move w1 t v x :
  GalvoDriver_open_labjack d = Some lj ->
  supported_axis (GalvoDriver_axis d) = true ->
  Move_init (GalvoDriver_axis d) (GalvoDriver_pos d)
    (nadd new_pos (GalvoDriver_origin d)) speed = Returns move ->
  GalvoDriver_go_to_try lj move speed (w, no_locals)
    = ((w1, mkLocals (Some t) (Some v)), Ok tt) ->
  v !! GalvoDriver_dac_name d = Some x ->
  GalvoDriver_go_to new_pos speed d w =
    ((GalvoDriver_set__point
        (mkPoint (GalvoDriver_axis d) (nadd new_pos (GalvoDriver_origin d))
           (pos_to_voltage (GalvoDriver_axis d) (nadd new_pos (GalvoDriver_origin d)))) d,
      w1),
     Ok (voltage_to_pos (GalvoDriver_axis d) x, t)).
Proof.
  intros Hlj Hax Hmove Htry Hreg.
  unfold GalvoDriver_go_to. cbv zeta. rewrite Hmove, Hlj. cbn. rewrite Htry.
  unfold GalvoDriver_set__pos. rewrite (Point_of_pos_supported _ _ Hax).
  unfold GalvoDriver_go_to_finally. cbn. unfold register. rewrite Hreg.
  by rewrite (Point_of_voltage_supported _ _ Hax).
Qed.

(** X1: a stream that runs to its end.  The driver then holds the Point
    of the commanded target, while the position it returns is the one
    of the voltage read back at its register and the duration is the one
    the streamer reports. *)
Theorem GalvoDriver_go_to_stream_completes
    new_pos speed d w lj move wa wb wc wd t v x :
  GalvoDriver_open_labjack d = Some lj ->
  supported_axis (GalvoDriver_axis d) = true ->
  Move_init (GalvoDriver_axis d) (GalvoDriver_pos d)
    (nadd new_pos (GalvoDriver_origin d)) speed = Returns move ->
  nis_zero speed || nis_zero (Move_t move) = false ->
  streamer_stream_setup lj w = (wa, Returns tt) ->
  streamer_load_data lj (OneAxis (Move_bits move)) wa = (wb, Returns tt) ->
  streamer_start_stream lj (Move_t move) wb = (wc, Returns t) ->
  updater_read lj wc = (wd, Returns v) ->
  v !! GalvoDriver_dac_name d = Some x ->
  exists d',
    GalvoDriver_go_to new_pos speed d w
      = ((d', wd), Ok (voltage_to_pos (GalvoDriver_axis d) x, t)) /\
    GalvoDriver_pos d' = nadd new_pos (GalvoDriver_origin d) /\
    GalvoDriver__point_history d' = GalvoDriver__point_history d ++ [GalvoDriver__point d].
Proof.
  intros Hlj Hax Hmove Hbr Hs Hl Hst Hrd Hreg. eexists. split.
  - eapply GalvoDriver_go_to_completed; try done.
    unfold GalvoDriver_go_to_try. rewrite Hbr.
    unfold try_bind, call, set_actual_t, set_actual_V, no_locals.
    rewrite Hs. cbn. rewrite Hl. cbn. rewrite Hst. cbn. rewrite Hrd. reflexivity.
  - done.
Qed.

(** X2: a zero speed, or a move of zero duration, is one immediate write
    of the last code of the move and no stream.  The driver holds the
    Point of the commanded target; the returned position is the one read
    back by the write and the returned duration is 0. *)
Theorem GalvoDriver_go_to_immediate_write new_pos speed d w lj move b w1 v x :
  GalvoDriver_open_labjack d = Some lj ->
  supported_axis (GalvoDriver_axis d) = true ->
  Move_init (GalvoDriver_axis d) (GalvoDriver_pos d)
    (nadd new_pos (GalvoDriver_origin d)) speed = Returns move ->
  nis_zero speed || nis_zero (Move_t move) = true ->
  last (Move_bits move) = Some b ->
  updater_update lj (OneCode b) w = (w1, Returns v) ->
  v !! GalvoDriver_dac_name d = Some x ->
  exists d',
    GalvoDriver_go_to new_pos speed d w
      = ((d', w1), Ok (voltage_to_pos (GalvoDriver_axis d) x, nzero)) /\
    GalvoDriver_pos d' = nadd new_pos (GalvoDriver_origin d) /\
    GalvoDriver__point_history d' = GalvoDriver__point_history d ++ [GalvoDriver__point d].
Proof.
  intros Hlj Hax Hmove Hbr Hlast Hup Hreg. eexists. split.
  - eapply GalvoDriver_go_to_completed; try done.
    unfold GalvoDriver_go_to_try. rewrite Hbr.
    unfold try_bind, call, set_actual_t, set_actual_V, last_code, try_ret, no_locals.
    rewrite Hlast. cbn. rewrite Hup. reflexivity.
  - done.
Qed.

(** X3: an exception of the [try] block that is no KeyboardInterrupt (a
    failing device call, a move without codes) never reaches the caller:
    the [finally] clause reads [actual_V], which is still unbound, and
    raises UnboundLocalError in its place.  The driver is unchanged. *)
Theorem GalvoDriver_go_to_failure_masked new_pos speed d w lj move w1 l1 e :
  GalvoDriver_open_labjack d = Some lj ->
  Move_init (GalvoDriver_axis d) (GalvoDriver_pos d)
    (nadd new_pos (GalvoDriver_origin d)) speed = Returns move ->
  GalvoDriver_go_to_try lj move speed (w, no_locals) = ((w1, l1), Raise e) ->
  (forall msg, e <> KeyboardInterrupt msg) ->
  GalvoDriver_go_to new_pos speed d w = ((d, w1), Raise (UnboundLocalError "actual_V")).
Proof.
  intros Hlj Hmove Htry Hne.
  pose proof (GalvoDriver_go_to_try_Raise _ _ _ _ _ _ _ Htry) as HV.
  unfold GalvoDriver_go_to. cbv zeta. rewrite Hmove, Hlj. cbn. rewrite Htry.
  destruct e; try (by destruct (Hne msg));
    unfold GalvoDriver_go_to_finally; rewrite HV; reflexivity.
Qed.

(** X4: when the device cannot be read in the handler either, the
    KeyboardInterrupt is lost as well: the handler is left by the
    exception of the read, and the [finally] clause replaces it by
    UnboundLocalError.  The driver is unchanged. *)
Theorem GalvoDriver_go_to_unreadable_after_interrupt
    new_pos speed d w lj move w1 l1 msg w2 (o : outcome (gmap string num)) :
  GalvoDriver_open_labjack d = Some lj ->
  Move_init (GalvoDriver_axis d) (GalvoDriver_pos d)
    (nadd new_pos (GalvoDriver_origin d)) speed = Returns move ->
  GalvoDriver_go_to_try lj move speed (w, no_locals)
    = ((w1, l1), Raise (KeyboardInterrupt msg)) ->
  updater_read lj w1 = (w2, o) ->
  (forall v, o <> Returns v) ->
  GalvoDriver_go_to new_pos speed d w = ((d, w2), Raise (UnboundLocalError "actual_V")).
Proof.
  intros Hlj Hmove Htry Hread Hfail.
  pose proof (GalvoDriver_go_to_try_Raise _ _ _ _ _ _ _ Htry) as HV.
  unfold GalvoDriver_go_to. cbv zeta. rewrite Hmove, Hlj. cbn. rewrite Htry.
  unfold GalvoDriver_go_to_except, recover_locals, recover_actual_V,
    try_bind, call, set_actual_V.
  rewrite HV, Hread.
  destruct o as [v| |tag]; [by destruct (Hfail v)| |]; cbn;
    unfold GalvoDriver_go_to_finally; rewrite HV; reflexivity.
Qed.

(** X5: when the readback of the handler has no entry for the register
    of the driver, the caller gets the KeyError of the register name
    instead of KeyboardInterrupt, and the driver is unchanged. *)
Theorem GalvoDriver_go_to_no_register_after_interrupt
    new_pos speed d w lj move w1 l1 msg w2 v :
  GalvoDriver_open_labjack d = Some lj ->
  Move_init (GalvoDriver_axis d) (GalvoDriver_pos d)
    (nadd new_pos (GalvoDriver_origin d)) speed = Returns move ->
  GalvoDriver_go_to_try lj move speed (w, no_locals)
    = ((w1, l1), Raise (KeyboardInterrupt msg)) ->
  updater_read lj w1 = (w2, Returns v) ->
  v !! GalvoDriver_dac_name d = None ->
  GalvoDriver_go_to new_pos speed d w
    = ((d, w2), Raise (KeyError (GalvoDriver_dac_name d))).
Proof.
  intros Hlj Hmove Htry Hread Hreg.
  pose proof (GalvoDriver_go_to_try_Raise _ _ _ _ _ _ _ Htry) as HV.
  unfold GalvoDriver_go_to. cbv zeta. rewrite Hmove, Hlj. cbn. rewrite Htry.
  unfold GalvoDriver_go_to_except, recover_locals, recover_actual_V,
    recover_actual_t, try_bind, call, set_actual_V, set_actual_t.
  rewrite HV, Hread. cbn.
  destruct (actual_t l1); cbn; unfold register; rewrite Hreg;
    unfold GalvoDriver_go_to_finally; cbn; unfold register; rewrite Hreg; reflexivity.
Qed.

(** What the handler leaves: the driver as it was, or, after a read
    that returned a readback holding the register, the Point of that
    voltage together with the KeyboardInterrupt of the handler. *)
Lemma GalvoDriver_go_to_except_inv (lj : LabJack num HW) move d w1 l1 d2 w2 l2 e2 :
  actual_V l1 = None ->
  GalvoDriver_go_to_except lj move d w1 l1 = (d2, w2, l2, e2) ->
  d2 = d \/
  exists v x,
    updater_read lj w1 = (w2, Returns v) /\
    actual_V l2 = Some v /\
    v !! GalvoDriver_dac_name d = Some x /\
    supported_axis (GalvoDriver_axis d) = true /\
    e2 = stopped_by_user /\
    d2 = GalvoDriver_set__point
           (mkPoint (GalvoDriver_axis d) (voltage_to_pos (GalvoDriver_axis d) x) x) d.
Proof.
  intros HV. unfold GalvoDriver_go_to_except, recover_locals, recover_actual_V,
    recover_actual_t, try_bind, call, set_actual_V, set_actual_t.
  rewrite HV. destruct (updater_read lj w1) as [w3 [v| |tag]]; cbn;
    [|intros; simplify_eq; by left..].
  destruct (actual_t l1); cbn; unfold register;
    (destruct (v !! GalvoDriver_dac_name d) as [x|] eqn:Hx; [|intros; simplify_eq; by left]);
    (destruct (GalvoDriver_set__voltage x d) as [d'|e] eqn:Hs; [|intros; simplify_eq; by left]);
    apply GalvoDriver_set__voltage_Ok in Hs as [Hax ->];
    intros; simplify_eq; right; exists v, x; done.
Qed.

(** X6: a [go_to] that raises has changed the driver in two cases only.
    Either its [try] block was left by a KeyboardInterrupt, the read of
    the handler returned a readback holding the register, and the
    driver holds the Point of that voltage while the handler's
    KeyboardInterrupt is raised; or the [try] block completed with a
    readback that lacks the register, and the driver holds the Point of
    the commanded target while the KeyError of the register is raised.
    Without a LabJack a [go_to] that raises changes nothing at all. *)
Theorem GalvoDriver_go_to_raise_state new_pos speed d w d' w' e :
  GalvoDriver_go_to new_pos speed d w = ((d', w'), Raise e) ->
  (d' = d \/
   (exists lj move w1 l1 msg v x,
      GalvoDriver_open_labjack d = Some lj /\
      Move_init (GalvoDriver_axis d) (GalvoDriver_pos d)
        (nadd new_pos (GalvoDriver_origin d)) speed = Returns move /\
      GalvoDriver_go_to_try lj move speed (w, no_locals)
        = ((w1, l1), Raise (KeyboardInterrupt msg)) /\
      updater_read lj w1 = (w', Returns v) /\
      v !! GalvoDriver_dac_name d = Some x /\
      e = stopped_by_user /\
      d' = GalvoDriver_set__point
             (mkPoint (GalvoDriver_axis d) (voltage_to_pos (GalvoDriver_axis d) x) x) d) \/
   (exists lj move t v,
      GalvoDriver_open_labjack d = Some lj /\
      Move_init (GalvoDriver_axis d) (GalvoDriver_pos d)
        (nadd new_pos (GalvoDriver_origin d)) speed = Returns move /\
      GalvoDriver_go_to_try lj move speed (w, no_locals)
        = ((w', mkLocals (Some t) (Some v)), Ok tt) /\
      v !! GalvoDriver_dac_name d = None /\
      e = KeyError (GalvoDriver_dac_name d) /\
      d' = GalvoDriver_set__point
             (mkPoint (GalvoDriver_axis d) (nadd new_pos (GalvoDriver_origin d))
                (pos_to_voltage (GalvoDriver_axis d) (nadd new_pos (GalvoDriver_origin d))))
             d)) /\
  (GalvoDriver_open_labjack d = None -> d' = d /\ w' = w).
Proof.
  intros Hg. split.
  - unfold GalvoDriver_go_to in Hg.
    destruct (Move_init _ _ _ _) as [move| |tag] eqn:Hmove; cbn in Hg;
      [|simplify_eq; by left..].
    destruct (GalvoDriver_open_labjack d) as [lj|] eqn:Hlj.
    + destruct (GalvoDriver_go_to_try lj move speed (w, no_locals))
        as [[w1 l1] [u|e1]] eqn:Htry.
      * destruct u.
        destruct (GalvoDriver_go_to_try_Ok _ _ _ _ _ _ _ Htry) as (t & v & ->).
        destruct (GalvoDriver_set__pos _ d) as [d1|e1] eqn:Hset.
        -- apply GalvoDriver_set__pos_Ok in Hset as [Hax ->].
           unfold GalvoDriver_go_to_finally in Hg. cbn in Hg.
           unfold register in Hg.
           destruct (v !! GalvoDriver_dac_name d) eqn:Hreg.
           ++ rewrite (Point_of_voltage_supported _ _ Hax) in Hg. simplify_eq.
           ++ simplify_eq. right. right. exists lj, move, t, v. done.
        -- repeat case_match; simplify_eq; by left.
      * pose proof (GalvoDriver_go_to_try_Raise _ _ _ _ _ _ _ Htry) as HV.
        destruct e1 as [m|m|msg|m| |m|m];
          try (repeat case_match; simplify_eq; by left).
        destruct (GalvoDriver_go_to_except lj move d w1 l1) as [[[d2 w2] l2] e2] eqn:Hex.
        apply (GalvoDriver_go_to_except_inv _ _ _ _ _ _ _ _ _ HV) in Hex
          as [->|(v & x & Hread & HV2 & Hreg & Hax & -> & ->)].
        -- repeat case_match; simplify_eq; by left.
        -- unfold GalvoDriver_go_to_finally in Hg. rewrite HV2 in Hg. cbn in Hg.
           unfold register in Hg. rewrite Hreg in Hg.
           rewrite (Point_of_voltage_supported _ _ Hax) in Hg. simplify_eq.
           right. left. exists lj, move, w1, l1, msg, v, x. done.
    + destruct (GalvoDriver_set__pos _ d) as [d1|e1] eqn:Hset; [|simplify_eq; by left].
      apply GalvoDriver_set__pos_Ok in Hset as [Hax ->]. cbn in Hg.
      rewrite (Point_of_pos_supported _ _ Hax) in Hg. simplify_eq.
  - intros Hlj. split; [|by eapply GalvoDriver_go_to_offline].
    unfold GalvoDriver_go_to in Hg. rewrite Hlj in Hg.
    destruct (of_outcome _) as [move|e0]; [|by simplify_eq].
    destruct (GalvoDriver_set__pos _ d) as [d1|e1] eqn:Hset; [|by simplify_eq].
    apply GalvoDriver_set__pos_Ok in Hset as [Hax ->]. cbn in Hg.
    rewrite (Point_of_pos_supported _ _ Hax) in Hg. simplify_eq.
Qed.

(** X7: [reset_pos()] is [go_to(0, 0)]: when it returns, the driver
    stands on its origin (position 0 + origin, relative position 0), the
    origin is the one it had and the Point it held went to the
    history. *)
Theorem GalvoDriver_reset_pos_origin d w d' w' :
  GalvoDriver_reset_pos d w = ((d', w'), Ok tt) ->
  nadd nzero (GalvoDriver_origin d) = GalvoDriver_origin d ->
  nsub (GalvoDriver_origin d) (GalvoDriver_origin d) = nzero ->
  GalvoDriver_pos d' = GalvoDriver_origin d /\
  GalvoDriver_origin d' = GalvoDriver_origin d /\
  GalvoDriver_rel_pos d' = Ok nzero /\
  GalvoDriver__point_history d' = GalvoDriver__point_history d ++ [GalvoDriver__point d].
Proof.
  unfold GalvoDriver_reset_pos. intros Hr Hadd Hsub.
  destruct (GalvoDriver_go_to nzero nzero d w) as [[d1 w1] [r|e]] eqn:Hg; [|done].
  simplify_eq. apply GalvoDriver_go_to_Ok, GalvoDriver_set__pos_Ok in Hg as [Hax ->].
  unfold GalvoDriver_rel_pos, GalvoDriver__rel_point, Point_sub. cbn.
  rewrite (Point_of_pos_supported _ _ Hax). cbn.
  fold (GalvoDriver_origin d). rewrite Hadd, Hsub. done.
Qed.

(** X8: on a reachable driver [set_origin(o)] always succeeds and only
    replaces the origin: the current Point and the history stay, and the
    relative position becomes the position minus [o].  [reset_origin()]
    does this with 0. *)
Theorem GalvoDriver_set_origin_value d o :
  GalvoDriver_reachable d ->
  (exists d',
     GalvoDriver_set_origin (Some o) d = Ok d' /\
     GalvoDriver_origin d' = o /\
     GalvoDriver__point d' = GalvoDriver__point d /\
     GalvoDriver__point_history d' = GalvoDriver__point_history d /\
     GalvoDriver_rel_pos d' = Ok (nsub (GalvoDriver_pos d) o)) /\
  (exists d',
     GalvoDriver_reset_origin d = Ok d' /\
     GalvoDriver_origin d' = nzero /\
     GalvoDriver_pos d' = GalvoDriver_pos d /\
     GalvoDriver_rel_pos d' = Ok (nsub (GalvoDriver_pos d) nzero)).
Proof.
  intros Hr. pose proof (GalvoDriver_reachable_supported d Hr) as Hax.
  destruct (GalvoDriver_reachable_point_axis d Hr) as (Hpa & _).
  assert (Hset : forall o', exists d',
             GalvoDriver_set_origin (Some o') d = Ok d' /\
             GalvoDriver_origin d' = o' /\
             GalvoDriver__point d' = GalvoDriver__point d /\
             GalvoDriver__point_history d' = GalvoDriver__point_history d /\
             GalvoDriver_rel_pos d' = Ok (nsub (GalvoDriver_pos d) o')).
  { intros o'. eexists. unfold GalvoDriver_set_origin.
    rewrite (Point_of_pos_supported _ _ Hax). split; [reflexivity|].
    split_and!; try done.
    unfold GalvoDriver_rel_pos, GalvoDriver__rel_point, Point_sub. cbn.
    unfold GalvoDriver__point in Hpa. rewrite Hpa, (Point_of_pos_supported _ _ Hax).
    done. }
  split; [apply Hset|].
  destruct (Hset nzero) as (d' & Hs & Ho & Hp & _ & Hrel).
  exists d'. unfold GalvoDriver_reset_origin. split_and!; try done.
  unfold GalvoDriver_pos, GalvoDriver__pos. by rewrite Hp.
Qed.

(** X9: [go_to] and [rel_pos] are inverse to each other: after a
    [go_to(p, speed)] that returns, the relative position is
    [(p + origin) - origin], that is [p]. *)
Theorem GalvoDriver_go_to_rel_pos new_pos speed d w d' w' r :
  GalvoDriver_go_to new_pos speed d w = ((d', w'), Ok r) ->
  nsub (nadd new_pos (GalvoDriver_origin d)) (GalvoDriver_origin d) = new_pos ->
  GalvoDriver_rel_pos d' = Ok new_pos /\
  GalvoDriver_pos d' = nadd new_pos (GalvoDriver_origin d).
Proof.
  intros Hg Hsub. apply GalvoDriver_go_to_Ok, GalvoDriver_set__pos_Ok in Hg as [Hax ->].
  unfold GalvoDriver_rel_pos, GalvoDriver__rel_point, Point_sub. cbn.
  rewrite (Point_of_pos_supported _ _ Hax). cbn.
  fold (GalvoDriver_origin d). by rewrite Hsub.
Qed.

(** The history of a reachable driver holds the initial Point twice and
    only grows. *)
Lemma GalvoDriver_reachable_history_length d :
  GalvoDriver_reachable d -> 2 <= length (GalvoDriver__point_history d).
Proof.
  induction 1 as [axis dn p0 lj w w' d Hi| orig d d' _ IH Hs
                 | np sp d w d' w' r _ IH Hg | d d' _ IH Hr | x d _ IH]; [| | | |done].
  - apply GalvoDriver_init_Ok in Hi as [_ ->]. done.
  - apply GalvoDriver_set_origin_frame in Hs as (_ & _ & _ & _ & -> & _). done.
  - apply GalvoDriver_go_to_state in Hg as [->|[p ->]]; [done|].
    cbn. rewrite length_app. lia.
  - unfold GalvoDriver__revert_pos in Hr. case_match; simplify_eq. cbn.
    rewrite !length_app. lia.
Qed.

(** X10: [_revert_pos()] on a reachable driver never fails (the history
    is not empty); it makes the last logged Point current again and logs
    the Point it replaces twice, once through the setter and once
    itself. *)
Theorem GalvoDriver_revert_pos_reachable d :
  GalvoDriver_reachable d ->
  exists p d',
    last (GalvoDriver__point_history d) = Some p /\
    GalvoDriver__revert_pos d = Ok d' /\
    GalvoDriver__point d' = p /\
    GalvoDriver__point_history d'
      = GalvoDriver__point_history d ++ [GalvoDriver__point d; GalvoDriver__point d] /\
    GalvoDriver__origin d' = GalvoDriver__origin d.
Proof.
  intros Hr. apply GalvoDriver_reachable_history_length in Hr.
  destruct (last (GalvoDriver__point_history d)) as [p|] eqn:Hl.
  - exists p. eexists. split; [done|]. unfold GalvoDriver__revert_pos. rewrite Hl.
    split; [reflexivity|]. cbn. split_and!; try done. by rewrite <- app_assoc.
  - apply last_None in Hl. rewrite Hl in Hr. cbn in Hr. lia.
Qed.

(** X11: [_revert_pos()] undoes a [go_to] that returned: the driver
    holds the Point it held before the move, and the history has logged
    that Point once and the Point of the abandoned target twice. *)
Theorem GalvoDriver_go_to_revert_pos new_pos speed d w d1 w1 r :
  GalvoDriver_go_to new_pos speed d w = ((d1, w1), Ok r) ->
  exists d2,
    GalvoDriver__revert_pos d1 = Ok d2 /\
    GalvoDriver__point d2 = GalvoDriver__point d /\
    GalvoDriver_pos d2 = GalvoDriver_pos d /\
    GalvoDriver__point_history d2
      = GalvoDriver__point_history d
          ++ [GalvoDriver__point d; GalvoDriver__point d1; GalvoDriver__point d1].
Proof.
  intros Hg. apply GalvoDriver_go_to_Ok, GalvoDriver_set__pos_Ok in Hg as [Hax ->].
  unfold GalvoDriver__revert_pos. cbn. rewrite last_snoc.
  eexists. split; [reflexivity|]. cbn. split_and!; try done.
  by rewrite <- !app_assoc.
Qed.

(** X12: what every reachable driver satisfies: its axis is "x" or "z",
    its history holds at least two Points, and its current Point, its
    origin and every logged Point are Points of its own axis. *)
Theorem GalvoDriver_reachable_invariant d :
  GalvoDriver_reachable d ->
  (GalvoDriver_axis d = "x" \/ GalvoDriver_axis d = "z") /\
  2 <= length (GalvoDriver__point_history d) /\
  Point_axis (GalvoDriver__point d) = GalvoDriver_axis d /\
  Point_axis (GalvoDriver__origin d) = GalvoDriver_axis d /\
  (forall p, p ∈ GalvoDriver__point_history d -> Point_axis p = GalvoDriver_axis d).
Proof.
  intros Hr. split; [by apply supported_axis_spec, GalvoDriver_reachable_supported|].
  split; [by apply GalvoDriver_reachable_history_length|].
  destruct (GalvoDriver_reachable_point_axis d Hr) as (? & ? & Hall).
  split_and!; try done. by apply Forall_forall.
Qed.

End GalvoDriver_more.

(** * Further properties of the group *)

Section GalvoDrivers_more.
Context {num : Type} `{PyNum num} `{Calibration num} `{Planner num}.
Context {HW : Type}.

Implicit Types (d : GalvoDriver num HW) (g : GalvoDrivers num HW) (w : HW).
Implicit Types (gs : gmap string (GalvoDriver num HW)) (axis : list string).

(** *** The first loop of go_to *)

Lemma GalvoDrivers_go_to_children_app speed (new_pos : gmap string num) axis1 axis2 gs w nap :
  GalvoDrivers_go_to_children speed new_pos (axis1 ++ axis2) gs w nap =
    match GalvoDrivers_go_to_children speed new_pos axis1 gs w nap with
    | ((gs1, w1), Ok nap1) => GalvoDrivers_go_to_children speed new_pos axis2 gs1 w1 nap1
    | r => r
    end.
Proof.
  revert gs w nap. induction axis1 as [|ax rest IH]; intros gs w nap; cbn; [done|].
  destruct (getitem gs ax) as [d|e]; [|done].
  destruct (getitem new_pos ax) as [p|e]; [|done].
  destruct (GalvoDriver_go_to _ _ _ _) as [[d1 w1] [[a0 t0]|e0]]; [apply IH|done].
Qed.

(** When the loop completes, every declared axis has been moved to its
    argument counted from its origin; the other stored drivers are
    untouched. *)
Lemma GalvoDrivers_go_to_children_Ok speed (new_pos : gmap string num) axis gs w nap
    gs' w' nap' :
  GalvoDrivers_go_to_children speed new_pos axis gs w nap = ((gs', w'), Ok nap') ->
  (forall k, k ∉ axis -> gs' !! k = gs !! k) /\
  (forall k, k ∈ axis ->
     exists d d' p,
       gs !! k = Some d /\ new_pos !! k = Some p /\ gs' !! k = Some d' /\
       GalvoDriver_pos d' = nadd p (GalvoDriver_origin d) /\
       GalvoDriver__origin d' = GalvoDriver__origin d).
Proof.
  revert gs w nap. induction axis as [|ax rest IH]; intros gs w nap Hx; cbn in Hx.
  - simplify_eq. split; [done|]. intros k Hk. by apply elem_of_nil in Hk.
  - destruct (getitem gs ax) as [d|e] eqn:Hd; [|done]. apply getitem_Ok in Hd.
    destruct (getitem new_pos ax) as [p|e] eqn:Hp; [|done]. apply getitem_Ok in Hp.
    destruct (GalvoDriver_go_to p speed d w) as [[d1 w1] [[a0 t0]|e0]] eqn:Hg; [|done].
    apply GalvoDriver_go_to_Ok, GalvoDriver_set__pos_Ok in Hg as [Hax ->].
    apply IH in Hx as [Hout Hin]. split.
    + intros k Hk. apply not_elem_of_cons in Hk as [Hne Hk].
      rewrite (Hout k Hk). by rewrite lookup_insert_ne.
    + intros k Hk. destruct (decide (k ∈ rest)) as [Hr|Hr].
      * destruct (Hin k Hr) as (d0 & d' & p' & Hd0 & Hp' & Hd' & Hpos & Hor).
        destruct (decide (ax = k)) as [<-|Hne].
        -- rewrite lookup_insert_eq in Hd0. simplify_eq.
           eexists _, _, _. split_and!; done.
        -- rewrite lookup_insert_ne in Hd0 by done. exists d0, d', p'. done.
      * apply elem_of_cons in Hk as [->|Hk]; [|done].
        eexists d, _, p. rewrite (Hout ax Hr), lookup_insert_eq. done.
Qed.

(** Stored drivers without a LabJack complete the loop when the planner
    accepts the move each of them makes: from where it stands to its
    argument counted from its origin and, for an axis the loop visits
    again, from there to the same place.  The device is left alone and
    the positions collected are the absolute ones. *)
Lemma GalvoDrivers_go_to_children_offline speed (new_pos : gmap string num) axis gs w nap :
  (forall ax, ax ∈ axis ->
     exists d p,
       gs !! ax = Some d /\ new_pos !! ax = Some p /\
       GalvoDriver_open_labjack d = None /\
       supported_axis (GalvoDriver_axis d) = true /\
       (exists m, Move_init (GalvoDriver_axis d) (GalvoDriver_pos d)
                    (nadd p (GalvoDriver_origin d)) speed = Returns m) /\
       (exists m, Move_init (GalvoDriver_axis d) (nadd p (GalvoDriver_origin d))
                    (nadd p (GalvoDriver_origin d)) speed = Returns m)) ->
  exists gs' nap',
    GalvoDrivers_go_to_children speed new_pos axis gs w nap = ((gs', w), Ok nap') /\
    forall k,
      nap' !! k =
        if decide (k ∈ axis)
        then gs !! k ≫= fun d => (fun p => nadd p (GalvoDriver_origin d)) <$> new_pos !! k
        else nap !! k.
Proof.
  revert gs nap. induction axis as [|ax rest IH]; intros gs nap Hall; cbn.
  - exists gs, nap. split; [done|]. intros k. rewrite decide_False; [done|].
    by intros ?%elem_of_nil.
  - destruct (Hall ax) as (d & p & Hd & Hp & Hlj & Hax & [m Hm] & [m' Hm']);
      [apply elem_of_cons; by left|].
    unfold getitem. rewrite Hd, Hp.
    rewrite (GalvoDriver_go_to_None p speed d w m Hlj Hax Hm).
    set (target := nadd p (GalvoDriver_origin d)).
    set (d1 := GalvoDriver_set__point _ d).
    destruct (IH (<[ax := d1]> gs) (<[ax := target]> nap)) as (gs' & nap' & Hch & Hnap).
    { intros ax' Hin. destruct (decide (ax = ax')) as [<-|Hne].
      - exists d1, p. rewrite lookup_insert_eq. split_and!; try done; by exists m'.
      - rewrite lookup_insert_ne by done. apply Hall, elem_of_cons. by right. }
    exists gs', nap'. split; [done|]. intros k. rewrite Hnap.
    destruct (decide (ax = k)) as [<-|Hne].
    + rewrite !lookup_insert_eq, Hd, Hp. cbn.
      destruct (decide (ax ∈ ax :: rest)) as [_|Hn]; [|by destruct Hn; left].
      by destruct (decide (ax ∈ rest)).
    + rewrite !lookup_insert_ne by done. apply decide_ext.
      rewrite elem_of_cons. intuition congruence.
Qed.

(** The loop of the branch without a DAQ copies the arguments. *)
Lemma GalvoDrivers_go_to_offline_Ok (new_pos : gmap string num) axis out out' :
  GalvoDrivers_go_to_offline new_pos axis out = Ok out' ->
  forall k, out' !! k = if decide (k ∈ axis) then new_pos !! k else out !! k.
Proof.
  revert out. induction axis as [|ax rest IH]; intros out Hx k; cbn in Hx.
  - simplify_eq. rewrite decide_False; [done|]. by intros ?%elem_of_nil.
  - destruct (getitem new_pos ax) as [p|e] eqn:Hp; [|done]. apply getitem_Ok in Hp.
    destruct (Point_of_pos ax p) as [pt|e] eqn:Hpt; [|done].
    apply Point_of_pos_Ok in Hpt as [_ ->]. cbn in Hx.
    rewrite (IH _ Hx k). destruct (decide (ax = k)) as [<-|Hne].
    + rewrite lookup_insert_eq, Hp.
      destruct (decide (ax ∈ ax :: rest)) as [_|Hn]; [|by destruct Hn; left].
      by destruct (decide (ax ∈ rest)).
    + rewrite lookup_insert_ne by done. apply decide_ext.
      rewrite elem_of_cons. intuition congruence.
Qed.

(** Stored drivers without a LabJack leave the device alone, however
    the loop ends. *)
Lemma GalvoDrivers_go_to_children_hw speed (new_pos : gmap string num) axis gs w nap gs' w' r :
  (forall k d, gs !! k = Some d -> GalvoDriver_open_labjack d = None) ->
  GalvoDrivers_go_to_children speed new_pos axis gs w nap = ((gs', w'), r) ->
  w' = w.
Proof.
  revert gs w nap. induction axis as [|ax rest IH]; intros gs w nap Hoff Hx; cbn in Hx.
  - by simplify_eq.
  - destruct (getitem gs ax) as [d|e] eqn:Hd; [|by simplify_eq]. apply getitem_Ok in Hd.
    destruct (getitem new_pos ax) as [p|e]; [|by simplify_eq].
    destruct (GalvoDriver_go_to p speed d w) as [[d1 w1] [[a0 t0]|e0]] eqn:Hg.
    + pose proof (GalvoDriver_go_to_offline _ _ _ _ _ _ _ (Hoff _ _ Hd) Hg) as ->.
      apply IH in Hx; [done|]. intros k d2 Hk.
      destruct (decide (ax = k)) as [<-|Hne].
      * rewrite lookup_insert_eq in Hk. simplify_eq.
        destruct (GalvoDriver_go_to_same_setup _ _ _ _ _ _ _ Hg) as (_ & _ & -> & _).
        by eapply Hoff.
      * rewrite lookup_insert_ne in Hk by done. by eapply Hoff.
    + simplify_eq. exact (GalvoDriver_go_to_offline _ _ _ _ _ _ _ (Hoff _ _ Hd) Hg).
Qed.

(** X13: [go_to] on a group without a LabJack, once the first loop has
    moved the stored drivers and the planner has returned the joint
    move.  Every declared axis stands at its argument counted from its
    own origin and the duration is 0, but the positions returned are
    the arguments themselves (relative to the origins), not the
    absolute positions a single driver returns.  With stored drivers
    that have no LabJack either, the device is not touched. *)
Theorem GalvoDrivers_go_to_offline_returns_arguments
    speed (new_pos : gmap string num) g w op gs1 w0 nap move :
  GalvoDrivers_open_labjack g = None ->
  GalvoDrivers_wf g ->
  GalvoDrivers_pos g = Ok op ->
  GalvoDrivers_go_to_children speed new_pos (GalvoDrivers_axis g)
    (GalvoDrivers__galvos g) w ∅ = ((gs1, w0), Ok nap) ->
  MoveMultiDim_init (GalvoDrivers_axis g) op nap speed = Returns move ->
  exists out,
    GalvoDrivers_go_to speed new_pos g w = ((with_galvos gs1 g, w0), Ok (out, nzero)) /\
    (forall k, k ∈ GalvoDrivers_axis g ->
       exists d d' p,
         GalvoDrivers__galvos g !! k = Some d /\ new_pos !! k = Some p /\
         gs1 !! k = Some d' /\
         out !! k = Some p /\
         GalvoDriver_pos d' = nadd p (GalvoDriver_origin d)) /\
    ((forall k d, GalvoDrivers__galvos g !! k = Some d -> GalvoDriver_open_labjack d = None) ->
     w0 = w).
Proof.
  intros Hlj Hwf Hpos Hch Hm.
  pose proof (GalvoDrivers_go_to_children_Ok _ _ _ _ _ _ _ _ _ Hch) as [_ Hin].
  destruct (GalvoDrivers_go_to_offline_ok new_pos (GalvoDrivers_axis g) ∅) as [out Hoffl].
  { intros ax Hi. destruct (Hin ax Hi) as (_ & _ & p & _ & -> & _).
    split; [done|]. by destruct (Hwf ax Hi) as (? & _ & _ & ?). }
  exists out. split_and!.
  - unfold GalvoDrivers_go_to. rewrite Hpos, Hch, Hm. cbn. by rewrite Hlj, Hoffl.
  - intros k Hk. destruct (Hin k Hk) as (d & d' & p & Hd & Hp & Hd' & Hpp & _).
    exists d, d', p. split_and!; try done.
    by rewrite (GalvoDrivers_go_to_offline_Ok _ _ _ _ Hoffl k), decide_True.
  - intros Hoff. by eapply GalvoDrivers_go_to_children_hw.
Qed.

(** *** What follows the first loop *)

Lemma GalvoDrivers_go_to_except_points (lj : LabJack num HW) move axis gs w l gs' w' l' e :
  GalvoDrivers_go_to_except lj move axis gs w l = (gs', w', l', e) ->
  forall k, GalvoDriver__point <$> gs' !! k = GalvoDriver__point <$> gs !! k /\
            GalvoDriver__point_history <$> gs' !! k = GalvoDriver__point_history <$> gs !! k.
Proof.
  unfold GalvoDrivers_go_to_except. intros Hx.
  repeat case_match; simplify_eq; try done;
    by eapply GalvoDrivers_go_to_stop_points.
Qed.

(** Once the stored drivers have made their moves, nothing in [go_to]
    changes a Point or a history any more: neither the [try] block, nor
    the handler, nor the [finally] clause. *)
Lemma GalvoDrivers_go_to_points speed (new_pos : gmap string num) g w g' w' r op gs1 w0 r1 :
  GalvoDrivers_go_to speed new_pos g w = ((g', w'), r) ->
  GalvoDrivers_pos g = Ok op ->
  GalvoDrivers_go_to_children speed new_pos (GalvoDrivers_axis g)
    (GalvoDrivers__galvos g) w ∅ = ((gs1, w0), r1) ->
  forall k,
    GalvoDriver__point <$> GalvoDrivers__galvos g' !! k = GalvoDriver__point <$> gs1 !! k /\
    GalvoDriver__point_history <$> GalvoDrivers__galvos g' !! k
      = GalvoDriver__point_history <$> gs1 !! k.
Proof.
  unfold GalvoDrivers_go_to. intros Hg Hpos Hch. rewrite Hpos, Hch in Hg.
  destruct r1 as [nap|e1]; [|by simplify_eq].
  destruct (of_outcome _) as [move|e1]; [|by simplify_eq].
  destruct (GalvoDrivers_open_labjack g) as [lj|].
  - destruct (GalvoDrivers_go_to_try lj move speed (w0, no_locals)) as [[w1 l1] rt].
    destruct rt as [u|e1].
    + repeat case_match; by simplify_eq.
    + destruct (GalvoDrivers_go_to_except lj move (GalvoDrivers_axis g) gs1 w1 l1)
        as [[[gs2 w2] l2] e2] eqn:Hex.
      pose proof (GalvoDrivers_go_to_except_points _ _ _ _ _ _ _ _ _ _ Hex) as Hpts.
      destruct e1; repeat case_match; by simplify_eq.
  - repeat case_match; by simplify_eq.
Qed.

Lemma GalvoDrivers_go_to_Ok_inv speed (new_pos : gmap string num) g w g' w' r :
  GalvoDrivers_go_to speed new_pos g w = ((g', w'), Ok r) ->
  exists op gs1 w0 nap,
    GalvoDrivers_pos g = Ok op /\
    GalvoDrivers_go_to_children speed new_pos (GalvoDrivers_axis g)
      (GalvoDrivers__galvos g) w ∅ = ((gs1, w0), Ok nap).
Proof.
  unfold GalvoDrivers_go_to. intros Hg.
  destruct (GalvoDrivers_pos g) as [op|e]; [|done].
  destruct (GalvoDrivers_go_to_children _ _ _ _ _ _) as [[gs1 w0] [nap|e]]; [|done].
  eauto 10.
Qed.

(** X14: the LabJack has no influence on where the stored drivers stand
    after a [go_to] of the group.  Whatever [go_to] returns or raises,
    every stored driver holds the Point the first loop left it with.
    When that loop completed, every declared axis stands at its
    argument counted from its origin, whether the joint planner then
    refuses the move or the write or the stream completes, fails or is
    interrupted: the readback is returned or lost, never installed.
    When that loop raised, [go_to] raises the same exception and keeps
    the drivers and the device as the loop left them. *)
Theorem GalvoDrivers_go_to_positions_commanded
    speed (new_pos : gmap string num) g w g' w' r op gs1 w0 r1 :
  GalvoDrivers_pos g = Ok op ->
  GalvoDrivers_go_to_children speed new_pos (GalvoDrivers_axis g)
    (GalvoDrivers__galvos g) w ∅ = ((gs1, w0), r1) ->
  GalvoDrivers_go_to speed new_pos g w = ((g', w'), r) ->
  (forall k,
     GalvoDriver__point <$> GalvoDrivers__galvos g' !! k = GalvoDriver__point <$> gs1 !! k) /\
  match r1 with
  | Ok _ =>
      forall k, k ∈ GalvoDrivers_axis g ->
        exists d d' p,
          GalvoDrivers__galvos g !! k = Some d /\ new_pos !! k = Some p /\
          GalvoDrivers__galvos g' !! k = Some d' /\
          GalvoDriver_pos d' = nadd p (GalvoDriver_origin d)
  | Raise e => g' = with_galvos gs1 g /\ w' = w0 /\ r = Raise e
  end.
Proof.
  intros Hpos Hch Hg.
  pose proof (GalvoDrivers_go_to_points _ _ _ _ _ _ _ _ _ _ _ Hg Hpos Hch) as Hpts.
  split; [intros k; by destruct (Hpts k)|].
  destruct r1 as [nap|e].
  - intros k Hk. destruct (Hpts k) as [Hpt _].
    apply GalvoDrivers_go_to_children_Ok in Hch as [_ Hin].
    destruct (Hin k Hk) as (d & d1 & p & Hd & Hp & Hd1 & Hp1 & _).
    rewrite Hd1 in Hpt. cbn in Hpt.
    destruct (GalvoDrivers__galvos g' !! k) as [d'|] eqn:Hd'; [|done].
    exists d, d', p. split_and!; try done.
    injection Hpt as Hpt. unfold GalvoDriver_pos, GalvoDriver__pos. rewrite Hpt. exact Hp1.
  - unfold GalvoDrivers_go_to in Hg. rewrite Hpos, Hch in Hg. by simplify_eq.
Qed.

(** The dict-valued loop returns only when every declared axis has a
    stored driver. *)
Lemma for_each_axis_Ok {A} (f : GalvoDriver num HW -> result A) axis gs out out' :
  for_each_axis f axis gs out = Ok out' ->
  forall ax, ax ∈ axis -> is_Some (gs !! ax).
Proof.
  revert out. induction axis as [|a rest IH]; intros out Hx ax Hin; cbn in Hx.
  - by apply elem_of_nil in Hin.
  - destruct (getitem gs a) as [d|e] eqn:Hd; [|done]. apply getitem_Ok in Hd.
    destruct (f d) as [v|e]; [|done].
    apply elem_of_cons in Hin as [->|Hin]; [by rewrite Hd|by eapply IH].
Qed.

(** X15: a declared axis without an argument makes [go_to] raise the
    KeyError of that axis, but only when the loop reaches it: once the
    axes declared before it have made their moves, they stay moved, the
    others have not moved, and the LabJack of the group has not been
    used. *)
Theorem GalvoDrivers_go_to_missing_argument
    speed (new_pos : gmap string num) g w pre ax post op gs1 w0 nap :
  GalvoDrivers_axis g = pre ++ ax :: post ->
  GalvoDrivers_pos g = Ok op ->
  GalvoDrivers_go_to_children speed new_pos pre (GalvoDrivers__galvos g) w ∅
    = ((gs1, w0), Ok nap) ->
  new_pos !! ax = None ->
  GalvoDrivers_go_to speed new_pos g w = ((with_galvos gs1 g, w0), Raise (KeyError ax)) /\
  (forall k, k ∈ pre ->
     exists d d' p,
       GalvoDrivers__galvos g !! k = Some d /\ new_pos !! k = Some p /\
       gs1 !! k = Some d' /\
       GalvoDriver_pos d' = nadd p (GalvoDriver_origin d)) /\
  (forall k, k ∉ pre -> gs1 !! k = GalvoDrivers__galvos g !! k) /\
  ((forall k d, GalvoDrivers__galvos g !! k = Some d -> GalvoDriver_open_labjack d = None) ->
   w0 = w).
Proof.
  intros Haxis Hpos Hch Hmiss.
  pose proof (GalvoDrivers_go_to_children_Ok _ _ _ _ _ _ _ _ _ Hch) as [Hout Hin].
  assert (Hax : is_Some (gs1 !! ax)).
  { destruct (decide (ax ∈ pre)) as [Hp|Hp].
    - destruct (Hin ax Hp) as (? & ? & ? & _ & _ & -> & _). done.
    - rewrite (Hout ax Hp). apply (for_each_axis_Ok _ _ _ _ _ Hpos).
      rewrite Haxis. apply elem_of_app. right. apply elem_of_cons. by left. }
  destruct Hax as [dax Hdax].
  split_and!; [| |done|].
  - unfold GalvoDrivers_go_to. rewrite Hpos, Haxis, GalvoDrivers_go_to_children_app, Hch. cbn.
    unfold getitem. by rewrite Hdax, Hmiss.
  - intros k Hk. destruct (Hin k Hk) as (d & d' & p & ? & ? & ? & ? & _).
    exists d, d', p. done.
  - intros Hoff. by eapply GalvoDrivers_go_to_children_hw.
Qed.

(** *** Construction *)

Lemma GalvoDrivers_init_galvos_origin axis (dac : gmap string string) (pos : gmap string num)
    gs0 w w' gs :
  GalvoDrivers_init_galvos axis dac pos gs0 w = (w', Ok gs) ->
  forall k d, gs !! k = Some d ->
    gs0 !! k = Some d \/
    (exists p, pos !! k = Some p /\ GalvoDriver_origin d = p /\
               GalvoDriver_pos d = nadd p p).
Proof.
  revert gs0 w. induction axis as [|ax rest IH]; intros gs0 w Hx k d Hd; cbn in Hx.
  - simplify_eq. by left.
  - destruct (getitem dac ax) as [dn|e]; [|done].
    destruct (getitem pos ax) as [p|e] eqn:Hp; [|done]. apply getitem_Ok in Hp.
    destruct (GalvoDriver_init ax dn p None w) as [w1 [d1|e]] eqn:Hi; [|done].
    apply GalvoDriver_init_Ok in Hi as [_ ->].
    destruct (IH _ _ Hx k d Hd) as [Hd0|?]; [|by right].
    destruct (decide (ax = k)) as [<-|Hne].
    + rewrite lookup_insert_eq in Hd0. simplify_eq. right. exists p. done.
    + rewrite lookup_insert_ne in Hd0 by done. by left.
Qed.

(** X16: in a constructed group every declared axis has its origin at
    [pos_init[ax]] and stands at [pos_init[ax]] counted from that
    origin, that is at [pos_init[ax] + pos_init[ax]]: the constructor of
    the stored driver moves there, and the closing [go_to] of the group
    constructor moves there again. *)
Theorem GalvoDrivers_init_positions axis (dac : gmap string string) (pos : gmap string num)
    (lj : option (LabJack num HW)) w w' g :
  GalvoDrivers_init axis dac pos lj w = (w', Ok g) ->
  forall ax, ax ∈ axis ->
    exists p d,
      pos !! ax = Some p /\ GalvoDrivers__galvos g !! ax = Some d /\
      GalvoDriver_origin d = p /\ GalvoDriver_pos d = nadd p p.
Proof.
  unfold GalvoDrivers_init. intros Hx ax Hin.
  destruct (GalvoDrivers_init_check axis dac pos); [|done].
  destruct (GalvoDrivers_init_galvos axis dac pos ∅ w) as [w1 [gs|e]] eqn:Hgs; [|done].
  pose proof (GalvoDrivers_init_galvos_origin _ _ _ _ _ _ _ Hgs) as Hor.
  destruct (unpack_clash pos); [done|].
  destruct (GalvoDrivers_go_to _ _ _ _) as [[g1 w2] [r|e]] eqn:Hg; [|done].
  simplify_eq.
  destruct (GalvoDrivers_go_to_Ok_inv _ _ _ _ _ _ _ Hg) as (op & gs1 & w0 & nap & Hpos & Hch).
  destruct (GalvoDrivers_go_to_points _ _ _ _ _ _ _ _ _ _ _ Hg Hpos Hch ax) as [Hpt _].
  apply GalvoDrivers_go_to_kept in Hg as (_ & _ & Hkept).
  apply GalvoDrivers_go_to_children_Ok in Hch as [_ Hmoved]. cbn in *.
  destruct (Hmoved ax Hin) as (d0 & d1 & p & Hd0 & Hp & Hd1 & Hp1 & Ho1).
  destruct (Hor ax d0 Hd0) as [Hemp|(p0 & Hp0 & Ho0 & _)];
    [by rewrite lookup_empty in Hemp|].
  simplify_eq.
  destruct (children_kept_lookup _ _ _ _ Hkept Hd0) as (d & Hd & Hs).
  exists (GalvoDriver_origin d0), d. split_and!; try done.
  - destruct Hs as (_ & _ & _ & Ho). unfold GalvoDriver_origin. by rewrite Ho.
  - rewrite Hd, Hd1 in Hpt. injection Hpt as Hpt.
    unfold GalvoDriver_pos, GalvoDriver__pos. rewrite Hpt.
    exact Hp1.
Qed.

(** *** Origins of the group *)

Lemma GalvoDrivers_set_origin_loop_empty axis gs :
  (forall ax, ax ∈ axis -> is_Some (gs !! ax)) ->
  exists gs',
    GalvoDrivers_set_origin_loop (∅ : gmap string num) axis gs = Ok gs' /\
    forall k,
      gs' !! k =
        if decide (k ∈ axis)
        then (fun d => with_origin (GalvoDriver__point d) d) <$> gs !! k
        else gs !! k.
Proof.
  revert gs. induction axis as [|ax rest IH]; intros gs Hall.
  - exists gs. split; [done|]. intros k. rewrite decide_False; [done|].
    by intros ?%elem_of_nil.
  - cbn [GalvoDrivers_set_origin_loop]. rewrite decide_True by done.
    destruct (Hall ax) as [d Hd]; [apply elem_of_cons; by left|].
    unfold getitem. rewrite Hd. cbn.
    destruct (IH (<[ax := with_origin (GalvoDriver__point d) d]> gs)) as (gs' & Hloop & Hgs').
    { intros ax' Hin. destruct (decide (ax = ax')) as [<-|Hne].
      - by rewrite lookup_insert_eq.
      - rewrite lookup_insert_ne by done. apply Hall, elem_of_cons. by right. }
    exists gs'. split; [done|]. intros k. rewrite Hgs'.
    destruct (decide (ax = k)) as [<-|Hne].
    + rewrite lookup_insert_eq, Hd.
      destruct (decide (ax ∈ ax :: rest)) as [_|Hn]; [|by destruct Hn; left].
      by destruct (decide (ax ∈ rest)).
    + rewrite lookup_insert_ne by done. apply decide_ext.
      rewrite elem_of_cons. intuition congruence.
Qed.

(** X17: [set_origin()] of the group, without keyword arguments, makes
    the current Point of every declared axis its origin (its origin is
    then its position), whatever the axes are; no current Point and no
    history changes. *)
Theorem GalvoDrivers_set_origin_here g :
  (forall ax, ax ∈ GalvoDrivers_axis g -> is_Some (GalvoDrivers__galvos g !! ax)) ->
  exists g',
    GalvoDrivers_set_origin ∅ g = Ok g' /\
    GalvoDrivers_axis g' = GalvoDrivers_axis g /\
    forall ax d, GalvoDrivers__galvos g !! ax = Some d ->
      exists d',
        GalvoDrivers__galvos g' !! ax = Some d' /\
        GalvoDriver__point d' = GalvoDriver__point d /\
        GalvoDriver__point_history d' = GalvoDriver__point_history d /\
        (ax ∈ GalvoDrivers_axis g ->
           GalvoDriver__origin d' = GalvoDriver__point d /\
           GalvoDriver_origin d' = GalvoDriver_pos d) /\
        (ax ∉ GalvoDrivers_axis g -> d' = d).
Proof.
  intros Hall.
  destruct (GalvoDrivers_set_origin_loop_empty _ _ Hall) as (gs' & Hloop & Hgs').
  exists (with_galvos gs' g). unfold GalvoDrivers_set_origin. rewrite Hloop.
  split; [done|]. split; [done|]. intros ax d Hd. cbn. rewrite Hgs', Hd.
  case_decide; cbn; eexists; (split; [done|]); split_and!; done.
Qed.

Lemma GalvoDrivers_reset_origin_loop_spec axis gs :
  (forall ax, ax ∈ axis ->
     exists d, gs !! ax = Some d /\ supported_axis (GalvoDriver_axis d) = true) ->
  exists gs',
    GalvoDrivers_reset_origin_loop axis gs = Ok gs' /\
    forall k,
      gs' !! k =
        if decide (k ∈ axis)
        then (fun d => with_origin (mkPoint (GalvoDriver_axis d) nzero
                                      (pos_to_voltage (GalvoDriver_axis d) nzero)) d)
               <$> gs !! k
        else gs !! k.
Proof.
  revert gs. induction axis as [|ax rest IH]; intros gs Hall.
  - exists gs. split; [done|]. intros k. rewrite decide_False; [done|].
    by intros ?%elem_of_nil.
  - cbn [GalvoDrivers_reset_origin_loop].
    destruct (Hall ax) as (d & Hd & Hax); [apply elem_of_cons; by left|].
    unfold getitem. rewrite Hd, (GalvoDriver_set_origin_Some _ _ Hax).
    destruct (IH (<[ax := with_origin (mkPoint (GalvoDriver_axis d) nzero
                                        (pos_to_voltage (GalvoDriver_axis d) nzero)) d]> gs))
      as (gs' & Hloop & Hgs').
    { intros ax' Hin. destruct (decide (ax = ax')) as [<-|Hne].
      - rewrite lookup_insert_eq. eauto.
      - rewrite lookup_insert_ne by done. apply Hall, elem_of_cons. by right. }
    exists gs'. split; [done|]. intros k. rewrite Hgs'.
    destruct (decide (ax = k)) as [<-|Hne].
    + rewrite lookup_insert_eq, Hd.
      destruct (decide (ax ∈ ax :: rest)) as [_|Hn]; [|by destruct Hn; left].
      by destruct (decide (ax ∈ rest)).
    + rewrite lookup_insert_ne by done. apply decide_ext.
      rewrite elem_of_cons. intuition congruence.
Qed.

(** X18: [reset_origin()] of the group puts the origin of every declared
    axis at the Point of 0 and moves nothing: current Points and
    histories are as before. *)
Theorem GalvoDrivers_reset_origin_zero g :
  GalvoDrivers_wf g ->
  exists g',
    GalvoDrivers_reset_origin g = Ok g' /\
    GalvoDrivers_axis g' = GalvoDrivers_axis g /\
    forall ax d, GalvoDrivers__galvos g !! ax = Some d ->
      exists d',
        GalvoDrivers__galvos g' !! ax = Some d' /\
        GalvoDriver__point d' = GalvoDriver__point d /\
        GalvoDriver__point_history d' = GalvoDriver__point_history d /\
        (ax ∈ GalvoDrivers_axis g ->
           GalvoDriver_origin d' = nzero /\
           GalvoDriver__origin d' =
             mkPoint (GalvoDriver_axis d) nzero (pos_to_voltage (GalvoDriver_axis d) nzero)) /\
        (ax ∉ GalvoDrivers_axis g -> d' = d).
Proof.
  intros Hwf.
  destruct (GalvoDrivers_reset_origin_loop_spec (GalvoDrivers_axis g)
              (GalvoDrivers__galvos g)) as (gs' & Hloop & Hgs').
  { intros ax Hin. destruct (Hwf ax Hin) as (d & Hd & Hax & Hsup).
    exists d. by rewrite Hax. }
  exists (with_galvos gs' g). unfold GalvoDrivers_reset_origin. rewrite Hloop.
  split; [done|]. split; [done|]. intros ax d Hd. cbn. rewrite Hgs', Hd.
  case_decide as Hin; cbn; eexists; (split; [done|]); split_and!; done.
Qed.

(** *** reset_pos *)

Lemma foldl_insert_lookup {A} (c : A) (l : list string) (m : gmap string A) k :
  foldl (fun m ax => <[ax := c]> m) m l !! k
    = if decide (k ∈ l) then Some c else m !! k.
Proof.
  revert m. induction l as [|ax rest IH]; intros m; cbn.
  - rewrite decide_False; [done|]. by intros ?%elem_of_nil.
  - rewrite IH. destruct (decide (ax = k)) as [<-|Hne].
    + rewrite lookup_insert_eq.
      destruct (decide (ax ∈ ax :: rest)) as [_|Hn]; [|by destruct Hn; left].
      by destruct (decide (ax ∈ rest)).
    + rewrite lookup_insert_ne by done. apply decide_ext.
      rewrite elem_of_cons. intuition congruence.
Qed.

(** *** The dict-valued properties *)

Lemma for_each_axis_total {A} (h : GalvoDriver num HW -> A) axis gs out :
  (forall ax, ax ∈ axis -> is_Some (gs !! ax)) ->
  exists m,
    for_each_axis (fun d => Ok (h d)) axis gs out = Ok m /\
    forall k, m !! k = if decide (k ∈ axis) then h <$> gs !! k else out !! k.
Proof.
  revert out. induction axis as [|ax rest IH]; intros out Hall; cbn.
  - exists out. split; [done|]. intros k. rewrite decide_False; [done|].
    by intros ?%elem_of_nil.
  - destruct (Hall ax) as [d Hd]; [apply elem_of_cons; by left|].
    unfold getitem. rewrite Hd.
    destruct (IH (<[ax := h d]> out)) as (m & Hm & Hlook).
    { intros ax' Hin. apply Hall, elem_of_cons. by right. }
    exists m. split; [done|]. intros k. rewrite Hlook.
    destruct (decide (ax = k)) as [<-|Hne].
    + rewrite lookup_insert_eq, Hd.
      destruct (decide (ax ∈ ax :: rest)) as [_|Hn]; [|by destruct Hn; left].
      by destruct (decide (ax ∈ rest)).
    + rewrite lookup_insert_ne by done. apply decide_ext.
      rewrite elem_of_cons. intuition congruence.
Qed.

(** X20: on a group with a stored driver for every declared axis, the
    properties [pos], [origin] and [pos_history] return a dict whose
    keys are exactly the declared axes, each with the value of its
    stored driver; an axis declared twice appears once. *)
Theorem GalvoDrivers_dict_properties g :
  (forall ax, ax ∈ GalvoDrivers_axis g -> is_Some (GalvoDrivers__galvos g !! ax)) ->
  exists mp mo mh,
    GalvoDrivers_pos g = Ok mp /\
    GalvoDrivers_origin g = Ok mo /\
    GalvoDrivers_pos_history g = Ok mh /\
    forall k,
      mp !! k = (if decide (k ∈ GalvoDrivers_axis g)
                 then GalvoDriver_pos <$> GalvoDrivers__galvos g !! k else None) /\
      mo !! k = (if decide (k ∈ GalvoDrivers_axis g)
                 then GalvoDriver_origin <$> GalvoDrivers__galvos g !! k else None) /\
      mh !! k = (if decide (k ∈ GalvoDrivers_axis g)
                 then GalvoDriver_pos_history <$> GalvoDrivers__galvos g !! k else None).
Proof.
  intros Hall.
  destruct (for_each_axis_total GalvoDriver_pos _ _ ∅ Hall) as (mp & Hmp & Hlp).
  destruct (for_each_axis_total GalvoDriver_origin _ _ ∅ Hall) as (mo & Hmo & Hlo).
  destruct (for_each_axis_total GalvoDriver_pos_history _ _ ∅ Hall) as (mh & Hmh & Hlh).
  exists mp, mo, mh. split_and!; done.
Qed.

(** *** What the origin methods leave alone *)

Lemma GalvoDrivers_set_origin_loop_frame (orig : gmap string num) axis gs gs' :
  GalvoDrivers_set_origin_loop orig axis gs = Ok gs' ->
  forall k,
    option_Forall2
      (fun d d' =>
         GalvoDriver_axis d' = GalvoDriver_axis d /\
         GalvoDriver_dac_name d' = GalvoDriver_dac_name d /\
         GalvoDriver_open_labjack d' = GalvoDriver_open_labjack d /\
         GalvoDriver___point d' = GalvoDriver___point d /\
         GalvoDriver__point_history d' = GalvoDriver__point_history d /\
         GalvoDriver_voltage d' = GalvoDriver_voltage d)
      (gs !! k) (gs' !! k).
Proof.
  revert gs. induction axis as [|ax rest IH]; intros gs Hx k;
    cbn [GalvoDrivers_set_origin_loop] in Hx.
  - simplify_eq. destruct (gs' !! k); constructor. done.
  - assert (Hins : forall d o1 d2,
              gs !! ax = Some d ->
              GalvoDriver_set_origin o1 d = Ok d2 ->
              forall gs3, GalvoDrivers_set_origin_loop orig rest (<[ax := d2]> gs) = Ok gs3 ->
              gs' = gs3 ->
              option_Forall2
                (fun d d' =>
                   GalvoDriver_axis d' = GalvoDriver_axis d /\
                   GalvoDriver_dac_name d' = GalvoDriver_dac_name d /\
                   GalvoDriver_open_labjack d' = GalvoDriver_open_labjack d /\
                   GalvoDriver___point d' = GalvoDriver___point d /\
                   GalvoDriver__point_history d' = GalvoDriver__point_history d /\
                   GalvoDriver_voltage d' = GalvoDriver_voltage d)
                (gs !! k) (gs' !! k)).
    { intros d o1 d2 Hd Hs gs3 Hl ->.
      apply GalvoDriver_set_origin_frame in Hs as (Ha & Hb & Hc & Hp & Hh & Hv).
      specialize (IH _ Hl k). destruct (decide (ax = k)) as [<-|Hne].
      - rewrite lookup_insert_eq in IH. rewrite Hd.
        inversion IH as [? d3 (?&?&?&?&?&?)|]; subst. constructor.
        split_and!; congruence.
      - by rewrite lookup_insert_ne in IH. }
    case_decide.
    + destruct (getitem gs ax) as [d|e] eqn:Hd; [|done]. apply getitem_Ok in Hd.
      destruct (GalvoDriver_set_origin None d) as [d'|e] eqn:Hs; [|done].
      by eapply Hins.
    + destruct (getitem gs ax) as [d|e] eqn:Hd.
      * apply getitem_Ok in Hd. destruct (getitem orig ax) as [o|e].
        -- destruct (GalvoDriver_set_origin (Some o) d) as [d'|e] eqn:Hs.
           ++ by eapply Hins.
           ++ destruct e; try done. by apply IH.
        -- destruct e; try done. by apply IH.
      * destruct e; try done. by apply IH.
Qed.

(** X21: whatever its keyword arguments, a [set_origin] of the group
    that returns has kept every stored driver in place with its axis,
    register, current Point, history and (absent) LabJack, and has
    added none; a group with a stored driver for every declared axis
    still has one afterwards. *)
Theorem GalvoDrivers_set_origin_frame (orig : gmap string num) g g' :
  GalvoDrivers_set_origin orig g = Ok g' ->
  GalvoDrivers_axis g' = GalvoDrivers_axis g /\
  (forall k, GalvoDrivers__galvos g !! k = None -> GalvoDrivers__galvos g' !! k = None) /\
  (forall k d, GalvoDrivers__galvos g !! k = Some d ->
     exists d',
       GalvoDrivers__galvos g' !! k = Some d' /\
       GalvoDriver_axis d' = GalvoDriver_axis d /\
       GalvoDriver_dac_name d' = GalvoDriver_dac_name d /\
       GalvoDriver_open_labjack d' = GalvoDriver_open_labjack d /\
       GalvoDriver__point d' = GalvoDriver__point d /\
       GalvoDriver__point_history d' = GalvoDriver__point_history d) /\
  (GalvoDrivers_wf g -> GalvoDrivers_wf g').
Proof.
  unfold GalvoDrivers_set_origin. intros Hs.
  destruct (GalvoDrivers_set_origin_loop _ _ _) as [gs'|e] eqn:Hloop; [|done].
  simplify_eq. pose proof (GalvoDrivers_set_origin_loop_frame _ _ _ _ Hloop) as Hfr.
  cbn. split; [done|]. split_and!.
  - intros k Hk. specialize (Hfr k). rewrite Hk in Hfr. by inversion Hfr.
  - intros k d Hd. specialize (Hfr k). rewrite Hd in Hfr.
    inversion Hfr as [? d' (?&?&?&?&?&?)|]; subst. exists d'. done.
  - intros Hwf ax Hin. destruct (Hwf ax Hin) as (d & Hd & Hax & Hsup).
    specialize (Hfr ax). rewrite Hd in Hfr.
    inversion Hfr as [? d' (Ha&_)|]; subst. exists d'. cbn. split_and!; done.
Qed.

(** *** A write or a stream of the group that completes *)

Lemma last_codes_Forall2 bits bs (s : HW * locals num) :
  Forall2 (fun mb b => last mb = Some b) bits bs ->
  last_codes bits s = (s, Ok bs).
Proof.
  induction 1 as [|mb b rest bs' Hb _ IH]; cbn; [done|].
  unfold try_bind, last_code, try_ret. rewrite Hb. cbn.
  unfold try_bind in IH. by rewrite IH.
Qed.

Lemma GalvoDrivers_go_to_finally_spec (l : locals num) axis gs out v :
  actual_V l = Some v ->
  (forall ax, ax ∈ axis ->
     supported_axis ax = true /\
     exists d x, gs !! ax = Some d /\ v !! GalvoDriver_dac_name d = Some x) ->
  exists out',
    GalvoDrivers_go_to_finally l axis gs out = Ok out' /\
    forall k,
      out' !! k =
        if decide (k ∈ axis)
        then gs !! k ≫= fun d => voltage_to_pos k <$> v !! GalvoDriver_dac_name d
        else out !! k.
Proof.
  intros HV. revert out. induction axis as [|ax rest IH]; intros out Hall; cbn.
  - exists out. split; [done|]. intros k. rewrite decide_False; [done|].
    by intros ?%elem_of_nil.
  - rewrite HV. cbn.
    destruct (Hall ax) as (Hsup & d & x & Hd & Hx); [apply elem_of_cons; by left|].
    unfold getitem, register. rewrite Hd, Hx, (Point_of_voltage_supported _ _ Hsup). cbn.
    destruct (IH (<[ax := voltage_to_pos ax x]> out)) as (out' & Hf & Hl).
    { intros ax' Hin. apply Hall, elem_of_cons. by right. }
    exists out'. split; [done|]. intros k. rewrite Hl.
    destruct (decide (ax = k)) as [<-|Hne].
    + rewrite lookup_insert_eq, Hd. cbn. rewrite Hx. cbn.
      destruct (decide (ax ∈ ax :: rest)) as [_|Hn]; [|by destruct Hn; left].
      by destruct (decide (ax ∈ rest)).
    + rewrite lookup_insert_ne by done. apply decide_ext.
      rewrite elem_of_cons. intuition congruence.
Qed.

(** The value of the group's [go_to] once the stored drivers have moved
    and the [try] block has completed with a readback that holds every
    register. *)
Lemma GalvoDrivers_go_to_completed
    speed (new_pos : gmap string num) g w lj op gs1 w0 nap move w1 t v :
  GalvoDrivers_open_labjack g = Some lj ->
  GalvoDrivers_pos g = Ok op ->
  GalvoDrivers_go_to_children speed new_pos (GalvoDrivers_axis g)
    (GalvoDrivers__galvos g) w ∅ = ((gs1, w0), Ok nap) ->
  MoveMultiDim_init (GalvoDrivers_axis g) op nap speed = Returns move ->
  GalvoDrivers_go_to_try lj move speed (w0, no_locals)
    = ((w1, mkLocals (Some t) (Some v)), Ok tt) ->
  (forall ax, ax ∈ GalvoDrivers_axis g ->
     supported_axis ax = true /\
     exists d x, GalvoDrivers__galvos g !! ax = Some d /\
                 v !! GalvoDriver_dac_name d = Some x) ->
  exists out,
    GalvoDrivers_go_to speed new_pos g w = ((with_galvos gs1 g, w1), Ok (out, t)) /\
    forall k, k ∈ GalvoDrivers_axis g ->
      exists d d' p x,
        GalvoDrivers__galvos g !! k = Some d /\ new_pos !! k = Some p /\
        gs1 !! k = Some d' /\
        GalvoDriver_pos d' = nadd p (GalvoDriver_origin d) /\
        v !! GalvoDriver_dac_name d = Some x /\
        out !! k = Some (voltage_to_pos k x).
Proof.
  intros Hlj Hpos Hch Hm Htry Hregs.
  pose proof (GalvoDrivers_go_to_children_kept _ _ _ _ _ _ _ _ _ Hch) as Hkept.
  pose proof (GalvoDrivers_go_to_children_Ok _ _ _ _ _ _ _ _ _ Hch) as [_ Hmoved].
  destruct (GalvoDrivers_go_to_finally_spec (mkLocals (Some t) (Some v))
              (GalvoDrivers_axis g) gs1 ∅ v eq_refl) as (out & Hfin & Hout).
  { intros ax Hin. destruct (Hregs ax Hin) as (Hsup & d & x & Hd & Hx).
    split; [done|].
    destruct (children_kept_lookup _ _ _ _ Hkept Hd) as (d' & Hd' & _ & Hdn & _).
    exists d', x. by rewrite Hdn. }
  exists out. split.
  - unfold GalvoDrivers_go_to. rewrite Hpos, Hch, Hm. cbn. rewrite Hlj, Htry, Hfin.
    reflexivity.
  - intros k Hk. destruct (Hmoved k Hk) as (d & d' & p & Hd & Hp & Hd' & Hpp & _).
    destruct (Hregs k Hk) as (_ & d0 & x & Hd0 & Hx). simplify_eq.
    exists d, d', p, x. split_and!; try done.
    rewrite Hout, decide_True, Hd' by done. cbn.
    destruct (children_kept_lookup _ _ _ _ Hkept Hd) as (d2 & Hd2 & _ & Hdn & _).
    simplify_eq. by rewrite Hdn, Hx.
Qed.

(** X22: a zero speed or a zero duration makes the group write once: one
    [updater.update] with the last code of every axis, in the planner's
    order, and no stream.  The stored drivers stand at the commanded
    targets; the positions returned are those of the voltages the write
    read back, register by register, and the duration is 0. *)
Theorem GalvoDrivers_go_to_immediate_write
    speed (new_pos : gmap string num) g w lj op gs1 w0 nap move bs w1 v :
  GalvoDrivers_open_labjack g = Some lj ->
  GalvoDrivers_pos g = Ok op ->
  GalvoDrivers_go_to_children speed new_pos (GalvoDrivers_axis g)
    (GalvoDrivers__galvos g) w ∅ = ((gs1, w0), Ok nap) ->
  MoveMultiDim_init (GalvoDrivers_axis g) op nap speed = Returns move ->
  nis_zero speed || nis_zero (MoveMultiDim_t move) = true ->
  Forall2 (fun mb b => last mb = Some b) (map snd (MoveMultiDim_bits move)) bs ->
  updater_update lj (Codes bs) w0 = (w1, Returns v) ->
  (forall ax, ax ∈ GalvoDrivers_axis g ->
     supported_axis ax = true /\
     exists d x, GalvoDrivers__galvos g !! ax = Some d /\
                 v !! GalvoDriver_dac_name d = Some x) ->
  exists out,
    GalvoDrivers_go_to speed new_pos g w = ((with_galvos gs1 g, w1), Ok (out, nzero)) /\
    forall k, k ∈ GalvoDrivers_axis g ->
      exists d d' p x,
        GalvoDrivers__galvos g !! k = Some d /\ new_pos !! k = Some p /\
        gs1 !! k = Some d' /\
        GalvoDriver_pos d' = nadd p (GalvoDriver_origin d) /\
        v !! GalvoDriver_dac_name d = Some x /\
        out !! k = Some (voltage_to_pos k x).
Proof.
  intros Hlj Hpos Hch Hm Hbr Hlast Hup Hregs.
  eapply GalvoDrivers_go_to_completed; try done.
  unfold GalvoDrivers_go_to_try. rewrite Hbr. unfold try_bind.
  rewrite (last_codes_Forall2 _ _ _ Hlast).
  unfold call, set_actual_t, set_actual_V, no_locals. cbn. rewrite Hup. reflexivity.
Qed.

(** X23: otherwise the group streams: the codes of all axes are loaded
    in one [load_data] and run by one [start_stream].  When the stream
    and the read after it complete, the stored drivers stand at the
    commanded targets, the positions returned are those of the voltages
    read back and the duration is the one the streamer reports. *)
Theorem GalvoDrivers_go_to_stream_completes
    speed (new_pos : gmap string num) g w lj op gs1 w0 nap move wa wb wc wd t v :
  GalvoDrivers_open_labjack g = Some lj ->
  GalvoDrivers_pos g = Ok op ->
  GalvoDrivers_go_to_children speed new_pos (GalvoDrivers_axis g)
    (GalvoDrivers__galvos g) w ∅ = ((gs1, w0), Ok nap) ->
  MoveMultiDim_init (GalvoDrivers_axis g) op nap speed = Returns move ->
  nis_zero speed || nis_zero (MoveMultiDim_t move) = false ->
  streamer_stream_setup lj w0 = (wa, Returns tt) ->
  streamer_load_data lj (Axes (map snd (MoveMultiDim_bits move))) wa = (wb, Returns tt) ->
  streamer_start_stream lj (MoveMultiDim_t move) wb = (wc, Returns t) ->
  updater_read lj wc = (wd, Returns v) ->
  (forall ax, ax ∈ GalvoDrivers_axis g ->
     supported_axis ax = true /\
     exists d x, GalvoDrivers__galvos g !! ax = Some d /\
                 v !! GalvoDriver_dac_name d = Some x) ->
  exists out,
    GalvoDrivers_go_to speed new_pos g w = ((with_galvos gs1 g, wd), Ok (out, t)) /\
    forall k, k ∈ GalvoDrivers_axis g ->
      exists d d' p x,
        GalvoDrivers__galvos g !! k = Some d /\ new_pos !! k = Some p /\
        gs1 !! k = Some d' /\
        GalvoDriver_pos d' = nadd p (GalvoDriver_origin d) /\
        v !! GalvoDriver_dac_name d = Some x /\
        out !! k = Some (voltage_to_pos k x).
Proof.
  intros Hlj Hpos Hch Hm Hbr Hs Hl Hst Hrd Hregs.
  eapply GalvoDrivers_go_to_completed; try done.
  unfold GalvoDrivers_go_to_try. rewrite Hbr.
  unfold try_bind, call, set_actual_t, set_actual_V, no_locals.
  rewrite Hs. cbn. rewrite Hl. cbn. rewrite Hst. cbn. rewrite Hrd. reflexivity.
Qed.

(** *** reset_pos *)

(** The dict [rst_pos] has a 0 for every declared axis and nothing
    else. *)
Lemma rst_pos_lookup axis k :
  rst_pos axis !! k = if decide (k ∈ axis) then Some nzero else None.
Proof. unfold rst_pos. by rewrite foldl_insert_lookup, lookup_empty. Qed.

(** X19: [reset_pos()] on a group without a LabJack, whose stored
    drivers have none either.  When the planner accepts, for every
    declared axis, the move from where it stands to its origin (and,
    for an axis declared twice, the move from the origin to itself) and
    accepts the joint move from the positions to the origins,
    [reset_pos()] returns normally and leaves every declared axis on
    its origin (at 0 counted from it); the origins stay and the device
    is not touched. *)
Theorem GalvoDrivers_reset_pos_origins g w op og move :
  GalvoDrivers_open_labjack g = None ->
  GalvoDrivers_wf g ->
  (forall ax d, GalvoDrivers__galvos g !! ax = Some d -> GalvoDriver_open_labjack d = None) ->
  GalvoDrivers_pos g = Ok op ->
  GalvoDrivers_origin g = Ok og ->
  (forall ax d, ax ∈ GalvoDrivers_axis g -> GalvoDrivers__galvos g !! ax = Some d ->
     (exists m, Move_init ax (GalvoDriver_pos d)
                  (nadd nzero (GalvoDriver_origin d)) nzero = Returns m) /\
     (exists m, Move_init ax (nadd nzero (GalvoDriver_origin d))
                  (nadd nzero (GalvoDriver_origin d)) nzero = Returns m)) ->
  MoveMultiDim_init (GalvoDrivers_axis g) op (nadd nzero <$> og) nzero = Returns move ->
  exists g',
    GalvoDrivers_reset_pos g w = ((g', w), Ok tt) /\
    forall k, k ∈ GalvoDrivers_axis g ->
      exists d d',
        GalvoDrivers__galvos g !! k = Some d /\
        GalvoDrivers__galvos g' !! k = Some d' /\
        GalvoDriver_pos d' = nadd nzero (GalvoDriver_origin d) /\
        GalvoDriver__origin d' = GalvoDriver__origin d.
Proof.
  intros Hlj Hwf Hoff Hpos Hog Hmove Hmulti. unfold GalvoDrivers_reset_pos.
  assert (Hclash : unpack_clash (rst_pos (GalvoDrivers_axis g)) = None).
  { unfold unpack_clash. rewrite !rst_pos_lookup.
    assert (Hno : forall k, supported_axis k = false ->
              ~ is_Some (if decide (k ∈ GalvoDrivers_axis g) then Some nzero else None)).
    { intros k Hk. case_decide as Hin; [|by intros [? ?]].
      destruct (Hwf _ Hin) as (_ & _ & _ & Hsup). congruence. }
    rewrite !decide_False; [done|by apply Hno..]. }
  rewrite Hclash.
  destruct (GalvoDrivers_go_to_children_offline nzero (rst_pos (GalvoDrivers_axis g))
              (GalvoDrivers_axis g) (GalvoDrivers__galvos g) w ∅) as (gs1 & nap & Hch & Hnap).
  { intros ax Hin. destruct (Hwf ax Hin) as (d & Hd & Hda & Hsup).
    exists d, nzero. rewrite rst_pos_lookup, decide_True, Hda by done.
    destruct (Hmove ax d Hin Hd) as [? ?]. split_and!; try done. by eapply Hoff. }
  assert (nap = nadd nzero <$> og) as ->.
  { destruct (for_each_axis_total GalvoDriver_origin (GalvoDrivers_axis g)
                (GalvoDrivers__galvos g) ∅) as (m & Hm & Hl).
    { intros ax Hin. destruct (Hwf ax Hin) as (d & -> & _). done. }
    unfold GalvoDrivers_origin in Hog. rewrite Hm in Hog. simplify_eq.
    apply map_eq. intros k. rewrite Hnap, lookup_fmap, Hl, rst_pos_lookup.
    case_decide as Hin; [|by rewrite !lookup_empty].
    destruct (Hwf k Hin) as (d & -> & _). done. }
  pose proof (GalvoDrivers_go_to_children_Ok _ _ _ _ _ _ _ _ _ Hch) as [_ Hin].
  destruct (GalvoDrivers_go_to_offline_ok (rst_pos (GalvoDrivers_axis g))
              (GalvoDrivers_axis g) ∅) as [out Hoffl].
  { intros ax Hi. rewrite rst_pos_lookup, decide_True by done.
    split; [done|]. by destruct (Hwf ax Hi) as (? & _ & _ & ?). }
  exists (with_galvos gs1 g). split.
  - unfold GalvoDrivers_go_to. rewrite Hpos, Hch, Hmulti. cbn. by rewrite Hlj, Hoffl.
  - intros k Hk. destruct (Hin k Hk) as (d & d' & p & Hd & Hp & Hd' & Hpp & Hor).
    rewrite rst_pos_lookup, decide_True in Hp by done. simplify_eq.
    exists d, d'. done.
Qed.

(** *** Validation and construction *)

(** The constructor's loop stores a driver for every declared axis when
    each axis is supported and the planner accepts the move of its
    constructor. *)
Lemma GalvoDrivers_init_galvos_offline axis (dac : gmap string string)
    (pos : gmap string num) gs0 w :
  (forall ax, ax ∈ axis ->
     supported_axis ax = true /\
     exists dn p, dac !! ax = Some dn /\ pos !! ax = Some p /\
       exists m, Move_init ax p (nadd p p) nzero = Returns m) ->
  exists gs, GalvoDrivers_init_galvos axis dac pos gs0 w = (w, Ok gs).
Proof.
  revert gs0. induction axis as [|ax rest IH]; intros gs0 Hall; cbn; [eauto|].
  destruct (Hall ax) as (Hsup & dn & p & Hdn & Hp & m & Hm); [apply elem_of_cons; by left|].
  unfold getitem. rewrite Hdn, Hp, (GalvoDriver_init_offline ax dn p w m Hsup Hm).
  apply IH. intros ax' Hin. apply Hall, elem_of_cons. by right.
Qed.

(** C7: a mapping that omits a declared axis makes the constructor fail
    in its validation loop, with the KeyError that names a missing
    axis, before a stored driver exists or the device is touched.  With
    both mappings complete the constructor succeeds when moreover every
    declared axis is "x" or "z", [pos_init] has no entry called "speed"
    or "self", the planner accepts the moves the constructor makes (for
    every declared axis the move of the stored driver's constructor
    from [p] to [p + p] and the move of the closing [go_to], which
    starts and ends at [p + p]; then the joint move) and, on a LabJack,
    the [try] block of the closing [go_to] completes with a readback
    that holds the register of every declared axis. *)
Theorem GalvoDrivers_init_validation axis (dac : gmap string string)
    (pos : gmap string num) (lj : option (LabJack num HW)) w :
  ((exists ax, ax ∈ axis /\ (dac !! ax = None \/ pos !! ax = None)) ->
   exists ax, ax ∈ axis /\
     ((dac !! ax = None /\
       GalvoDrivers_init axis dac pos lj w = (w, Raise (missing_dac_name ax))) \/
      (pos !! ax = None /\
       GalvoDrivers_init axis dac pos lj w = (w, Raise (missing_pos_init ax))))) /\
  (forall m move w1,
   (forall ax, ax ∈ axis -> is_Some (dac !! ax) /\ is_Some (pos !! ax)) ->
   (forall ax, ax ∈ axis -> ax = "x" \/ ax = "z") ->
   pos !! "speed" = None ->
   pos !! "self" = None ->
   (forall ax p, ax ∈ axis -> pos !! ax = Some p ->
      (exists mv, Move_init ax p (nadd p p) nzero = Returns mv) /\
      (exists mv, Move_init ax (nadd p p) (nadd p p) nzero = Returns mv)) ->
   (forall k, m !! k = if decide (k ∈ axis) then (fun p => nadd p p) <$> pos !! k else None) ->
   MoveMultiDim_init axis m m nzero = Returns move ->
   match lj with
   | None => w1 = w
   | Some l =>
       exists t v,
         GalvoDrivers_go_to_try l move nzero (w, no_locals)
           = ((w1, mkLocals (Some t) (Some v)), Ok tt) /\
         forall ax dn, ax ∈ axis -> dac !! ax = Some dn -> is_Some (v !! dn)
   end ->
   exists g, GalvoDrivers_init axis dac pos lj w = (w1, Ok g) /\
             GalvoDrivers_axis g = axis /\ GalvoDrivers_wf g).
Proof.
  split.
  - intros Hmiss. apply GalvoDrivers_init_check_Raise in Hmiss as (ax & Hin & Hax).
    exists ax. split; [done|]. unfold GalvoDrivers_init.
    destruct Hax as [[? ->]|[? ->]]; auto.
  - intros m move w1 Hall Hsup Hspeed Hself Hplan Hm Hmulti Hdev.
    assert (Hinit : exists g, GalvoDrivers_init axis dac pos lj w = (w1, Ok g)).
    { unfold GalvoDrivers_init. rewrite (GalvoDrivers_init_check_Ok _ _ _ Hall).
      destruct (GalvoDrivers_init_galvos_offline axis dac pos ∅ w) as [gs Hgs].
      { intros ax Hin. destruct (Hall ax Hin) as [[dn Hdn] [p Hp]].
        split; [by apply supported_axis_spec, Hsup|].
        exists dn, p. split_and!; try done. by destruct (Hplan ax p Hin Hp). }
      rewrite Hgs.
      pose proof (GalvoDrivers_init_galvos_origin _ _ _ _ _ _ _ Hgs) as Hor.
      apply GalvoDrivers_init_galvos_Ok in Hgs as (_ & _ & Hpres & Hsrc).
      assert (Hgs : forall ax, ax ∈ axis ->
                exists d p dn,
                  gs !! ax = Some d /\ pos !! ax = Some p /\ dac !! ax = Some dn /\
                  GalvoDriver_axis d = ax /\ supported_axis ax = true /\
                  GalvoDriver_open_labjack d = None /\ GalvoDriver_dac_name d = dn /\
                  GalvoDriver_origin d = p /\ GalvoDriver_pos d = nadd p p).
      { intros ax Hin. destruct (Hpres ax Hin) as [d Hd].
        destruct (Hsrc ax d Hd) as [Hd0|(_ & ? & ? & ? & Hdn)];
          [by rewrite lookup_empty in Hd0|].
        destruct (Hor ax d Hd) as [Hd0|(p & ? & ? & ?)];
          [by rewrite lookup_empty in Hd0|].
        exists d, p, (GalvoDriver_dac_name d). done. }
      unfold unpack_clash. rewrite Hspeed, Hself.
      rewrite !decide_False by (by intros [? ?]).
      set (g := mkGalvoDrivers axis dac lj gs).
      destruct (for_each_axis_total GalvoDriver_pos axis gs ∅) as (op & Hpos & Hop).
      { intros ax Hin. by apply Hpres. }
      destruct (GalvoDrivers_go_to_children_offline nzero pos axis gs w ∅)
        as (gs1 & nap & Hch & Hnap).
      { intros ax Hin.
        destruct (Hgs ax Hin) as (d & p & dn & Hd & Hp & _ & Hda & Hs & Hlj & _ & Ho & Hpd).
        exists d, p. rewrite Hda, Ho, Hpd.
        destruct (Hplan ax p Hin Hp) as [_ ?]. split_and!; done. }
      assert (op = m) as ->.
      { apply map_eq. intros k. rewrite Hop, Hm, lookup_empty.
        case_decide as Hin; [|done].
        destruct (Hgs k Hin) as (d & p & _ & -> & -> & _ & _ & _ & _ & _ & _ & Hpd).
        cbn. by rewrite Hpd. }
      assert (nap = m) as ->.
      { apply map_eq. intros k. rewrite Hnap, Hm, lookup_empty.
        case_decide as Hin; [|done].
        destruct (Hgs k Hin) as (d & p & _ & -> & -> & _ & _ & _ & _ & _ & Ho & _).
        cbn. by rewrite Ho. }
      destruct lj as [l|].
      - destruct Hdev as (t & v & Htry & Hregs).
        destruct (GalvoDrivers_go_to_completed nzero pos g w l m gs1 w m move w1 t v)
          as (out & -> & _); try done.
        + intros ax Hin.
          destruct (Hgs ax Hin) as (d & p & dn & Hd & _ & Hdn & _ & Hs & _ & Hdd & _).
          split; [done|]. destruct (Hregs ax dn Hin Hdn) as [x Hx].
          exists d, x. cbn. by rewrite Hdd.
        + eauto.
      - subst w1.
        destruct (GalvoDrivers_go_to_offline_ok pos axis ∅) as [out Hoffl].
        { intros ax Hin. destruct (Hall ax Hin) as [_ ?].
          split; [done|]. by apply supported_axis_spec, Hsup. }
        unfold GalvoDrivers_go_to. unfold GalvoDrivers_pos.
        cbn -[GalvoDrivers_go_to_children]. rewrite Hpos, Hch, Hmulti. cbn.
        rewrite Hoffl. eauto. }
    destruct Hinit as [g Hg]. exists g. split; [done|].
    split; [by apply GalvoDrivers_init_Ok in Hg as [? _]|].
    by eapply GalvoDrivers_init_wf.
Qed.

End GalvoDrivers_more.

(** * The further properties at concrete inputs *)

(** [feed W] asks for the hypotheses of [W] one by one and closes the
    goal with what is left. *)
Ltac feed W :=
  lazymatch type of W with
  | ?A -> _ =>
      lazymatch type of A with
      | Prop =>
          let Ha := fresh "Ha" in
          assert (Ha : A); [ | specialize (W Ha); clear Ha; feed W ]
      | _ => exact W
      end
  | _ => exact W
  end.

Lemma demo_offline_driver_reachable : GalvoDriver_reachable demo_offline_driver.
Proof.
  apply (reach_go_to 100%Z 0%Z
           (mkGalvoDriver "x" "DAC0" None (mkPoint "x" 0%Z 32768%Z)
              [mkPoint "x" 0%Z 32768%Z; mkPoint "x" 0%Z 32768%Z]
              (mkPoint "x" 0%Z 32768%Z) None)
           tt demo_offline_driver tt (Ok (100%Z, 0%Z))).
  - apply (reach_init "x" "DAC0" 0%Z None tt tt). vm_compute. reflexivity.
  - vm_compute. reflexivity.
Qed.

Lemma GalvoDriver_go_to_stream_completes_witness :
  exists d',
    GalvoDriver_go_to 150%Z 10%Z demo_online_driver demo_readback
      = ((d', demo_readback), Ok (voltage_to_pos "x" 33168%Z, 5%Z)) /\
    GalvoDriver_pos d' = (150 + GalvoDriver_origin demo_online_driver)%Z /\
    GalvoDriver__point_history d'
      = GalvoDriver__point_history demo_online_driver ++ [GalvoDriver__point demo_online_driver].
Proof.
  pose proof (GalvoDriver_go_to_stream_completes 150%Z 10%Z demo_online_driver
                demo_readback obedient_labjack (mkMove 5%Z [33768%Z; 34268%Z])
                demo_readback demo_readback demo_readback demo_readback 5%Z demo_readback
                33168%Z) as W.
  feed W; reflexivity.
Defined.

Lemma GalvoDriver_go_to_immediate_write_witness :
  exists d',
    GalvoDriver_go_to 150%Z 0%Z demo_online_driver demo_readback
      = ((d', demo_readback), Ok (voltage_to_pos "x" 33168%Z, 0%Z)) /\
    GalvoDriver_pos d' = (150 + GalvoDriver_origin demo_online_driver)%Z /\
    GalvoDriver__point_history d'
      = GalvoDriver__point_history demo_online_driver ++ [GalvoDriver__point demo_online_driver].
Proof.
  pose proof (GalvoDriver_go_to_immediate_write 150%Z 0%Z demo_online_driver
                demo_readback obedient_labjack (mkMove 0%Z [34268%Z]) 34268%Z demo_readback
                demo_readback 33168%Z) as W.
  feed W; reflexivity.
Defined.

Lemma GalvoDriver_go_to_failure_masked_witness :
  GalvoDriver_go_to 150%Z 0%Z (demo_driver_on unreadable_labjack) demo_readback
    = ((demo_driver_on unreadable_labjack, demo_readback),
       Raise (UnboundLocalError "actual_V")).
Proof.
  pose proof (GalvoDriver_go_to_failure_masked 150%Z 0%Z
                (demo_driver_on unreadable_labjack) demo_readback unreadable_labjack
                (mkMove 0%Z [34268%Z]) demo_readback (mkLocals (Some 0%Z) None)
                (Foreign "LJMError")) as W.
  feed W; first [reflexivity | discriminate].
Defined.

Lemma GalvoDriver_go_to_unreadable_after_interrupt_witness :
  GalvoDriver_go_to 150%Z 10%Z (demo_driver_on unreadable_labjack) demo_readback
    = ((demo_driver_on unreadable_labjack, demo_readback),
       Raise (UnboundLocalError "actual_V")).
Proof.
  pose proof (GalvoDriver_go_to_unreadable_after_interrupt 150%Z 10%Z
                (demo_driver_on unreadable_labjack) demo_readback unreadable_labjack
                (mkMove 5%Z [33768%Z; 34268%Z]) demo_readback no_locals EmptyString
                demo_readback (Fails "LJMError")) as W.
  feed W; first [reflexivity | discriminate].
Defined.

Lemma GalvoDriver_go_to_no_register_after_interrupt_witness :
  GalvoDriver_go_to 150%Z 10%Z demo_driver {[ "DAC1" := 32768%Z ]}
    = ((demo_driver, {[ "DAC1" := 32768%Z ]}), Raise (KeyError "DAC0")).
Proof.
  pose proof (GalvoDriver_go_to_no_register_after_interrupt 150%Z 10%Z demo_driver
                {[ "DAC1" := 32768%Z ]} interrupted_labjack (mkMove 5%Z [33768%Z; 34268%Z])
                {[ "DAC1" := 32768%Z ]} no_locals EmptyString {[ "DAC1" := 32768%Z ]}
                {[ "DAC1" := 32768%Z ]}) as W.
  feed W; reflexivity.
Defined.

Lemma GalvoDriver_go_to_raise_state_witness :
  (GalvoDriver_go_to 150%Z 10%Z demo_driver demo_readback
     = ((GalvoDriver_set__point (mkPoint "x" 40%Z 33168%Z) demo_driver, demo_readback),
        Raise stopped_by_user) /\
   (((GalvoDriver_set__point (mkPoint "x" 40%Z 33168%Z) demo_driver) = demo_driver \/
     (exists lj move w1 l1 msg v x,
        GalvoDriver_open_labjack demo_driver = Some lj /\
        Move_init (GalvoDriver_axis demo_driver) (GalvoDriver_pos demo_driver)
          (nadd 150%Z (GalvoDriver_origin demo_driver)) 10%Z = Returns move /\
        GalvoDriver_go_to_try lj move 10%Z (demo_readback, no_locals)
          = ((w1, l1), Raise (KeyboardInterrupt msg)) /\
        updater_read lj w1 = (demo_readback, Returns v) /\
        v !! GalvoDriver_dac_name demo_driver = Some x /\
        stopped_by_user = stopped_by_user /\
        (GalvoDriver_set__point (mkPoint "x" 40%Z 33168%Z) demo_driver) = GalvoDriver_set__point
               (mkPoint (GalvoDriver_axis demo_driver) (voltage_to_pos (GalvoDriver_axis demo_driver) x) x)
               demo_driver) \/
     (exists lj move t v,
        GalvoDriver_open_labjack demo_driver = Some lj /\
        Move_init (GalvoDriver_axis demo_driver) (GalvoDriver_pos demo_driver)
          (nadd 150%Z (GalvoDriver_origin demo_driver)) 10%Z = Returns move /\
        GalvoDriver_go_to_try lj move 10%Z (demo_readback, no_locals)
          = ((demo_readback, mkLocals (Some t) (Some v)), Ok tt) /\
        v !! GalvoDriver_dac_name demo_driver = None /\
        stopped_by_user = KeyError (GalvoDriver_dac_name demo_driver) /\
        (GalvoDriver_set__point (mkPoint "x" 40%Z 33168%Z) demo_driver) = GalvoDriver_set__point
               (mkPoint (GalvoDriver_axis demo_driver) (nadd 150%Z (GalvoDriver_origin demo_driver))
                  (pos_to_voltage (GalvoDriver_axis demo_driver)
                     (nadd 150%Z (GalvoDriver_origin demo_driver))))
               demo_driver)) /\
    (GalvoDriver_open_labjack demo_driver = None -> (GalvoDriver_set__point (mkPoint "x" 40%Z 33168%Z) demo_driver) = demo_driver /\ demo_readback = demo_readback))) /\
  (GalvoDriver_go_to (H1 := cautious_planner) 150%Z (-1)%Z demo_offline_driver tt
     = ((demo_offline_driver, tt), Raise (Foreign "ValueError")) /\
   (((demo_offline_driver) = demo_offline_driver \/
     (exists lj move w1 l1 msg v x,
        GalvoDriver_open_labjack demo_offline_driver = Some lj /\
        Move_init (Planner := cautious_planner) (GalvoDriver_axis demo_offline_driver) (GalvoDriver_pos demo_offline_driver)
          (nadd 150%Z (GalvoDriver_origin demo_offline_driver)) (-1)%Z = Returns move /\
        GalvoDriver_go_to_try lj move (-1)%Z (tt, no_locals)
          = ((w1, l1), Raise (KeyboardInterrupt msg)) /\
        updater_read lj w1 = (tt, Returns v) /\
        v !! GalvoDriver_dac_name demo_offline_driver = Some x /\
        Foreign "ValueError" = stopped_by_user /\
        (demo_offline_driver) = GalvoDriver_set__point
               (mkPoint (GalvoDriver_axis demo_offline_driver) (voltage_to_pos (GalvoDriver_axis demo_offline_driver) x) x)
               demo_offline_driver) \/
     (exists lj move t v,
        GalvoDriver_open_labjack demo_offline_driver = Some lj /\
        Move_init (Planner := cautious_planner) (GalvoDriver_axis demo_offline_driver) (GalvoDriver_pos demo_offline_driver)
          (nadd 150%Z (GalvoDriver_origin demo_offline_driver)) (-1)%Z = Returns move /\
        GalvoDriver_go_to_try lj move (-1)%Z (tt, no_locals)
          = ((tt, mkLocals (Some t) (Some v)), Ok tt) /\
        v !! GalvoDriver_dac_name demo_offline_driver = None /\
        Foreign "ValueError" = KeyError (GalvoDriver_dac_name demo_offline_driver) /\
        (demo_offline_driver) = GalvoDriver_set__point
               (mkPoint (GalvoDriver_axis demo_offline_driver) (nadd 150%Z (GalvoDriver_origin demo_offline_driver))
                  (pos_to_voltage (GalvoDriver_axis demo_offline_driver)
                     (nadd 150%Z (GalvoDriver_origin demo_offline_driver))))
               demo_offline_driver)) /\
    (GalvoDriver_open_labjack demo_offline_driver = None -> (demo_offline_driver) = demo_offline_driver /\ tt = tt))).
Proof.
  split.
  - split; [vm_compute; reflexivity|].
    pose proof (GalvoDriver_go_to_raise_state 150%Z 10%Z demo_driver demo_readback
                  (GalvoDriver_set__point (mkPoint "x" 40%Z 33168%Z) demo_driver)
                  demo_readback stopped_by_user) as W.
    feed W. vm_compute. reflexivity.
  - split; [vm_compute; reflexivity|].
    pose proof (GalvoDriver_go_to_raise_state (H1 := cautious_planner) 150%Z (-1)%Z
                  demo_offline_driver tt demo_offline_driver tt (Foreign "ValueError")) as W.
    feed W. vm_compute. reflexivity.
Defined.

Lemma GalvoDriver_reset_pos_origin_witness :
  GalvoDriver_pos (GalvoDriver_set__point (mkPoint "x" 0%Z 32768%Z) demo_offline_driver) = GalvoDriver_origin demo_offline_driver /\
  GalvoDriver_origin (GalvoDriver_set__point (mkPoint "x" 0%Z 32768%Z) demo_offline_driver) = GalvoDriver_origin demo_offline_driver /\
  GalvoDriver_rel_pos (GalvoDriver_set__point (mkPoint "x" 0%Z 32768%Z) demo_offline_driver) = Ok 0%Z /\
  GalvoDriver__point_history (GalvoDriver_set__point (mkPoint "x" 0%Z 32768%Z) demo_offline_driver)
    = GalvoDriver__point_history demo_offline_driver ++ [GalvoDriver__point demo_offline_driver].
Proof.
  pose proof (GalvoDriver_reset_pos_origin demo_offline_driver tt
                (GalvoDriver_set__point (mkPoint "x" 0%Z 32768%Z) demo_offline_driver) tt) as W.
  feed W; reflexivity.
Defined.

Lemma GalvoDriver_set_origin_value_witness :
  (exists d',
     GalvoDriver_set_origin (Some 70%Z) demo_offline_driver = Ok d' /\
     GalvoDriver_origin d' = 70%Z /\
     GalvoDriver__point d' = GalvoDriver__point demo_offline_driver /\
     GalvoDriver__point_history d' = GalvoDriver__point_history demo_offline_driver /\
     GalvoDriver_rel_pos d' = Ok (GalvoDriver_pos demo_offline_driver - 70)%Z) /\
  (exists d',
     GalvoDriver_reset_origin demo_offline_driver = Ok d' /\
     GalvoDriver_origin d' = 0%Z /\
     GalvoDriver_pos d' = GalvoDriver_pos demo_offline_driver /\
     GalvoDriver_rel_pos d' = Ok (GalvoDriver_pos demo_offline_driver - 0)%Z).
Proof.
  pose proof (GalvoDriver_set_origin_value demo_offline_driver 70%Z) as W.
  feed W. exact demo_offline_driver_reachable.
Defined.

Lemma GalvoDriver_go_to_rel_pos_witness :
  GalvoDriver_rel_pos (GalvoDriver_set__point (mkPoint "x" 150%Z 34268%Z) demo_offline_driver) = Ok 150%Z /\
  GalvoDriver_pos (GalvoDriver_set__point (mkPoint "x" 150%Z 34268%Z) demo_offline_driver) = (150 + GalvoDriver_origin demo_offline_driver)%Z.
Proof.
  pose proof (GalvoDriver_go_to_rel_pos 150%Z 0%Z demo_offline_driver tt
                (GalvoDriver_set__point (mkPoint "x" 150%Z 34268%Z) demo_offline_driver)
                tt (150%Z, 0%Z)) as W.
  feed W; reflexivity.
Defined.

Lemma GalvoDriver_revert_pos_reachable_witness :
  exists p d',
    last (GalvoDriver__point_history demo_offline_driver) = Some p /\
    GalvoDriver__revert_pos demo_offline_driver = Ok d' /\
    GalvoDriver__point d' = p /\
    GalvoDriver__point_history d'
      = GalvoDriver__point_history demo_offline_driver
          ++ [GalvoDriver__point demo_offline_driver; GalvoDriver__point demo_offline_driver] /\
    GalvoDriver__origin d' = GalvoDriver__origin demo_offline_driver.
Proof.
  pose proof (GalvoDriver_revert_pos_reachable demo_offline_driver) as W.
  feed W. exact demo_offline_driver_reachable.
Defined.

Lemma GalvoDriver_go_to_revert_pos_witness :
  exists d2,
    GalvoDriver__revert_pos (GalvoDriver_set__point (mkPoint "x" 150%Z 34268%Z) demo_offline_driver) = Ok d2 /\
    GalvoDriver__point d2 = GalvoDriver__point demo_offline_driver /\
    GalvoDriver_pos d2 = GalvoDriver_pos demo_offline_driver /\
    GalvoDriver__point_history d2
      = GalvoDriver__point_history demo_offline_driver
          ++ [GalvoDriver__point demo_offline_driver; mkPoint "x" 150%Z 34268%Z;
              mkPoint "x" 150%Z 34268%Z].
Proof.
  pose proof (GalvoDriver_go_to_revert_pos 150%Z 0%Z demo_offline_driver tt
                (GalvoDriver_set__point (mkPoint "x" 150%Z 34268%Z) demo_offline_driver)
                tt (150%Z, 0%Z)) as W.
  feed W; reflexivity.
Defined.

Lemma GalvoDriver_reachable_invariant_witness :
  (GalvoDriver_axis demo_offline_driver = "x" \/ GalvoDriver_axis demo_offline_driver = "z") /\
  2 <= length (GalvoDriver__point_history demo_offline_driver) /\
  Point_axis (GalvoDriver__point demo_offline_driver) = GalvoDriver_axis demo_offline_driver /\
  Point_axis (GalvoDriver__origin demo_offline_driver) = GalvoDriver_axis demo_offline_driver /\
  (forall p, p ∈ GalvoDriver__point_history demo_offline_driver ->
             Point_axis p = GalvoDriver_axis demo_offline_driver).
Proof.
  pose proof (GalvoDriver_reachable_invariant demo_offline_driver) as W.
  feed W. exact demo_offline_driver_reachable.
Defined.

(** The groups of the examples satisfy what the theorems ask of a
    group. *)
Ltac each_demo_axis ax Hin :=
  apply elem_of_cons in Hin as [->|Hin];
  [|apply list_elem_of_singleton in Hin as ->].

Lemma demo_wf (g : GalvoDrivers Z (gmap string Z)) :
  GalvoDrivers_axis g = ["x"; "z"] ->
  GalvoDrivers__galvos g = GalvoDrivers__galvos demo_group ->
  GalvoDrivers_wf g.
Proof.
  intros Hax Hgs ax Hin. rewrite Hax in Hin. rewrite Hgs.
  each_demo_axis ax Hin; eexists; split_and!; vm_compute; reflexivity.
Qed.

Lemma demo_children_offline ax (d : GalvoDriver Z (gmap string Z)) :
  GalvoDrivers__galvos demo_group !! ax = Some d -> GalvoDriver_open_labjack d = None.
Proof.
  unfold demo_group. cbn. intros Hd.
  apply lookup_insert_Some in Hd as [[_ <-]|[_ Hd]]; [reflexivity|].
  apply lookup_singleton_Some in Hd as [_ <-]. reflexivity.
Qed.

Lemma demo_Move_total speed ax pos np : exists move, Move_init ax pos np speed = Returns move.
Proof. cbn. unfold demo_Move. case_match; eauto. Qed.

Lemma demo_registers (ax : string) :
  ax ∈ ["x"; "z"] ->
  supported_axis ax = true /\
  exists (d : GalvoDriver Z (gmap string Z)) x,
    GalvoDrivers__galvos demo_group !! ax = Some d /\
    demo_readback !! GalvoDriver_dac_name d = Some x.
Proof.
  intros Hin. each_demo_axis ax Hin; (split; [reflexivity|]);
    eexists _, _; split; vm_compute; reflexivity.
Qed.

Lemma GalvoDrivers_go_to_offline_returns_arguments_witness :
  exists out,
    GalvoDrivers_go_to 10%Z demo_targets demo_offline_group demo_readback
      = ((with_galvos demo_moved demo_offline_group, demo_readback), Ok (out, 0%Z)) /\
    (forall k, k ∈ GalvoDrivers_axis demo_offline_group ->
       exists d d' p,
         GalvoDrivers__galvos demo_offline_group !! k = Some d /\
         demo_targets !! k = Some p /\
         demo_moved !! k = Some d' /\
         out !! k = Some p /\
         GalvoDriver_pos d' = (p + GalvoDriver_origin d)%Z) /\
    ((forall k d, GalvoDrivers__galvos demo_offline_group !! k = Some d ->
        GalvoDriver_open_labjack d = None) ->
     demo_readback = demo_readback).
Proof.
  pose proof (GalvoDrivers_go_to_offline_returns_arguments 10%Z demo_targets
                demo_offline_group demo_readback {[ "x" := 0%Z; "z" := 0%Z ]} demo_moved
                demo_readback demo_targets
                (mkMoveMultiDim 30%Z [("x", [32768%Z; 33768%Z]); ("z", [32768%Z; 35768%Z])]))
    as W.
  feed W.
  - reflexivity.
  - by apply demo_wf.
  - vm_compute. reflexivity.
  - vm_compute. reflexivity.
  - vm_compute. reflexivity.
Defined.

Lemma GalvoDrivers_go_to_positions_commanded_witness :
  ((forall k,
      GalvoDriver__point <$>
        GalvoDrivers__galvos
          (with_galvos
             {[ "x" := demo_child "x" "DAC0" 100%Z 4 (Some 33168%Z);
          "z" := demo_child "z" "DAC1" 300%Z 4 (Some 32768%Z) ]}
             demo_group) !! k
      = GalvoDriver__point <$> demo_moved !! k) /\
   (forall k, k ∈ GalvoDrivers_axis demo_group ->
      exists d d' p,
        GalvoDrivers__galvos demo_group !! k = Some d /\ demo_targets !! k = Some p /\
        GalvoDrivers__galvos
          (with_galvos
             {[ "x" := demo_child "x" "DAC0" 100%Z 4 (Some 33168%Z);
          "z" := demo_child "z" "DAC1" 300%Z 4 (Some 32768%Z) ]}
             demo_group) !! k = Some d' /\
        GalvoDriver_pos d' = (p + GalvoDriver_origin d)%Z)) /\
  ((forall k,
      GalvoDriver__point <$>
        GalvoDrivers__galvos
          (with_galvos
             {[ "x" := demo_child "x" "DAC0" 100%Z 4 None;
          "z" := demo_child "z" "DAC1" 0%Z 3 None ]}
             demo_group) !! k
      = GalvoDriver__point <$>
          ({[ "x" := demo_child "x" "DAC0" 100%Z 4 None;
          "z" := demo_child "z" "DAC1" 0%Z 3 None ]}
             : gmap string (GalvoDriver Z (gmap string Z))) !! k) /\
   (with_galvos
      {[ "x" := demo_child "x" "DAC0" 100%Z 4 None;
          "z" := demo_child "z" "DAC1" 0%Z 3 None ]}
      demo_group
    = with_galvos
        {[ "x" := demo_child "x" "DAC0" 100%Z 4 None;
          "z" := demo_child "z" "DAC1" 0%Z 3 None ]}
        demo_group /\
    demo_readback = demo_readback /\
    (Raise (KeyError "z") : result (gmap string Z * Z)) = Raise (KeyError "z"))).
Proof.
  split.
  - pose proof (GalvoDrivers_go_to_positions_commanded 10%Z demo_targets demo_group
                  demo_readback
                  (with_galvos
                     {[ "x" := demo_child "x" "DAC0" 100%Z 4 (Some 33168%Z);
          "z" := demo_child "z" "DAC1" 300%Z 4 (Some 32768%Z) ]}
                     demo_group)
                  demo_readback (Raise stopped_by_user) {[ "x" := 0%Z; "z" := 0%Z ]}
                  demo_moved demo_readback (Ok demo_targets)) as W.
    feed W.
    + vm_compute. reflexivity.
    + vm_compute. reflexivity.
    + vm_compute. reflexivity.
  - pose proof (GalvoDrivers_go_to_positions_commanded 10%Z {[ "x" := 100%Z ]} demo_group
                  demo_readback
                  (with_galvos
                     {[ "x" := demo_child "x" "DAC0" 100%Z 4 None;
          "z" := demo_child "z" "DAC1" 0%Z 3 None ]}
                     demo_group)
                  demo_readback (Raise (KeyError "z")) {[ "x" := 0%Z; "z" := 0%Z ]}
                  {[ "x" := demo_child "x" "DAC0" 100%Z 4 None;
          "z" := demo_child "z" "DAC1" 0%Z 3 None ]}
                  demo_readback (Raise (KeyError "z"))) as W.
    feed W.
    + vm_compute. reflexivity.
    + vm_compute. reflexivity.
    + vm_compute. reflexivity.
Defined.

Lemma GalvoDrivers_go_to_missing_argument_witness :
  GalvoDrivers_go_to 0%Z {[ "x" := 100%Z ]} demo_offline_group demo_readback
    = ((with_galvos
          {[ "x" := demo_child "x" "DAC0" 100%Z 4 None;
          "z" := demo_child "z" "DAC1" 0%Z 3 None ]}
          demo_offline_group, demo_readback), Raise (KeyError "z")) /\
  (forall k, k ∈ ["x"] ->
     exists d d' p,
       GalvoDrivers__galvos demo_offline_group !! k = Some d /\
       ({[ "x" := 100%Z ]} : gmap string Z) !! k = Some p /\
       ({[ "x" := demo_child "x" "DAC0" 100%Z 4 None;
          "z" := demo_child "z" "DAC1" 0%Z 3 None ]}
          : gmap string (GalvoDriver Z (gmap string Z))) !! k = Some d' /\
       GalvoDriver_pos d' = (p + GalvoDriver_origin d)%Z) /\
  (forall k, k ∉ ["x"] ->
     ({[ "x" := demo_child "x" "DAC0" 100%Z 4 None;
          "z" := demo_child "z" "DAC1" 0%Z 3 None ]}
        : gmap string (GalvoDriver Z (gmap string Z))) !! k
     = GalvoDrivers__galvos demo_offline_group !! k) /\
  ((forall k d, GalvoDrivers__galvos demo_offline_group !! k = Some d ->
      GalvoDriver_open_labjack d = None) ->
   demo_readback = demo_readback).
Proof.
  pose proof (GalvoDrivers_go_to_missing_argument 0%Z {[ "x" := 100%Z ]}
                demo_offline_group demo_readback ["x"] "z" [] {[ "x" := 0%Z; "z" := 0%Z ]}
                {[ "x" := demo_child "x" "DAC0" 100%Z 4 None;
          "z" := demo_child "z" "DAC1" 0%Z 3 None ]}
                demo_readback {[ "x" := 100%Z ]}) as W.
  feed W.
  - reflexivity.
  - vm_compute. reflexivity.
  - vm_compute. reflexivity.
  - vm_compute. reflexivity.
Defined.

Lemma GalvoDrivers_init_positions_witness :
  exists p (d : GalvoDriver Z (gmap string Z)),
    ({[ "x" := 0%Z; "z" := 0%Z ]} : gmap string Z) !! "z" = Some p /\
    GalvoDrivers__galvos demo_group !! "z" = Some d /\
    GalvoDriver_origin d = p /\ GalvoDriver_pos d = (p + p)%Z.
Proof.
  pose proof (fun Ha =>
                GalvoDrivers_init_positions ["x"; "z"] {[ "x" := "DAC0"; "z" := "DAC1" ]}
                  {[ "x" := 0%Z; "z" := 0%Z ]} (Some interrupted_labjack) demo_readback
                  demo_readback demo_group Ha "z") as W.
  feed W.
  - vm_compute. reflexivity.
  - repeat constructor.
Defined.

Lemma GalvoDrivers_set_origin_here_witness :
  exists g',
    GalvoDrivers_set_origin ∅ demo_group = Ok g' /\
    GalvoDrivers_axis g' = GalvoDrivers_axis demo_group /\
    forall ax d, GalvoDrivers__galvos demo_group !! ax = Some d ->
      exists d',
        GalvoDrivers__galvos g' !! ax = Some d' /\
        GalvoDriver__point d' = GalvoDriver__point d /\
        GalvoDriver__point_history d' = GalvoDriver__point_history d /\
        (ax ∈ GalvoDrivers_axis demo_group ->
           GalvoDriver__origin d' = GalvoDriver__point d /\
           GalvoDriver_origin d' = GalvoDriver_pos d) /\
        (ax ∉ GalvoDrivers_axis demo_group -> d' = d).
Proof.
  pose proof (GalvoDrivers_set_origin_here demo_group) as W.
  feed W. intros ax Hin. each_demo_axis ax Hin; vm_compute; eauto.
Defined.

Lemma GalvoDrivers_reset_origin_zero_witness :
  exists g',
    GalvoDrivers_reset_origin demo_group = Ok g' /\
    GalvoDrivers_axis g' = GalvoDrivers_axis demo_group /\
    forall ax d, GalvoDrivers__galvos demo_group !! ax = Some d ->
      exists d',
        GalvoDrivers__galvos g' !! ax = Some d' /\
        GalvoDriver__point d' = GalvoDriver__point d /\
        GalvoDriver__point_history d' = GalvoDriver__point_history d /\
        (ax ∈ GalvoDrivers_axis demo_group ->
           GalvoDriver_origin d' = 0%Z /\
           GalvoDriver__origin d' =
             mkPoint (GalvoDriver_axis d) 0%Z (pos_to_voltage (GalvoDriver_axis d) 0%Z)) /\
        (ax ∉ GalvoDrivers_axis demo_group -> d' = d).
Proof.
  pose proof (GalvoDrivers_reset_origin_zero demo_group) as W.
  feed W. by apply demo_wf.
Defined.

Lemma GalvoDrivers_reset_pos_origins_witness :
  exists g',
    GalvoDrivers_reset_pos demo_offline_group demo_readback = ((g', demo_readback), Ok tt) /\
    forall k, k ∈ GalvoDrivers_axis demo_offline_group ->
      exists d d',
        GalvoDrivers__galvos demo_offline_group !! k = Some d /\
        GalvoDrivers__galvos g' !! k = Some d' /\
        GalvoDriver_pos d' = (0 + GalvoDriver_origin d)%Z /\
        GalvoDriver__origin d' = GalvoDriver__origin d.
Proof.
  pose proof (GalvoDrivers_reset_pos_origins demo_offline_group demo_readback
                {[ "x" := 0%Z; "z" := 0%Z ]} {[ "x" := 0%Z; "z" := 0%Z ]}
                (mkMoveMultiDim 0%Z [("x", [32768%Z]); ("z", [32768%Z])])) as W.
  feed W.
  - reflexivity.
  - by apply demo_wf.
  - exact demo_children_offline.
  - vm_compute. reflexivity.
  - vm_compute. reflexivity.
  - intros ax d Hin Hd. split; apply demo_Move_total.
  - vm_compute. reflexivity.
Defined.

Lemma GalvoDrivers_dict_properties_witness :
  exists mp mo mh,
    GalvoDrivers_pos demo_group = Ok mp /\
    GalvoDrivers_origin demo_group = Ok mo /\
    GalvoDrivers_pos_history demo_group = Ok mh /\
    forall k,
      mp !! k = (if decide (k ∈ GalvoDrivers_axis demo_group)
                 then GalvoDriver_pos <$> GalvoDrivers__galvos demo_group !! k else None) /\
      mo !! k = (if decide (k ∈ GalvoDrivers_axis demo_group)
                 then GalvoDriver_origin <$> GalvoDrivers__galvos demo_group !! k else None) /\
      mh !! k = (if decide (k ∈ GalvoDrivers_axis demo_group)
                 then GalvoDriver_pos_history <$> GalvoDrivers__galvos demo_group !! k
                 else None).
Proof.
  pose proof (GalvoDrivers_dict_properties demo_group) as W.
  feed W. intros ax Hin. each_demo_axis ax Hin; vm_compute; eauto.
Defined.

Lemma GalvoDrivers_set_origin_frame_witness :
  GalvoDrivers_axis
    (with_galvos
       {[ "x" := with_origin (mkPoint "x" 70%Z 33468%Z) (demo_child "x" "DAC0" 0%Z 3 None);
          "z" := demo_child "z" "DAC1" 0%Z 3 None ]}
       demo_group) = GalvoDrivers_axis demo_group /\
  (forall k, GalvoDrivers__galvos demo_group !! k = None ->
             GalvoDrivers__galvos
               (with_galvos
       {[ "x" := with_origin (mkPoint "x" 70%Z 33468%Z) (demo_child "x" "DAC0" 0%Z 3 None);
          "z" := demo_child "z" "DAC1" 0%Z 3 None ]}
       demo_group) !! k = None) /\
  (forall k d, GalvoDrivers__galvos demo_group !! k = Some d ->
     exists d',
       GalvoDrivers__galvos
         (with_galvos
       {[ "x" := with_origin (mkPoint "x" 70%Z 33468%Z) (demo_child "x" "DAC0" 0%Z 3 None);
          "z" := demo_child "z" "DAC1" 0%Z 3 None ]}
       demo_group) !! k = Some d' /\
       GalvoDriver_axis d' = GalvoDriver_axis d /\
       GalvoDriver_dac_name d' = GalvoDriver_dac_name d /\
       GalvoDriver_open_labjack d' = GalvoDriver_open_labjack d /\
       GalvoDriver__point d' = GalvoDriver__point d /\
       GalvoDriver__point_history d' = GalvoDriver__point_history d) /\
  (GalvoDrivers_wf demo_group ->
   GalvoDrivers_wf
     (with_galvos
       {[ "x" := with_origin (mkPoint "x" 70%Z 33468%Z) (demo_child "x" "DAC0" 0%Z 3 None);
          "z" := demo_child "z" "DAC1" 0%Z 3 None ]}
       demo_group)).
Proof.
  pose proof (GalvoDrivers_set_origin_frame {[ "x" := 70%Z ]} demo_group
                (with_galvos
                   {[ "x" := with_origin (mkPoint "x" 70%Z 33468%Z)
                               (demo_child "x" "DAC0" 0%Z 3 None);
                      "z" := demo_child "z" "DAC1" 0%Z 3 None ]}
                   demo_group)) as W.
  feed W. vm_compute. reflexivity.
Defined.

Lemma GalvoDrivers_go_to_immediate_write_witness :
  exists out,
    GalvoDrivers_go_to 0%Z demo_targets demo_online_group demo_readback
      = ((with_galvos demo_moved demo_online_group, demo_readback), Ok (out, 0%Z)) /\
    forall k, k ∈ GalvoDrivers_axis demo_online_group ->
      exists d d' p x,
        GalvoDrivers__galvos demo_online_group !! k = Some d /\
        demo_targets !! k = Some p /\
        demo_moved !! k = Some d' /\
        GalvoDriver_pos d' = (p + GalvoDriver_origin d)%Z /\
        demo_readback !! GalvoDriver_dac_name d = Some x /\
        out !! k = Some (voltage_to_pos k x).
Proof.
  pose proof (GalvoDrivers_go_to_immediate_write 0%Z demo_targets demo_online_group
                demo_readback obedient_labjack {[ "x" := 0%Z; "z" := 0%Z ]} demo_moved
                demo_readback demo_targets
                (mkMoveMultiDim 0%Z [("x", [33768%Z]); ("z", [35768%Z])])
                [33768%Z; 35768%Z] demo_readback demo_readback) as W.
  feed W.
  - reflexivity.
  - vm_compute. reflexivity.
  - vm_compute. reflexivity.
  - vm_compute. reflexivity.
  - reflexivity.
  - repeat constructor.
  - reflexivity.
  - exact demo_registers.
Defined.

Lemma GalvoDrivers_go_to_stream_completes_witness :
  exists out,
    GalvoDrivers_go_to 10%Z demo_targets demo_online_group demo_readback
      = ((with_galvos demo_moved demo_online_group, demo_readback), Ok (out, 30%Z)) /\
    forall k, k ∈ GalvoDrivers_axis demo_online_group ->
      exists d d' p x,
        GalvoDrivers__galvos demo_online_group !! k = Some d /\
        demo_targets !! k = Some p /\
        demo_moved !! k = Some d' /\
        GalvoDriver_pos d' = (p + GalvoDriver_origin d)%Z /\
        demo_readback !! GalvoDriver_dac_name d = Some x /\
        out !! k = Some (voltage_to_pos k x).
Proof.
  pose proof (GalvoDrivers_go_to_stream_completes 10%Z demo_targets demo_online_group
                demo_readback obedient_labjack {[ "x" := 0%Z; "z" := 0%Z ]} demo_moved
                demo_readback demo_targets
                (mkMoveMultiDim 30%Z [("x", [32768%Z; 33768%Z]); ("z", [32768%Z; 35768%Z])])
                demo_readback demo_readback demo_readback demo_readback 30%Z
                demo_readback) as W.
  feed W.
  - reflexivity.
  - vm_compute. reflexivity.
  - vm_compute. reflexivity.
  - vm_compute. reflexivity.
  - reflexivity.
  - reflexivity.
  - reflexivity.
  - reflexivity.
  - reflexivity.
  - exact demo_registers.
Defined.

(** The positions of the examples doubled by the constructor. *)
Lemma demo_doubled k :
  ({[ "x" := 0%Z; "z" := 0%Z ]} : gmap string Z) !! k
  = if decide (k ∈ ["x"; "z"])
    then (fun p => nadd p p) <$> ({[ "x" := 0%Z; "z" := 0%Z ]} : gmap string Z) !! k
    else None.
Proof.
  destruct (decide (k = "x")) as [->|Hx]; [vm_compute; reflexivity|].
  destruct (decide (k = "z")) as [->|Hz]; [vm_compute; reflexivity|].
  rewrite decide_False.
  - rewrite lookup_insert_ne by done. by rewrite lookup_singleton_ne.
  - rewrite !elem_of_cons, elem_of_nil. intuition congruence.
Qed.

Lemma GalvoDrivers_init_validation_witness :
  (exists ax, ax ∈ ["x"; "z"] /\
     ((({[ "x" := "DAC0" ]} : gmap string string) !! ax = None /\
       GalvoDrivers_init (HW := unit) ["x"; "z"] {[ "x" := "DAC0" ]}
         {[ "x" := 0%Z; "z" := 0%Z ]} None tt = (tt, Raise (missing_dac_name ax))) \/
      (({[ "x" := 0%Z; "z" := 0%Z ]} : gmap string Z) !! ax = None /\
       GalvoDrivers_init (HW := unit) ["x"; "z"] {[ "x" := "DAC0" ]}
         {[ "x" := 0%Z; "z" := 0%Z ]} None tt = (tt, Raise (missing_pos_init ax))))) /\
  (exists g : GalvoDrivers Z unit,
     GalvoDrivers_init (H1 := cautious_planner) ["x"; "z"] {[ "x" := "DAC0"; "z" := "DAC1" ]}
       {[ "x" := 0%Z; "z" := 0%Z ]} None tt = (tt, Ok g) /\
     GalvoDrivers_axis g = ["x"; "z"] /\ GalvoDrivers_wf g) /\
  (exists g : GalvoDrivers Z (gmap string Z),
     GalvoDrivers_init ["x"; "z"] {[ "x" := "DAC0"; "z" := "DAC1" ]}
       {[ "x" := 0%Z; "z" := 0%Z ]} (Some interrupted_labjack) demo_readback
       = (demo_readback, Ok g) /\
     GalvoDrivers_axis g = ["x"; "z"] /\ GalvoDrivers_wf g).
Proof.
  split_and!.
  - apply (proj1 (GalvoDrivers_init_validation ["x"; "z"] {[ "x" := "DAC0" ]}
                    {[ "x" := 0%Z; "z" := 0%Z ]} None tt)).
    exists "z". split; [repeat constructor|]. left. vm_compute. reflexivity.
  - pose proof (proj2 (GalvoDrivers_init_validation (H1 := cautious_planner) ["x"; "z"]
                         {[ "x" := "DAC0"; "z" := "DAC1" ]}
                         {[ "x" := 0%Z; "z" := 0%Z ]} None tt)
                  {[ "x" := 0%Z; "z" := 0%Z ]}
                  (mkMoveMultiDim 0%Z [("x", [32768%Z]); ("z", [32768%Z])]) tt) as W.
    feed W.
    + intros ax Hin. each_demo_axis ax Hin; split; vm_compute; eauto.
    + intros ax Hin. each_demo_axis ax Hin; auto.
    + vm_compute. reflexivity.
    + vm_compute. reflexivity.
    + intros ax p Hin Hp.
      each_demo_axis ax Hin; vm_compute in Hp; simplify_eq;
        split; eexists; vm_compute; reflexivity.
    + exact demo_doubled.
    + vm_compute. reflexivity.
    + reflexivity.
  - pose proof (proj2 (GalvoDrivers_init_validation ["x"; "z"]
                         {[ "x" := "DAC0"; "z" := "DAC1" ]}
                         {[ "x" := 0%Z; "z" := 0%Z ]} (Some interrupted_labjack)
                         demo_readback)
                  {[ "x" := 0%Z; "z" := 0%Z ]}
                  (mkMoveMultiDim 0%Z [("x", [32768%Z]); ("z", [32768%Z])])
                  demo_readback) as W.
    feed W.
    + intros ax Hin. each_demo_axis ax Hin; split; vm_compute; eauto.
    + intros ax Hin. each_demo_axis ax Hin; auto.
    + vm_compute. reflexivity.
    + vm_compute. reflexivity.
    + intros ax p Hin Hp. split; apply demo_Move_total.
    + exact demo_doubled.
    + vm_compute. reflexivity.
    + exists 0%Z, demo_readback. split; [vm_compute; reflexivity|].
      intros ax dn Hin Hdn.
      each_demo_axis ax Hin; vm_compute in Hdn; simplify_eq; vm_compute; eauto.
Defined.
